(** * Verification of the deterministic analysis core of [labx]

    The development embeds the post-extraction pipeline of the repository
    (reference-range parsing, unit normalisation, flag computation, merge,
    trend and severity scoring, image-batch validation) as Rocq functions
    and proves the properties its specification states about them.

    Conventions of the embedding.
    - A Python [str] is the list of its code points ([Py.text]).  What Python
      takes from the Unicode database is concrete for ASCII and a parameter
      ([Py.UnicodeDB]) for everything else.
    - A Python [float] is an exact rational ([Q]): arithmetic and comparisons
      are those of the rationals, so NaN, infinities, signed zero and rounding
      of binary floating point are outside the model.
    - An exception is a value of an error type; a function that can raise
      returns [option] or [Py.result].
    - Pydantic objects that the code only reads are plain records.  The
      observation objects, which post-processing and merge mutate while
      reports share them, live in an explicit store ([Objects.store]) and are
      handled through references. *)

From Stdlib Require Import ZArith NArith QArith Qround Qabs Bool List String Ascii Lia.
From Stdlib Require Import Permutation Sorted.
Import ListNotations.

Set Implicit Arguments.

(** ** Python built-ins used by the code *)

Module Py.

(** *** Strings *)

Definition text := list N.

Definition str (s : string) : text :=
  List.map N_of_ascii (list_ascii_of_string s).

Fixpoint text_eqb (a b : text) : bool :=
  match a, b with
  | [], [] => true
  | x :: a', y :: b' => N.eqb x y && text_eqb a' b'
  | _, _ => false
  end.

Definition is_ascii (c : N) : bool := N.ltb c 128.

Definition ascii_isspace (c : N) : bool :=
  (N.leb 9 c && N.leb c 13) || (N.leb 28 c && N.leb c 32).

Definition ascii_isdigit (c : N) : bool := N.leb 48 c && N.leb c 57.
Definition ascii_isupper (c : N) : bool := N.leb 65 c && N.leb c 90.
Definition ascii_islower (c : N) : bool := N.leb 97 c && N.leb c 122.
Definition ascii_isalpha (c : N) : bool := ascii_isupper c || ascii_islower c.
Definition ascii_lower (c : N) : N := if ascii_isupper c then (c + 32)%N else c.
Definition ascii_upper (c : N) : N := if ascii_islower c then (c - 32)%N else c.

(** The dashes and comparison signs that the patterns of the parser name:
    en dash, em dash, less-or-equal, greater-or-equal. *)
Definition pattern_signs : list N := [8211; 8212; 8804; 8805]%N.

(** What the interpreter's Unicode database decides for code points beyond
    ASCII.  [uni_lower] and [uni_title] act on whole strings because
    [str.lower] and [str.title] are context sensitive there.  The only facts
    assumed of the database are that the signs above are neither white space
    nor digits. *)
Class UnicodeDB := {
  uni_isspace : N -> bool;
  uni_decimal : N -> option Z;
  uni_isalnum : N -> bool;
  uni_ieq : N -> N -> bool;
  uni_lower : text -> text;
  uni_title : text -> text;
  uni_isspace_signs : forall c, In c pattern_signs -> uni_isspace c = false;
  uni_decimal_signs : forall c, In c pattern_signs -> uni_decimal c = None
}.

(** The database that knows nothing beyond ASCII. *)
Definition ascii_only : UnicodeDB := {|
  uni_isspace := fun _ => false;
  uni_decimal := fun _ => None;
  uni_isalnum := fun _ => false;
  uni_ieq := N.eqb;
  uni_lower := fun t => t;
  uni_title := fun t => t;
  uni_isspace_signs := fun _ _ => eq_refl;
  uni_decimal_signs := fun _ _ => eq_refl
|}.

Section Strings.
Context {U : UnicodeDB}.

(** [str.isspace] on one code point, also the regex class [\s]. *)
Definition isspace (c : N) : bool :=
  if is_ascii c then ascii_isspace c else uni_isspace c.

(** Decimal value of a code point of the regex class [\d]. *)
Definition decimal (c : N) : option Z :=
  if is_ascii c
  then (if ascii_isdigit c then Some (Z.of_N c - 48)%Z else None)
  else uni_decimal c.

Definition isdigit (c : N) : bool :=
  match decimal c with Some _ => true | None => false end.

(** The regex class [\w]. *)
Definition isword (c : N) : bool :=
  if is_ascii c
  then ascii_isalpha c || ascii_isdigit c || N.eqb c 95
  else uni_isalnum c.

(** Does text character [x] match the pattern literal [c] under
    [re.IGNORECASE]? *)
Definition ieq (c x : N) : bool :=
  if is_ascii x && is_ascii c
  then N.eqb (ascii_lower x) (ascii_lower c)
  else uni_ieq c x.

Definition lower (t : text) : text :=
  if forallb is_ascii t then List.map ascii_lower t else uni_lower t.

(** [str.title] on ASCII: a letter is upper-cased unless the character
    before it is a letter, in which case it is lower-cased. *)
Fixpoint ascii_title (prev_cased : bool) (t : text) : text :=
  match t with
  | [] => []
  | c :: t' =>
      (if prev_cased then ascii_lower c else ascii_upper c)
        :: ascii_title (ascii_isalpha c) t'
  end.

Definition title (t : text) : text :=
  if forallb is_ascii t then ascii_title false t else uni_title t.

Fixpoint dropwhile (p : N -> bool) (t : text) : text :=
  match t with
  | [] => []
  | c :: t' => if p c then dropwhile p t' else t
  end.

Fixpoint takewhile (p : N -> bool) (t : text) : text :=
  match t with
  | [] => []
  | c :: t' => if p c then c :: takewhile p t' else []
  end.

Definition lstrip_chars (p : N -> bool) (t : text) : text := dropwhile p t.
Definition rstrip_chars (p : N -> bool) (t : text) : text :=
  rev (dropwhile p (rev t)).

(** [s.strip()] *)
Definition strip (t : text) : text :=
  rstrip_chars isspace (lstrip_chars isspace t).

(** [c in s] *)
Definition contains (c : N) (t : text) : bool := existsb (N.eqb c) t.

(** [s.split(c)[0]] *)
Definition split_first (c : N) (t : text) : text :=
  takewhile (fun x => negb (N.eqb x c)) t.

(** [s.split(c, 1)[1]]; [None] is the [IndexError] of a string without [c]. *)
Definition split1_second (c : N) (t : text) : option text :=
  match dropwhile (fun x => negb (N.eqb x c)) t with
  | [] => None
  | _ :: rest => Some rest
  end.

(** [s.replace(a, b)] for single characters. *)
Definition replace_char (a b : N) (t : text) : text :=
  List.map (fun c => if N.eqb c a then b else c) t.

(** [re.sub(r"\s+", "", s)] *)
Definition remove_whitespace (t : text) : text :=
  filter (fun c => negb (isspace c)) t.

(** [re.sub(r"\s+", "_", s)]: every maximal run of whitespace becomes
    one underscore. *)
Fixpoint underscore_runs (in_run : bool) (t : text) : text :=
  match t with
  | [] => []
  | c :: t' =>
      if isspace c
      then (if in_run then underscore_runs true t'
            else 95%N :: underscore_runs true t')
      else c :: underscore_runs false t'
  end.
End Strings.

(** *** Static dictionaries with string keys *)

Fixpoint dict_get {V : Type} (d : list (text * V)) (k : text) : option V :=
  match d with
  | [] => None
  | (k', v) :: d' => if text_eqb k' k then Some v else dict_get d' k
  end.

Definition dict_get_default {V : Type} (d : list (text * V)) (k : text) (dflt : V) : V :=
  match dict_get d k with Some v => v | None => dflt end.

(** *** Floats *)

Definition float := Q.

Definition feq (a b : float) : bool := Qeq_bool a b.
Definition fle (a b : float) : bool := Qle_bool a b.
Definition flt (a b : float) : bool := negb (Qle_bool b a).
Definition fgt (a b : float) : bool := flt b a.

(** [x or y] where [x] is an optional float: [None] and [0.0] are falsy. *)
Definition float_or (x : option float) (y : float) : float :=
  match x with
  | Some v => if feq v 0 then y else v
  | None => y
  end.

(** [min(a, b)] returns its first argument unless the second is smaller. *)
Definition fmin (a b : float) : float := if flt b a then b else a.

Definition round_half_even (q : Q) : Z :=
  let f := Qfloor q in
  match Qcompare (q - inject_Z f) (1 # 2) with
  | Lt => f
  | Gt => (f + 1)%Z
  | Eq => if Z.even f then f else (f + 1)%Z
  end.

(** [round(q, n)] for [n >= 0]. *)
Definition round (q : float) (n : nat) : float :=
  let scale := Pos.pow 10 (Pos.of_nat n) in
  match n with
  | O => inject_Z (round_half_even q)
  | S _ => Qred (Qmake (round_half_even (q * inject_Z (Zpos scale))) scale)
  end.

(** *** Exceptions *)

Inductive exn : Type :=
  | ValueError
  | IndexError
  | TypeError.

Inductive result (E A : Type) : Type :=
  | Ok (a : A)
  | Raise (e : E).
Arguments Ok {E A} a.
Arguments Raise {E A} e.

Definition bind {E A B} (m : result E A) (f : A -> result E B) : result E B :=
  match m with
  | Ok a => f a
  | Raise e => Raise e
  end.

(** A list comprehension whose body can raise: the first exception ends it. *)
Fixpoint map_result {E A B} (f : A -> result E B) (l : list A) : result E (list B) :=
  match l with
  | [] => Ok []
  | x :: l' =>
      bind (f x) (fun y => bind (map_result f l') (fun ys => Ok (y :: ys)))
  end.

(** *** [float(s)]

    The conversion of a string to a float, on the grammar
    [[+-]? digit+ (. digit+)?]; on any other string the model raises
    [ValueError] (Python accepts a few more spellings, none of which the
    patterns of the parser produce). *)
Section FloatOfText.
Context {U : UnicodeDB}.

Fixpoint digits_value (acc : Z) (ds : text) : option Z :=
  match ds with
  | [] => Some acc
  | c :: ds' =>
      match decimal c with
      | Some d => digits_value (acc * 10 + d) ds'
      | None => None
      end
  end.

Definition unsigned_of_text (body : text) : option float :=
  let ip := takewhile isdigit body in
  let rest := dropwhile isdigit body in
  match ip, digits_value 0 ip with
  | _ :: _, Some iv =>
      match rest with
      | [] => Some (inject_Z iv)
      | dot :: fp =>
          if N.eqb dot 46 then
            match fp, digits_value 0 fp with
            | _ :: _, Some fv =>
                Some (inject_Z iv
                      + Qmake fv (Pos.pow 10 (Pos.of_nat (List.length fp))))
            | _, _ => None
            end
          else None
      end
  | _, _ => None
  end.

Definition float_of_text (t : text) : result exn float :=
  let signed :=
    match t with
    | c :: body =>
        if N.eqb c 45 then option_map Qopp (unsigned_of_text body)
        else if N.eqb c 43 then unsigned_of_text body
        else unsigned_of_text t
    | [] => None
    end in
  match signed with
  | Some q => Ok q
  | None => Raise ValueError
  end.
End FloatOfText.

(** *** Sequences *)

(** [sorted(l, key=...)]: the stable sort.  [leb x y] says that [x] may stay
    in front of [y]; an element is inserted in front of the first element it
    may stay in front of, so equal keys keep their input order. *)
Section Sorted.
Variable A : Type.
Variable leb : A -> A -> bool.

Fixpoint insert (x : A) (l : list A) : list A :=
  match l with
  | [] => [x]
  | y :: l' => if leb x y then x :: l else y :: insert x l'
  end.

Fixpoint sorted (l : list A) : list A :=
  match l with
  | [] => []
  | x :: l' => insert x (sorted l')
  end.
End Sorted.

End Py.

(** ** Domain models ([labx/domain/models.py]) *)

Inductive Flag : Type :=
  | Flag_normal
  | Flag_low
  | Flag_high
  | Flag_critical_low
  | Flag_critical_high.

Definition Flag_eqb (a b : Flag) : bool :=
  match a, b with
  | Flag_normal, Flag_normal
  | Flag_low, Flag_low
  | Flag_high, Flag_high
  | Flag_critical_low, Flag_critical_low
  | Flag_critical_high, Flag_critical_high => true
  | _, _ => false
  end.

Inductive TrendDirection : Type :=
  | TrendDirection_improving
  | TrendDirection_worsening
  | TrendDirection_stable
  | TrendDirection_fluctuating.

Definition TrendDirection_eqb (a b : TrendDirection) : bool :=
  match a, b with
  | TrendDirection_improving, TrendDirection_improving
  | TrendDirection_worsening, TrendDirection_worsening
  | TrendDirection_stable, TrendDirection_stable
  | TrendDirection_fluctuating, TrendDirection_fluctuating => true
  | _, _ => false
  end.

(** [datetime.date]: ordered by year, then month, then day. *)
Module Date.
Record t : Type := mk { year : Z; month : Z; day : Z }.

Definition compare (a b : t) : comparison :=
  match Z.compare (year a) (year b) with
  | Eq =>
      match Z.compare (month a) (month b) with
      | Eq => Z.compare (day a) (day b)
      | c => c
      end
  | c => c
  end.

Definition leb (a b : t) : bool :=
  match compare a b with Gt => false | _ => true end.

Definition eqb (a b : t) : bool :=
  match compare a b with Eq => true | _ => false end.
End Date.

Module ReferenceRange.
Record t : Type := mk {
    low : option Py.float;
    high : option Py.float;
    raw_text : Py.text
}.

Definition is_bounded (r : t) : bool :=
  match low r, high r with
  | None, None => false
  | _, _ => true
  end.

(** [ReferenceRange()] *)
Definition default : t := mk None None [].
End ReferenceRange.

Module Observation.
Record t : Type := mk {
    date : Date.t;
    value : Py.float;
    raw_value : Py.text;
    flag_extracted : option Flag;
    flag_computed : option Flag;
    source_image_id : Py.text
}.

Definition set_flag_computed (f : option Flag) (o : t) : t :=
  mk (date o) (value o) (raw_value o) (flag_extracted o) f (source_image_id o).

Definition set_source_image_id (s : Py.text) (o : t) : t :=
  mk (date o) (value o) (raw_value o) (flag_extracted o) (flag_computed o) s.
End Observation.

(** [LabAnalyte], [LabPanel] and [LabReport] are parametric in what stands
    for an observation: the record itself where the code only reads it, a
    reference into the store where the code mutates it. *)
Module LabAnalyte.
Record t (O : Type) : Type := mk {
    raw_name : Py.text;
    raw_unit : Py.text;
    raw_range_text : Py.text;
    analyte_key : Py.text;
    display_name : Py.text;
    unit : Py.text;
    unit_canonical : Py.text;
    ref_range : ReferenceRange.t;
    observations : list O
}.
Arguments mk {O}.

(** [analyte.model_copy(update={"observations": obs})], also the
    assignment [analyte.observations = obs] on a copy. *)
Definition with_observations {O O'} (obs : list O') (a : t O) : t O' :=
  mk (raw_name a) (raw_unit a) (raw_range_text a) (analyte_key a)
     (display_name a) (unit a) (unit_canonical a) (ref_range a) obs.
End LabAnalyte.

Module LabPanel.
Record t (O : Type) : Type := mk {
    panel_name : Py.text;
    results : list (LabAnalyte.t O)
}.
Arguments mk {O}.
End LabPanel.

(** The fields of [LabReport] that the analysis core reads. *)
Module LabReport.
Record t (O : Type) : Type := mk {
    source_image_id : Py.text;
    panels : list (LabPanel.t O)
}.
Arguments mk {O}.
End LabReport.

Module LabTrend.
Record t : Type := mk {
    analyte_key : Py.text;
    display_name : Py.text;
    direction : TrendDirection;
    pct_change : Py.float;
    latest_value : option Py.float;
    latest_flag : option Flag;
    severity_score : Py.float;
    observations : list Observation.t
}.

(** [LabTrend(analyte_key=k, display_name=d)] *)
Definition default (k d : Py.text) : t :=
  mk k d TrendDirection_stable 0 None None 0 [].

Definition set_severity_score (s : Py.float) (x : t) : t :=
  mk (analyte_key x) (display_name x) (direction x) (pct_change x)
     (latest_value x) (latest_flag x) s (observations x).
End LabTrend.

(** ** Constants ([labx/config/constants.py]) *)

Module Constants.
Import Py.

Definition DEFAULT_CRITICAL_MULTIPLIER : float := 50 # 100.

Definition CRITICAL_MULTIPLIER_OVERRIDES : list (text * float) :=
  [ (str "potassium", 20 # 100);
    (str "sodium", 10 # 100);
    (str "glucose", 50 # 100);
    (str "calcium", 25 # 100);
    (str "magnesium", 30 # 100);
    (str "phosphate", 30 # 100);
    (str "troponin_i", 0);
    (str "troponin_t", 0);
    (str "inr", 50 # 100) ].

Definition SUPPORTED_MIME_TYPES : list text :=
  [ str "image/jpeg"; str "image/png"; str "image/webp"; str "image/gif" ].
End Constants.

(** ** Flag engine ([labx/domain/flags.py]) *)

Module Flags.
Import Py Constants.

Definition compute_flag (value : float) (ref : ReferenceRange.t)
    (analyte_key : text) : Flag :=
  if negb (ReferenceRange.is_bounded ref) then Flag_normal else
  let multiplier :=
    dict_get_default CRITICAL_MULTIPLIER_OVERRIDES analyte_key
      DEFAULT_CRITICAL_MULTIPLIER in
  let low_side :=
    match ReferenceRange.low ref with
    | Some lo =>
        if flt value lo then
          let span := float_or (ReferenceRange.high ref) lo - lo in
          let threshold :=
            if fgt span 0 then lo - span * multiplier else lo in
          if flt value threshold then Flag_critical_low else Flag_low
        else Flag_normal
    | None => Flag_normal
    end in
  match ReferenceRange.high ref with
  | Some hi =>
      if fgt value hi then
        let span := hi - float_or (ReferenceRange.low ref) 0 in
        let threshold :=
          if fgt span 0 then hi + span * multiplier else hi in
        if fgt value threshold then Flag_critical_high else Flag_high
      else low_side
  | None => low_side
  end.
End Flags.

(** ** Observation objects

    Post-processing and merge write into [Observation] objects that reports,
    panels and results share.  Those objects live in a store; analytes refer
    to them by reference, and two references may name one object. *)

Module Objects.
Definition ref := nat.
Definition store := ref -> Observation.t.

(** Replace the object behind a reference. *)
Definition store_set (h : store) (r : ref) (o : Observation.t) : store :=
  fun r' => if Nat.eqb r' r then o else h r'.

(** The analyte, panel and report that a reader of the store sees. *)
Definition deref_analyte (h : store) (a : LabAnalyte.t ref) : LabAnalyte.t Observation.t :=
  LabAnalyte.with_observations (List.map h (LabAnalyte.observations a)) a.

Definition deref_panel (h : store) (p : LabPanel.t ref) : LabPanel.t Observation.t :=
  LabPanel.mk (LabPanel.panel_name p) (List.map (deref_analyte h) (LabPanel.results p)).

Definition deref_report (h : store) (r : LabReport.t ref) : LabReport.t Observation.t :=
  LabReport.mk (LabReport.source_image_id r)
    (List.map (deref_panel h) (LabReport.panels r)).
End Objects.

(** ** Unit normaliser ([labx/domain/units.py]) *)

Module Units.
Import Py.

Definition _UNIT_ALIASES : list (text * text) :=
  [ (str "ml", str "mL");
    (str "dl", str "dL");
    (str "l", str "L");
    (str "mmol/l", str "mmol/L");
    (str "umol/l", str "umol/L");
    ([181%N] ++ str "mol/l", str "umol/L");
    (str "nmol/l", str "nmol/L");
    (str "meq/l", str "mEq/L");
    (str "mg/dl", str "mg/dL");
    (str "mg/l", str "mg/L");
    (str "g/dl", str "g/dL");
    (str "g/l", str "g/L");
    (str "ng/ml", str "ng/mL");
    (str "ng/dl", str "ng/dL");
    (str "pg/ml", str "pg/mL");
    (str "ug/ml", str "ug/mL");
    ([181%N] ++ str "g/ml", str "ug/mL");
    (str "iu/l", str "IU/L");
    (str "u/l", str "U/L");
    (str "iu/ml", str "IU/mL");
    (str "x10^9/l", str "x10^9/L");
    (str "x10^12/l", str "x10^12/L");
    (str "x10e9/l", str "x10^9/L");
    (str "x10e12/l", str "x10^12/L");
    (str "10^9/l", str "x10^9/L");
    (str "10^12/l", str "x10^12/L");
    (str "thou/ul", str "x10^3/uL");
    (str "mil/ul", str "x10^6/uL");
    (str "k/ul", str "x10^3/uL");
    (str "%", str "%");
    (str "percent", str "%");
    (str "sec", str "s");
    (str "seconds", str "s");
    (str "s", str "s");
    (str "fl", str "fL");
    (str "pg", str "pg");
    (str "mm/hr", str "mm/hr");
    (str "mm/h", str "mm/hr");
    (str "ratio", str "ratio") ].

(** Keys are pairs of unit strings. *)
Definition _CONVERSIONS : list ((text * text) * float) :=
  [ ((str "g/dL", str "g/L"), 10);
    ((str "g/L", str "g/dL"), 1 # 10);
    ((str "mg/dL", str "mg/L"), 10);
    ((str "mg/L", str "mg/dL"), 1 # 10);
    ((str "umol/L", str "mg/dL"), 113 # 10000);
    ((str "ng/mL", str "ug/L"), 1);
    ((str "ug/L", str "ng/mL"), 1);
    ((str "mEq/L", str "mmol/L"), 1);
    ((str "mmol/L", str "mEq/L"), 1) ].

Fixpoint conversions_get (d : list ((text * text) * float)) (k : text * text)
    : option float :=
  match d with
  | [] => None
  | ((f, t), v) :: d' =>
      if text_eqb f (fst k) && text_eqb t (snd k) then Some v
      else conversions_get d' k
  end.

Section WithUnicode.
Context {U : UnicodeDB}.

Definition normalize_unit (raw : text) : text :=
  let cleaned := lower (remove_whitespace (strip raw)) in
  dict_get_default _UNIT_ALIASES cleaned (strip raw).

(** [None] is Python's [None]: no conversion known. *)
Definition convert_value (value : float) (from_unit to_unit : text)
    : option float :=
  let f := normalize_unit from_unit in
  let t := normalize_unit to_unit in
  if text_eqb f t then Some value
  else
    match conversions_get _CONVERSIONS (f, t) with
    | None => None
    | Some factor => Some (value * factor)
    end.
End WithUnicode.
End Units.

(** ** The fragment of Python's [re] that the parser uses

    A backtracking matcher in continuation-passing style: alternatives are
    tried left to right, optional parts and repetitions are greedy, and a
    failed continuation makes the matcher fall back to the next choice, as
    [re] does. *)

Module Re.
Import Py.

Inductive regex : Type :=
  | Eps
  | Chr (p : N -> bool)
  | Seq (r1 r2 : regex)
  | Alt (r1 r2 : regex)
  | Opt (r : regex)
  | Star (p : N -> bool)
  | Group (name : string) (r : regex)
  | Bol
  | Eol.

(** [p+] for a character class. *)
Definition Plus (p : N -> bool) : regex := Seq (Chr p) (Star p).

(** A character class given by its members. *)
Definition one_of (cs : list N) : N -> bool := fun x => existsb (N.eqb x) cs.

Fixpoint seq_of (rs : list regex) : regex :=
  match rs with
  | [] => Eps
  | [r] => r
  | r :: rs' => Seq r (seq_of rs')
  end.

(** Captured groups, most recent first. *)
Definition caps := list (string * text).

Definition cont (A : Type) := nat -> text -> caps -> option A.

Fixpoint star_match {A} (p : N -> bool) (pos : nat) (s : text) (c : caps)
    (k : cont A) : option A :=
  match s with
  | x :: s' =>
      if p x then
        match star_match p (S pos) s' c k with
        | Some r => Some r
        | None => k pos s c
        end
      else k pos s c
  | [] => k pos s c
  end.

Fixpoint mtch {A} (r : regex) (pos : nat) (s : text) (c : caps)
    (k : cont A) : option A :=
  match r with
  | Eps => k pos s c
  | Chr p =>
      match s with
      | x :: s' => if p x then k (S pos) s' c else None
      | [] => None
      end
  | Seq r1 r2 => mtch r1 pos s c (fun pos' s' c' => mtch r2 pos' s' c' k)
  | Alt r1 r2 =>
      match mtch r1 pos s c k with
      | Some x => Some x
      | None => mtch r2 pos s c k
      end
  | Opt r1 =>
      match mtch r1 pos s c k with
      | Some x => Some x
      | None => k pos s c
      end
  | Star p => star_match p pos s c k
  | Group n r1 =>
      mtch r1 pos s c
        (fun pos' s' c' => k pos' s' ((n, firstn (pos' - pos) s) :: c'))
  | Bol => if Nat.eqb pos 0 then k pos s c else None
  | Eol =>
      match s with
      | [] => k pos s c
      | [x] => if N.eqb x 10 then k pos s c else None
      | _ => None
      end
  end.

(** A match object: the groups of a successful match. *)
Definition match_obj := caps.

Definition match_at (r : regex) (pos : nat) (s : text) : option match_obj :=
  mtch r pos s [] (fun _ _ c => Some c).

(** [pattern.match(s)] *)
Definition match_ (r : regex) (s : text) : option match_obj := match_at r 0 s.

(** [pattern.search(s)]: the first position at which the pattern matches. *)
Fixpoint search_from (r : regex) (pos : nat) (s : text) : option match_obj :=
  match match_at r pos s with
  | Some m => Some m
  | None =>
      match s with
      | [] => None
      | _ :: s' => search_from r (S pos) s'
      end
  end.

Definition search (r : regex) (s : text) : option match_obj := search_from r 0 s.

(** [m.group(name)] *)
Fixpoint group (m : match_obj) (name : string) : option text :=
  match m with
  | [] => None
  | (n, t) :: m' => if String.eqb n name then Some t else group m' name
  end.

(** The strings a pattern can match, anchors read as the empty string. *)
Inductive lang : regex -> text -> Prop :=
  | lang_Eps : lang Eps []
  | lang_Chr p x : p x = true -> lang (Chr p) [x]
  | lang_Seq r1 r2 t1 t2 : lang r1 t1 -> lang r2 t2 -> lang (Seq r1 r2) (t1 ++ t2)
  | lang_Alt_l r1 r2 t : lang r1 t -> lang (Alt r1 r2) t
  | lang_Alt_r r1 r2 t : lang r2 t -> lang (Alt r1 r2) t
  | lang_Opt_some r t : lang r t -> lang (Opt r) t
  | lang_Opt_none r : lang (Opt r) []
  | lang_Star p t : Forall (fun x => p x = true) t -> lang (Star p) t
  | lang_Group n r t : lang r t -> lang (Group n r) t
  | lang_Bol : lang Bol []
  | lang_Eol : lang Eol [].

(** [s] has a substring that the pattern can match. *)
Definition occurs (r : regex) (s : text) : Prop :=
  exists pre t post, s = pre ++ t ++ post /\ lang r t.

Fixpoint anchor_free (r : regex) : Prop :=
  match r with
  | Bol | Eol => False
  | Seq r1 r2 | Alt r1 r2 => anchor_free r1 /\ anchor_free r2
  | Opt r1 | Group _ r1 => anchor_free r1
  | Eps | Chr _ | Star _ => True
  end.

(** The groups that every successful match sets. *)
Fixpoint mandatory (r : regex) : list string :=
  match r with
  | Group n r1 => n :: mandatory r1
  | Seq r1 r2 => mandatory r1 ++ mandatory r2
  | _ => []
  end.

(** Every group of the pattern captures only strings with property [P]. *)
Fixpoint groups_sat (P : text -> Prop) (r : regex) : Prop :=
  match r with
  | Group _ r1 => (forall t, lang r1 t -> P t) /\ groups_sat P r1
  | Seq r1 r2 | Alt r1 r2 => groups_sat P r1 /\ groups_sat P r2
  | Opt r1 => groups_sat P r1
  | Eps | Chr _ | Star _ | Bol | Eol => True
  end.
End Re.

(** ** Reference-range parser ([labx/domain/reference.py]) *)

Module Reference.
Import Py Re.

Section WithUnicode.
Context {U : UnicodeDB}.

(** [[+-]?\d+(?:\.\d+)?] *)
Definition _NUM : regex :=
  seq_of [ Opt (Chr (one_of [43; 45]%N));
           Plus isdigit;
           Opt (Seq (Chr (one_of [46]%N)) (Plus isdigit)) ].

(** [(?P<lo>NUM) \s* (?: [-–—] | to ) \s* (?P<hi>NUM)] (the source writes it
    without the spaces) *)
Definition _RANGE_RE : regex :=
  seq_of [ Group "lo" _NUM;
           Star isspace;
           Alt (Chr (one_of [45; 8211; 8212]%N))
               (Seq (Chr (one_of [116]%N)) (Chr (one_of [111]%N)));
           Star isspace;
           Group "hi" _NUM ].

(** [(?: [<≤] \s* =? \s* ) (?P<hi>NUM)] *)
Definition _UPPER_ONLY_RE : regex :=
  seq_of [ Chr (one_of [60; 8804]%N);
           Star isspace;
           Opt (Chr (one_of [61]%N));
           Star isspace;
           Group "hi" _NUM ].

(** [(?: [>≥] \s* =? \s* ) (?P<lo>NUM)] *)
Definition _LOWER_ONLY_RE : regex :=
  seq_of [ Chr (one_of [62; 8805]%N);
           Star isspace;
           Opt (Chr (one_of [61]%N));
           Star isspace;
           Group "lo" _NUM ].

(** A literal under [(?i)]. *)
Definition ilit (s : string) : regex :=
  seq_of (List.map (fun c => Chr (ieq c)) (str s)).

(** [(?i)^(negative|non[- ]?reactive|not detected|absent|normal)$] *)
Definition _QUALITATIVE_RE : regex :=
  seq_of [ Bol;
           Group "1"
             (Alt (ilit "negative")
             (Alt (seq_of [ ilit "non";
                            Opt (Chr (fun x => ieq 45 x || ieq 32 x));
                            ilit "reactive" ])
             (Alt (ilit "not detected")
             (Alt (ilit "absent")
                  (ilit "normal")))));
           Eol ].

(** [float(m.group(name))] *)
Definition float_group (m : match_obj) (name : string) : result exn float :=
  match group m name with
  | Some t => float_of_text t
  | None => Raise TypeError
  end.

Definition parse_reference_range (raw : text)
    : result exn ReferenceRange.t :=
  let text := strip raw in
  match text with
  | [] => Ok (ReferenceRange.mk None None raw)
  | _ :: _ =>
  match match_ _QUALITATIVE_RE text with
  | Some _ => Ok (ReferenceRange.mk None None raw)
  | None =>
  bind
    (if contains 59 text then
       let text := strip (split_first 59 text) in
       if contains 58 text then
         match split1_second 58 text with
         | Some rest => Ok (strip rest)
         | None => Raise IndexError
         end
       else Ok text
     else Ok text)
    (fun text =>
  match search _RANGE_RE text with
  | Some m =>
      bind (float_group m "lo") (fun lo =>
      bind (float_group m "hi") (fun hi =>
      Ok (ReferenceRange.mk (Some lo) (Some hi) raw)))
  | None =>
  match search _UPPER_ONLY_RE text with
  | Some m =>
      bind (float_group m "hi") (fun hi =>
      Ok (ReferenceRange.mk None (Some hi) raw))
  | None =>
  match search _LOWER_ONLY_RE text with
  | Some m =>
      bind (float_group m "lo") (fun lo =>
      Ok (ReferenceRange.mk (Some lo) None raw))
  | None => Ok (ReferenceRange.mk None None raw)
  end end end)
  end end.
End WithUnicode.
End Reference.

(** ** Trend engine ([labx/domain/trends.py]) *)

Module Trends.
Import Py.

Definition _pct_change (first last : float) : float :=
  if feq first 0 then (if feq last 0 then 0 else 100)
  else ((last - first) / Qabs first) * 100.

(** [obs[i].value - obs[i - 1].value for i in range(1, len(obs))] *)
Fixpoint diffs (obs : list Observation.t) : list float :=
  match obs with
  | a :: (b :: _) as rest => (Observation.value b - Observation.value a) :: diffs rest
  | _ => []
  end.

(** [sum(1 for d in ds if p(d))] *)
Definition count (p : float -> bool) (ds : list float) : nat :=
  List.length (filter p ds).

Definition _slope_sign (obs : list Observation.t) : Z :=
  if Nat.ltb (List.length obs) 2 then 0%Z else
  let ds := diffs obs in
  let positive := count (fun d => fgt d 0) ds in
  let negative := count (fun d => flt d 0) ds in
  if Nat.ltb negative positive then 1%Z
  else if Nat.ltb positive negative then (-1)%Z
  else 0%Z.

(** One turn of the loop of [_is_fluctuating]; the state is
    [(reversals, prev_sign)]. *)
Definition fluctuation_step (st : nat * Z) (d : float) : nat * Z :=
  let '(reversals, prev_sign) := st in
  let sign := if fgt d 0 then 1%Z else if flt d 0 then (-1)%Z else 0%Z in
  let reversals :=
    if negb (Z.eqb sign 0) && negb (Z.eqb prev_sign 0) && negb (Z.eqb sign prev_sign)
    then S reversals else reversals in
  let prev_sign := if negb (Z.eqb sign 0) then sign else prev_sign in
  (reversals, prev_sign).

Definition _is_fluctuating (obs : list Observation.t) : bool :=
  if Nat.ltb (List.length obs) 3 then false else
  let '(reversals, _) := fold_left fluctuation_step (diffs obs) (O, 0%Z) in
  Nat.leb 2 reversals.

Definition _determine_direction (obs : list Observation.t) (latest_flag : Flag)
    : TrendDirection :=
  if Nat.ltb (List.length obs) 2 then TrendDirection_stable else
  if _is_fluctuating obs then TrendDirection_fluctuating else
  let slope := _slope_sign obs in
  match latest_flag with
  | Flag_high | Flag_critical_high =>
      if Z.ltb slope 0 then TrendDirection_improving
      else if Z.gtb slope 0 then TrendDirection_worsening
      else TrendDirection_stable
  | Flag_low | Flag_critical_low =>
      if Z.gtb slope 0 then TrendDirection_improving
      else if Z.ltb slope 0 then TrendDirection_worsening
      else TrendDirection_stable
  | Flag_normal => TrendDirection_stable
  end.

(** [sorted(observations, key=lambda o: o.date)] *)
Definition sorted_by_date (obs : list Observation.t) : list Observation.t :=
  sorted (fun a b => Date.leb (Observation.date a) (Observation.date b)) obs.

(** [latest.flag_computed or latest.flag_extracted or Flag.normal]: every
    member of [Flag] is a non-empty string, hence truthy. *)
Definition latest_flag_of (latest : Observation.t) : Flag :=
  match Observation.flag_computed latest, Observation.flag_extracted latest with
  | Some f, _ => f
  | None, Some f => f
  | None, None => Flag_normal
  end.

Definition compute_trend (analyte : LabAnalyte.t Observation.t) : LabTrend.t :=
  let obs := sorted_by_date (LabAnalyte.observations analyte) in
  match obs with
  | [] =>
      LabTrend.default (LabAnalyte.analyte_key analyte)
        (LabAnalyte.display_name analyte)
  | earliest :: _ =>
      let latest := last obs earliest in
      let pct := _pct_change (Observation.value earliest) (Observation.value latest) in
      let latest_flag := latest_flag_of latest in
      let direction := _determine_direction obs latest_flag in
      LabTrend.mk (LabAnalyte.analyte_key analyte)
        (LabAnalyte.display_name analyte)
        direction (round pct 2) (Some (Observation.value latest))
        (Some latest_flag) 0 obs
  end.
End Trends.

(** ** Severity scorer ([labx/domain/severity.py]) *)

Module Severity.
Import Py.

Definition _FLAG_WEIGHT : list (Flag * float) :=
  [ (Flag_critical_high, 100);
    (Flag_critical_low, 100);
    (Flag_high, 50);
    (Flag_low, 50);
    (Flag_normal, 0) ].

Definition _DIRECTION_WEIGHT : list (TrendDirection * float) :=
  [ (TrendDirection_worsening, 30);
    (TrendDirection_fluctuating, 15);
    (TrendDirection_stable, 0);
    (TrendDirection_improving, -10) ].

(** [d.get(k, dflt)] for a dictionary keyed by an enumeration. *)
Fixpoint enum_get {K : Type} (eqb : K -> K -> bool) (d : list (K * float))
    (k : K) (dflt : float) : float :=
  match d with
  | [] => dflt
  | (k', v) :: d' => if eqb k' k then v else enum_get eqb d' k dflt
  end.

Definition compute_severity (trend : LabTrend.t) : float :=
  let flag_w :=
    enum_get Flag_eqb _FLAG_WEIGHT
      (match LabTrend.latest_flag trend with Some f => f | None => Flag_normal end)
      0 in
  let dir_w :=
    enum_get TrendDirection_eqb _DIRECTION_WEIGHT (LabTrend.direction trend) 0 in
  let mag_w := fmin (Qabs (LabTrend.pct_change trend)) 200 * (1 # 10) in
  round (flag_w + dir_w + mag_w) 2.

(** The loop assigns the score to every trend object; the assignment reads
    no score, so a trend listed twice gets the same value both times and a
    list of rewritten records describes the outcome.  [reverse=True] keeps
    the sort stable. *)
Definition sort_trends_by_severity (trends : list LabTrend.t) : list LabTrend.t :=
  let trends :=
    List.map (fun t => LabTrend.set_severity_score (compute_severity t) t) trends in
  sorted
    (fun a b => fle (LabTrend.severity_score b) (LabTrend.severity_score a))
    trends.
End Severity.

(** ** Merge engine ([labx/pipeline/merge.py])

    [merge_reports] writes [source_image_id] into the observation objects of
    its input and hands the same objects out in its result, so it runs on the
    store of observation objects. *)

Module Merge.
Import Py Objects.

(** *** Insertion-ordered dictionaries

    A Python [dict] keeps its keys in order of first insertion; assigning to
    a key that is present replaces the value in place. *)
Section ODict.
Variables K V : Type.
Variable eqb : K -> K -> bool.

Fixpoint odict_get (d : list (K * V)) (k : K) : option V :=
  match d with
  | [] => None
  | (k', v) :: d' => if eqb k' k then Some v else odict_get d' k
  end.

Fixpoint odict_set (d : list (K * V)) (k : K) (v : V) : list (K * V) :=
  match d with
  | [] => [(k, v)]
  | (k', v') :: d' =>
      if eqb k' k then (k', v) :: d' else (k', v') :: odict_set d' k v
  end.

(** [d.values()] *)
Definition odict_values (d : list (K * V)) : list V := List.map snd d.
End ODict.

(** *** Keys *)

Fixpoint text_of_uint (u : Decimal.uint) : text :=
  match u with
  | Decimal.Nil => []
  | Decimal.D0 u' => 48%N :: text_of_uint u'
  | Decimal.D1 u' => 49%N :: text_of_uint u'
  | Decimal.D2 u' => 50%N :: text_of_uint u'
  | Decimal.D3 u' => 51%N :: text_of_uint u'
  | Decimal.D4 u' => 52%N :: text_of_uint u'
  | Decimal.D5 u' => 53%N :: text_of_uint u'
  | Decimal.D6 u' => 54%N :: text_of_uint u'
  | Decimal.D7 u' => 55%N :: text_of_uint u'
  | Decimal.D8 u' => 56%N :: text_of_uint u'
  | Decimal.D9 u' => 57%N :: text_of_uint u'
  end.

Definition digit_char (z : Z) : N := (48 + Z.to_N (z mod 10))%N.

(** [f"{q:.4f}"]: sign, integer part, point, four decimals, the value rounded
    half to even. *)
Definition format_4f (q : float) : text :=
  let n := round_half_even (Qabs q * 10000) in
  let sign := if flt q 0 then [45%N] else [] in
  sign
  ++ text_of_uint (N.to_uint (Z.to_N (n / 10000)))
  ++ [46%N; digit_char (n / 1000); digit_char (n / 100);
      digit_char (n / 10); digit_char n].

Definition _range_signature (ref : ReferenceRange.t) : text :=
  let lo :=
    match ReferenceRange.low ref with
    | Some l => format_4f l
    | None => str "None"
    end in
  let hi :=
    match ReferenceRange.high ref with
    | Some h => format_4f h
    | None => str "None"
    end in
  lo ++ str "|" ++ hi.

(** The source builds the string [isoformat(date) + "|" + repr(value)].  An
    ISO date has a fixed width and both renderings are injective, so two such
    strings are equal exactly when the dates are equal and the values are
    equal; the model keeps the pair and compares it with [obs_key_eqb]. *)
Definition _obs_key (obs : Observation.t) : Date.t * float :=
  (Observation.date obs, Observation.value obs).

Definition obs_key_eqb (a b : Date.t * float) : bool :=
  Date.eqb (fst a) (fst b) && feq (snd a) (snd b).

Definition _merge_key {O} (analyte : LabAnalyte.t O) : text :=
  LabAnalyte.analyte_key analyte ++ str "|"
  ++ LabAnalyte.unit_canonical analyte ++ str "|"
  ++ _range_signature (LabAnalyte.ref_range analyte).

(** *** [merge_reports] *)

Definition obs_dict := list ((Date.t * float) * ref).
Definition merged_dict := list (text * (LabAnalyte.t ref * obs_dict)).

(** The body of [for obs in analyte.observations]. *)
Definition merge_observation (source_image_id : text) (st : store * obs_dict)
    (obs : ref) : store * obs_dict :=
  let '(h, od) := st in
  let h := store_set h obs (Observation.set_source_image_id source_image_id (h obs)) in
  let ok := _obs_key (h obs) in
  (h, odict_set obs_key_eqb od ok obs).

(** The body of [for analyte in panel.results].  The last branch stands for
    the [KeyError] of [merged[key]], which cannot happen: the key is present
    or has just been inserted. *)
Definition merge_analyte (source_image_id : text) (st : store * merged_dict)
    (analyte : LabAnalyte.t ref) : store * merged_dict :=
  let '(h, merged) := st in
  let key := _merge_key analyte in
  let merged :=
    match odict_get text_eqb merged key with
    | Some _ => merged
    | None =>
        let template := LabAnalyte.with_observations [] analyte in
        odict_set text_eqb merged key (template, [])
    end in
  match odict_get text_eqb merged key with
  | Some (template, od) =>
      let '(h, od) :=
        fold_left (merge_observation source_image_id)
          (LabAnalyte.observations analyte) (h, od) in
      (h, odict_set text_eqb merged key (template, od))
  | None => (h, merged)
  end.

Definition merge_panel (source_image_id : text) (st : store * merged_dict)
    (panel : LabPanel.t ref) : store * merged_dict :=
  fold_left (merge_analyte source_image_id) (LabPanel.results panel) st.

Definition merge_report (st : store * merged_dict) (report : LabReport.t ref)
    : store * merged_dict :=
  fold_left (merge_panel (LabReport.source_image_id report))
    (LabReport.panels report) st.

(** [sorted(obs_dict.values(), key=lambda o: o.date)] *)
Definition sorted_refs (h : store) (od : obs_dict) : list ref :=
  sorted
    (fun a b => Date.leb (Observation.date (h a)) (Observation.date (h b)))
    (odict_values od).

Definition assemble (h : store) (merged : merged_dict) : list (LabAnalyte.t ref) :=
  List.map
    (fun entry : text * (LabAnalyte.t ref * obs_dict) =>
       let '(template, od) := snd entry in
       LabAnalyte.with_observations (sorted_refs h od) template)
    merged.

(** The function returns the list of merged analytes; the store it leaves
    behind is returned with it. *)
Definition merge_reports (h : store) (reports : list (LabReport.t ref))
    : store * list (LabAnalyte.t ref) :=
  let '(h, merged) := fold_left merge_report reports (h, []) in
  (h, assemble h merged).

(** [sum(len(a.observations) for a in result)] *)
Definition total_observations {T : Type} (result : list (LabAnalyte.t T)) : nat :=
  fold_right (fun a n => (List.length (LabAnalyte.observations a) + n)%nat) 0%nat result.
End Merge.

(** ** Post-processor ([labx/pipeline/postprocess.py]) *)

Module Postprocess.
Import Py Objects.

Definition _ANALYTE_ALIASES : list (text * text) :=
  [ (str "na", str "sodium");
    (str "na+", str "sodium");
    (str "sod", str "sodium");
    (str "sod.", str "sodium");
    (str "sodium", str "sodium");
    (str "k", str "potassium");
    (str "k+", str "potassium");
    (str "pot", str "potassium");
    (str "potassium", str "potassium");
    (str "cl", str "chloride");
    (str "cl-", str "chloride");
    (str "chloride", str "chloride");
    (str "co2", str "bicarbonate");
    (str "hco3", str "bicarbonate");
    (str "hco3-", str "bicarbonate");
    (str "tco2", str "bicarbonate");
    (str "bicarbonate", str "bicarbonate");
    (str "bicarb", str "bicarbonate");
    (str "ca", str "calcium");
    (str "ca++", str "calcium");
    (str "calcium", str "calcium");
    (str "ca total", str "calcium");
    (str "mg", str "magnesium");
    (str "mg++", str "magnesium");
    (str "magnesium", str "magnesium");
    (str "phos", str "phosphate");
    (str "po4", str "phosphate");
    (str "phosphorus", str "phosphate");
    (str "phosphate", str "phosphate");
    (str "bun", str "bun");
    (str "urea", str "bun");
    (str "urea nitrogen", str "bun");
    (str "cr", str "creatinine");
    (str "crea", str "creatinine");
    (str "creat", str "creatinine");
    (str "creatinine", str "creatinine");
    (str "egfr", str "egfr");
    (str "gfr", str "egfr");
    (str "glu", str "glucose");
    (str "glucose", str "glucose");
    (str "gluc", str "glucose");
    (str "blood sugar", str "glucose");
    (str "bs", str "glucose");
    (str "wbc", str "white_blood_cells");
    (str "white blood cells", str "white_blood_cells");
    (str "white blood cell count", str "white_blood_cells");
    (str "rbc", str "red_blood_cells");
    (str "red blood cells", str "red_blood_cells");
    (str "hgb", str "hemoglobin");
    (str "hb", str "hemoglobin");
    (str "hemoglobin", str "hemoglobin");
    (str "haemoglobin", str "hemoglobin");
    (str "hct", str "hematocrit");
    (str "hematocrit", str "hematocrit");
    (str "haematocrit", str "hematocrit");
    (str "plt", str "platelets");
    (str "platelets", str "platelets");
    (str "platelet count", str "platelets");
    (str "mcv", str "mcv");
    (str "mch", str "mch");
    (str "mchc", str "mchc");
    (str "rdw", str "rdw");
    (str "mpv", str "mpv");
    (str "neut", str "neutrophils");
    (str "neutrophils", str "neutrophils");
    (str "neutrophil", str "neutrophils");
    (str "neut%", str "neutrophils_pct");
    (str "lymph", str "lymphocytes");
    (str "lymphocytes", str "lymphocytes");
    (str "lymph%", str "lymphocytes_pct");
    (str "mono", str "monocytes");
    (str "monocytes", str "monocytes");
    (str "eos", str "eosinophils");
    (str "eosinophils", str "eosinophils");
    (str "baso", str "basophils");
    (str "basophils", str "basophils");
    (str "alt", str "alt");
    (str "sgpt", str "alt");
    (str "ast", str "ast");
    (str "sgot", str "ast");
    (str "alp", str "alp");
    (str "alkaline phosphatase", str "alp");
    (str "alk phos", str "alp");
    (str "ggt", str "ggt");
    (str "gamma gt", str "ggt");
    (str "tbil", str "total_bilirubin");
    (str "total bilirubin", str "total_bilirubin");
    (str "t. bilirubin", str "total_bilirubin");
    (str "bilirubin total", str "total_bilirubin");
    (str "dbil", str "direct_bilirubin");
    (str "direct bilirubin", str "direct_bilirubin");
    (str "d. bilirubin", str "direct_bilirubin");
    (str "albumin", str "albumin");
    (str "alb", str "albumin");
    (str "total protein", str "total_protein");
    (str "tp", str "total_protein");
    (str "pt", str "pt");
    (str "prothrombin time", str "pt");
    (str "inr", str "inr");
    (str "aptt", str "aptt");
    (str "ptt", str "aptt");
    (str "troponin i", str "troponin_i");
    (str "tni", str "troponin_i");
    (str "hs-tni", str "troponin_i");
    (str "troponin t", str "troponin_t");
    (str "tnt", str "troponin_t");
    (str "hs-tnt", str "troponin_t");
    (str "bnp", str "bnp");
    (str "nt-probnp", str "nt_probnp");
    (str "pro-bnp", str "nt_probnp");
    (str "ck", str "ck");
    (str "cpk", str "ck");
    (str "ck-mb", str "ck_mb");
    (str "ldh", str "ldh");
    (str "tsh", str "tsh");
    (str "ft4", str "free_t4");
    (str "free t4", str "free_t4");
    (str "ft3", str "free_t3");
    (str "free t3", str "free_t3");
    (str "t4", str "total_t4");
    (str "t3", str "total_t3");
    (str "iron", str "iron");
    (str "fe", str "iron");
    (str "ferritin", str "ferritin");
    (str "tibc", str "tibc");
    (str "transferrin sat", str "transferrin_saturation");
    (str "crp", str "crp");
    (str "c-reactive protein", str "crp");
    (str "esr", str "esr");
    (str "sed rate", str "esr");
    (str "procalcitonin", str "procalcitonin");
    (str "pct", str "procalcitonin");
    (str "hba1c", str "hba1c");
    (str "a1c", str "hba1c");
    (str "glycated hemoglobin", str "hba1c");
    (str "total cholesterol", str "total_cholesterol");
    (str "chol", str "total_cholesterol");
    (str "ldl", str "ldl");
    (str "ldl-c", str "ldl");
    (str "hdl", str "hdl");
    (str "hdl-c", str "hdl");
    (str "triglycerides", str "triglycerides");
    (str "trig", str "triglycerides");
    (str "tg", str "triglycerides");
    (str "ph", str "ph");
    (str "pco2", str "pco2");
    (str "po2", str "po2");
    (str "pao2", str "po2");
    (str "sao2", str "sao2");
    (str "lactate", str "lactate");
    (str "urine protein", str "urine_protein");
    (str "urine glucose", str "urine_glucose");
    (str "urine ph", str "urine_ph");
    (str "specific gravity", str "specific_gravity") ].

Section WithUnicode.
Context {U : UnicodeDB}.

Definition _normalize_analyte_key (raw_name : text) : text :=
  let kept (c : N) := isword c || isspace c || Re.one_of [46; 43; 45]%N c in
  let cleaned := strip (lower (filter kept (strip raw_name))) in
  match dict_get _ANALYTE_ALIASES cleaned with
  | Some key => key
  | None =>
      let stripped := rstrip_chars (Re.one_of [46; 32]%N) cleaned in
      match dict_get _ANALYTE_ALIASES stripped with
      | Some key => key
      | None => underscore_runs false cleaned
      end
  end.

Definition _make_display_name (analyte_key : text) : text :=
  title (replace_char 95 32 analyte_key).

(** A string is truthy when it is not empty. *)
Definition nonempty (t : text) : bool :=
  match t with [] => false | _ :: _ => true end.

(** The loop over [analyte.observations]: every observation object gets its
    recomputed flag (the comparison with the extracted flag only logs). *)
Definition recompute_flag (ref_range : ReferenceRange.t) (analyte_key : text)
    (h : store) (obs : ref) : store :=
  store_set h obs
    (Observation.set_flag_computed
       (Some (Flags.compute_flag (Observation.value (h obs)) ref_range analyte_key))
       (h obs)).

(** The analyte is rewritten field by field; its observation objects are
    rewritten in the store. *)
Definition _normalize_analyte (h : store) (analyte : LabAnalyte.t ref)
    : result exn (store * LabAnalyte.t ref) :=
  let raw_name := LabAnalyte.raw_name analyte in
  let analyte_key :=
    if negb (nonempty (LabAnalyte.analyte_key analyte))
       || text_eqb (LabAnalyte.analyte_key analyte) raw_name
    then _normalize_analyte_key raw_name
    else LabAnalyte.analyte_key analyte in
  let display_name :=
    if negb (nonempty (LabAnalyte.display_name analyte))
    then _make_display_name analyte_key
    else LabAnalyte.display_name analyte in
  let unit_canonical :=
    if nonempty (LabAnalyte.unit analyte)
       && negb (nonempty (LabAnalyte.unit_canonical analyte))
    then Units.normalize_unit (LabAnalyte.unit analyte)
    else LabAnalyte.unit_canonical analyte in
  bind
    (if nonempty (LabAnalyte.raw_range_text analyte)
        && negb (ReferenceRange.is_bounded (LabAnalyte.ref_range analyte))
     then Reference.parse_reference_range (LabAnalyte.raw_range_text analyte)
     else Ok (LabAnalyte.ref_range analyte))
    (fun ref_range =>
       let h :=
         fold_left (recompute_flag ref_range analyte_key)
           (LabAnalyte.observations analyte) h in
       Ok (h,
           LabAnalyte.mk raw_name (LabAnalyte.raw_unit analyte)
             (LabAnalyte.raw_range_text analyte) analyte_key display_name
             (LabAnalyte.unit analyte) unit_canonical ref_range
             (LabAnalyte.observations analyte))).

(** A loop that threads the store and stops at the first exception. *)
Fixpoint for_each {A B : Type} (f : store -> A -> result exn (store * B))
    (h : store) (l : list A) : result exn (store * list B) :=
  match l with
  | [] => Ok (h, [])
  | x :: l' =>
      bind (f h x) (fun hy =>
      bind (for_each f (fst hy) l') (fun hys =>
      Ok (fst hys, snd hy :: snd hys)))
  end.

Definition postprocess_panel (h : store) (panel : LabPanel.t ref)
    : result exn (store * LabPanel.t ref) :=
  bind (for_each _normalize_analyte h (LabPanel.results panel)) (fun hr =>
  Ok (fst hr, LabPanel.mk (LabPanel.panel_name panel) (snd hr))).

Definition postprocess_report (h : store) (report : LabReport.t ref)
    : result exn (store * LabReport.t ref) :=
  bind (for_each postprocess_panel h (LabReport.panels report)) (fun hp =>
  Ok (fst hp, LabReport.mk (LabReport.source_image_id report) (snd hp))).

Definition postprocess_reports (h : store) (reports : list (LabReport.t ref))
    : result exn (store * list (LabReport.t ref)) :=
  for_each postprocess_report h reports.
End WithUnicode.
End Postprocess.

(** ** Image ingestion ([labx/pipeline/image_io.py]) *)

Module ImageIO.
Import Py.

(** What the code asks of the file system and of the standard library.  A
    path is the string it prints as. *)
Class Host := {
  is_file : text -> bool;
  read_bytes : text -> list N;
  path_name : text -> text;
  guess_type : text -> option text;
  sha256_hexdigest : list N -> text;
  standard_b64encode : list N -> text
}.

(** [ImageValidationError]; each constructor stands for one of the messages
    the code raises it with. *)
Inductive ImageValidationError : Type :=
| File_not_found (path : text)
| Image_too_large (file_name : text) (size_bytes : nat) (max_mb : float)
| Unsupported_image_type (mime : option text) (file_name : text)
| Too_many_images (count : nat) (max_images : Z)
| No_images_provided.

Record PreparedImage : Type := mkPreparedImage {
  image_id : text;
  media_type : text;
  base64_data : text;
  file_name : text
}.

Definition _MAGIC : list (list N * text) :=
  [ ([255; 216; 255]%N, str "image/jpeg");
    ([137; 80; 78; 71; 13; 10; 26; 10]%N, str "image/png");
    (str "RIFF", str "image/webp");
    (str "GIF87a", str "image/gif");
    (str "GIF89a", str "image/gif") ].

(** [data[:len(magic)] == magic] *)
Definition starts_with (magic data : list N) : bool :=
  text_eqb (firstn (List.length magic) data) magic.

Fixpoint sniff (magics : list (list N * text)) (data : list N) : option text :=
  match magics with
  | [] => None
  | (magic, mime) :: rest =>
      if starts_with magic data then
        if text_eqb mime (str "image/webp")
           && negb (text_eqb (firstn 4 (skipn 8 data)) (str "WEBP"))
        then sniff rest data
        else Some mime
      else sniff rest data
  end.

Definition _sniff_mime (data : list N) : option text := sniff _MAGIC data.

(** [mime not in SUPPORTED_MIME_TYPES] is true of [None] as well. *)
Definition supported (mime : option text) : bool :=
  match mime with
  | Some m => existsb (text_eqb m) Constants.SUPPORTED_MIME_TYPES
  | None => false
  end.

Section WithHost.
Context {host : Host}.

Definition load_image (path : text) (max_mb : float)
    : result ImageValidationError PreparedImage :=
  if negb (is_file path) then Raise (File_not_found path) else
  let data := read_bytes path in
  let size_mb := inject_Z (Z.of_nat (List.length data)) / inject_Z (1024 * 1024) in
  if fgt size_mb max_mb
  then Raise (Image_too_large (path_name path) (List.length data) max_mb) else
  let mime :=
    match _sniff_mime data with
    | Some m => Some m
    | None => guess_type path
    end in
  match mime with
  | Some m =>
      if supported mime
      then Ok (mkPreparedImage (sha256_hexdigest data) m
                 (standard_b64encode data) (path_name path))
      else Raise (Unsupported_image_type mime (path_name path))
  | None => Raise (Unsupported_image_type None (path_name path))
  end.

Definition load_images (paths : list text) (max_images : Z) (max_mb : float)
    : result ImageValidationError (list PreparedImage) :=
  if Z.gtb (Z.of_nat (List.length paths)) max_images
  then Raise (Too_many_images (List.length paths) max_images) else
  match paths with
  | [] => Raise No_images_provided
  | _ :: _ => map_result (fun p => load_image p max_mb) paths
  end.
End WithHost.
End ImageIO.

(** ** Pipeline orchestrator ([labx/pipeline/orchestrator.py]) *)

Module Orchestrator.
Import Py Objects.

(** The settings the orchestrator reads. *)
Record Settings : Type := mkSettings {
  concurrency : Z;
  max_images : Z;
  max_image_mb : float;
  enable_summary : bool
}.

(** The reports and the merged timeline refer to observation objects of the
    store that a run returns together with its analysis. *)
Record AnalysisReport : Type := mkAnalysisReport {
  reports : list (LabReport.t ref);
  merged_timeline : list (LabAnalyte.t ref);
  trends : list LabTrend.t;
  critical_flags : list LabTrend.t;
  summary : text
}.

(** What can end a run: a rejected image, an exception of the analysis code,
    or a failure of a provider. *)
Inductive Failure : Type :=
| Validation (e : ImageIO.ImageValidationError)
| Analysis (e : exn)
| Provider (message : text).

Definition lift_validation {A} (r : result ImageIO.ImageValidationError A)
    : result Failure A :=
  match r with Ok a => Ok a | Raise e => Raise (Validation e) end.

Definition lift_analysis {A} (r : result exn A) : result Failure A :=
  match r with Ok a => Ok a | Raise e => Raise (Analysis e) end.

(** The providers: an extractor creates the objects of one report in the
    store, a summarizer reads an analysis and the store. *)
Class Providers := {
  extract : store -> ImageIO.PreparedImage -> result Failure (store * LabReport.t ref);
  summarize : store -> AnalysisReport -> result Failure text
}.

Section WithCollaborators.
Context {U : UnicodeDB} {host : ImageIO.Host} {providers : Providers}.

(** Results come back in input order and the first failure ends the batch;
    the interleaving of the concurrent calls is not modelled. *)
Fixpoint _extract_all (h : store) (images : list ImageIO.PreparedImage)
    : result Failure (store * list (LabReport.t ref)) :=
  match images with
  | [] => Ok (h, [])
  | img :: images' =>
      bind (extract h img) (fun hr =>
      bind (_extract_all (fst hr) images') (fun hrs =>
      Ok (fst hrs, snd hr :: snd hrs)))
  end.

Definition is_critical (t : LabTrend.t) : bool :=
  match LabTrend.latest_flag t with
  | Some Flag_critical_high | Some Flag_critical_low => true
  | _ => false
  end.

Definition run_full_pipeline (h : store) (image_paths : list text)
    (s : Settings) (enable_summary : option bool)
    : result Failure (store * AnalysisReport) :=
  let enable_summary :=
    match enable_summary with
    | Some b => b
    | None => Orchestrator.enable_summary s
    end in
  bind (lift_validation
          (ImageIO.load_images image_paths (max_images s) (max_image_mb s)))
    (fun images =>
  bind (_extract_all h images) (fun hr =>
  bind (lift_analysis (Postprocess.postprocess_reports (fst hr) (snd hr)))
    (fun hr =>
  let '(h, merged_timeline) := Merge.merge_reports (fst hr) (snd hr) in
  let trends :=
    List.map (fun a => Trends.compute_trend (deref_analyte h a)) merged_timeline in
  let trends := Severity.sort_trends_by_severity trends in
  let critical := filter is_critical trends in
  let analysis := mkAnalysisReport (snd hr) merged_timeline trends critical [] in
  if enable_summary then
    bind (summarize h analysis) (fun text =>
    Ok (h, mkAnalysisReport (snd hr) merged_timeline trends critical text))
  else Ok (h, analysis)))).

Definition run_extract_only (h : store) (image_paths : list text) (s : Settings)
    : result Failure (store * list (LabReport.t ref)) :=
  bind (lift_validation
          (ImageIO.load_images image_paths (max_images s) (max_image_mb s)))
    (fun images =>
  bind (_extract_all h images) (fun hr =>
  lift_analysis (Postprocess.postprocess_reports (fst hr) (snd hr)))).
End WithCollaborators.
End Orchestrator.

(** ** Vocabulary of the statements *)

Module Spec.
Import Py.

(** The critical multiplier that [compute_flag] resolves for a key. *)
Definition multiplier_of (analyte_key : text) : float :=
  dict_get_default Constants.CRITICAL_MULTIPLIER_OVERRIDES analyte_key
    Constants.DEFAULT_CRITICAL_MULTIPLIER.

Definition substring (a b : text) : Prop := exists pre post, b = pre ++ a ++ post.

Definition unbounded (rr : ReferenceRange.t) : Prop :=
  ReferenceRange.low rr = None /\ ReferenceRange.high rr = None /\
  ReferenceRange.is_bounded rr = false.





(** A trend with its score overwritten by [compute_severity]. *)
Definition rescored (t : LabTrend.t) : LabTrend.t :=
  LabTrend.set_severity_score (Severity.compute_severity t) t.

(** The order [sort_trends_by_severity] sorts by. *)
Definition by_score (a b : LabTrend.t) : bool :=
  fle (LabTrend.severity_score b) (LabTrend.severity_score a).


(** Values strictly decreasing, strictly increasing along a list. *)
Fixpoint strictly_decreasing (vs : list float) : Prop :=
  match vs with
  | a :: (b :: _) as rest => b < a /\ strictly_decreasing rest
  | _ => True
  end.

Fixpoint strictly_increasing (vs : list float) : Prop :=
  match vs with
  | a :: (b :: _) as rest => a < b /\ strictly_increasing rest
  | _ => True
  end.



(** A store whose first objects are those of a list. *)
Definition store_of_list (l : list Observation.t) : Objects.store :=
  fun r => nth r l (Observation.mk (Date.mk 1 1 1) 0 [] None None []).

(** A dictionary without two equivalent keys. *)
Section ODictWf.
Variables K V : Type.
Variable eqb : K -> K -> bool.

Fixpoint odict_wf (d : list (K * V)) : Prop :=
  match d with
  | [] => True
  | (k, _) :: d' => Merge.odict_get eqb d' k = None /\ odict_wf d'
  end.

Definition present (ks : list K) (k : K) : bool := existsb (fun k0 => eqb k0 k) ks.

(** The keys after [d[k] = v], given the keys before. *)
Definition keys_add (ks : list K) (k : K) : list K :=
  if existsb (fun k0 => eqb k0 k) ks then ks else ks ++ [k].
End ODictWf.

(** *** The merge engine seen through its keys *)

(** Two stores whose objects agree in date and value. *)
Definition same_keys (h h' : Objects.store) : Prop :=
  forall r, Merge._obs_key (h' r) = Merge._obs_key (h r).

(** The store [h'] is [h] with [source_image_id] set to [sid] on some
    objects. *)
Definition touched (sid : text) (h h' : Objects.store) : Prop :=
  forall r, h' r = h r \/ h' r = Observation.set_source_image_id sid (h r).

(** The keys an analyte presents to the merge: its merge key and the keys of
    its observations. *)
Definition event := (text * list (Date.t * float))%type.

Definition event_of (h : Objects.store) (a : LabAnalyte.t Objects.ref) : event :=
  (Merge._merge_key a,
   List.map (fun r => Merge._obs_key (h r)) (LabAnalyte.observations a)).

Definition analytes_of (r : LabReport.t Objects.ref) : list (LabAnalyte.t Objects.ref) :=
  flat_map (fun p => LabPanel.results p) (LabReport.panels r).

Definition events_of (h : Objects.store) (rs : list (LabReport.t Objects.ref))
    : list event :=
  List.map (event_of h) (flat_map analytes_of rs).

(** The keys of the accumulator: per merge key, the observation keys. *)
Definition skeleton := list (text * list (Date.t * float)).

Definition skeleton_of (m : Merge.merged_dict) : skeleton :=
  List.map (fun e => (fst e, List.map fst (snd (snd e)))) m.

(** What one analyte does to the keys of the accumulator. *)
Definition skeleton_step (sk : skeleton) (e : event) : skeleton :=
  let sk1 :=
    match Merge.odict_get text_eqb sk (fst e) with
    | Some _ => sk
    | None => Merge.odict_set text_eqb sk (fst e) []
    end in
  match Merge.odict_get text_eqb sk1 (fst e) with
  | Some oks =>
      Merge.odict_set text_eqb sk1 (fst e)
        (fold_left (keys_add Merge.obs_key_eqb) (snd e) oks)
  | None => sk1
  end.

Definition skeleton_size (sk : skeleton) : nat :=
  fold_right (fun e n => (List.length (snd e) + n)%nat) 0%nat sk.

(** The event's keys are all present. *)
Definition covered (sk : skeleton) (e : event) : Prop :=
  exists oks,
    Merge.odict_get text_eqb sk (fst e) = Some oks /\
    forall k, In k (snd e) ->
      existsb (fun k0 => Merge.obs_key_eqb k0 k) oks = true.

(** Under merge key [K] and observation key [k] the accumulator holds an
    object tagged [sid]. *)
Definition recorded (sid : text) (h : Objects.store) (m : Merge.merged_dict)
    (K : text) (k : Date.t * float) : Prop :=
  exists t od l,
    Merge.odict_get text_eqb m K = Some (t, od) /\
    Merge.odict_get Merge.obs_key_eqb od k = Some l /\
    Observation.source_image_id (h l) = sid.

(** Every entry of the accumulator sits under the merge key of its template,
    its observation dictionary is well formed and keyed by the keys of the
    objects it holds. *)
Definition entry_ok (h : Objects.store)
    (e : text * (LabAnalyte.t Objects.ref * Merge.obs_dict)) : Prop :=
  Merge._merge_key (fst (snd e)) = fst e /\
  odict_wf Merge.obs_key_eqb (snd (snd e)) /\
  Forall (fun kl => Merge.obs_key_eqb (fst kl) (Merge._obs_key (h (snd kl))) = true)
    (snd (snd e)).

(** The accumulator after the key of the analyte has been looked up and, if
    absent, inserted. *)
Definition with_key (m : Merge.merged_dict) (a : LabAnalyte.t Objects.ref)
    : Merge.merged_dict :=
  match Merge.odict_get text_eqb m (Merge._merge_key a) with
  | Some _ => m
  | None => Merge.odict_set text_eqb m (Merge._merge_key a) (LabAnalyte.with_observations [] a, [])
  end.

Definition od_ok (h : Objects.store) (od : Merge.obs_dict) : Prop :=
  odict_wf Merge.obs_key_eqb od /\
  Forall (fun kl => Merge.obs_key_eqb (fst kl) (Merge._obs_key (h (snd kl))) = true) od.

Definition od_recorded (sid : text) (h : Objects.store) (od : Merge.obs_dict)
    (k : Date.t * float) : Prop :=
  exists l,
    Merge.odict_get Merge.obs_key_eqb od k = Some l /\
    Observation.source_image_id (h l) = sid.

Definition state_ok (h : Objects.store) (m : Merge.merged_dict) : Prop :=
  odict_wf text_eqb m /\ Forall (entry_ok h) m.

(** A host without files, and providers that always fail. *)
Definition no_files : ImageIO.Host := {|
  ImageIO.is_file := fun _ => false;
  ImageIO.read_bytes := fun _ => [];
  ImageIO.path_name := fun p => p;
  ImageIO.guess_type := fun _ => None;
  ImageIO.sha256_hexdigest := fun _ => [];
  ImageIO.standard_b64encode := fun _ => []
|}.

Definition no_providers : Orchestrator.Providers := {|
  Orchestrator.extract := fun _ _ => Raise (Orchestrator.Provider (str "offline"));
  Orchestrator.summarize := fun _ _ => Raise (Orchestrator.Provider (str "offline"))
|}.

(** Facts about a run of the matcher. *)
Section Matcher.
Import Re.
Local Open Scope nat_scope.

Definition has_group (c : caps) (n : string) : Prop := group c n <> None.

Definition caps_sat (P : text -> Prop) (c : caps) : Prop :=
  Forall (fun nt => P (snd nt)) c.

(** What a successful run of the matcher guarantees about the continuation
    it ended in. *)
Definition ended_in {A} (P : text -> Prop) (r : regex) (pos : nat) (s : text)
    (c : caps) (k : cont A) (x : A) : Prop :=
  exists t s' c',
    s = t ++ s' /\ lang r t /\ caps_sat P c' /\
    (forall n, In n (mandatory r) \/ has_group c n -> has_group c' n) /\
    k (pos + List.length t) s' c' = Some x.
End Matcher.

Section WithUnicode.
Context {U : UnicodeDB}.
Import Re Reference.

(** Low and high bound of a parse result, in lowest terms. *)
Definition range_of (r : result exn ReferenceRange.t)
    : option (option Q * option Q) :=
  match r with
  | Ok rr => Some (option_map Qred (ReferenceRange.low rr),
                   option_map Qred (ReferenceRange.high rr))
  | Raise _ => None
  end.

Definition all_digits (ds : text) : Prop := Forall (fun x => isdigit x = true) ds.

Definition floatable (t : text) : Prop := exists q, float_of_text t = Ok q.

(** The segment in which the numeric patterns are searched. *)
Definition segment_of (text : text) : result exn Py.text :=
  if contains 59 text then
    let text := strip (split_first 59 text) in
    if contains 58 text then
      match split1_second 58 text with
      | Some rest => Ok (strip rest)
      | None => Raise IndexError
      end
    else Ok text
  else Ok text.

(** No numeric pattern is found anywhere in the input. *)
Definition no_numeric_pattern (raw : Py.text) : Prop :=
  search _RANGE_RE raw = None /\
  search _UPPER_ONLY_RE raw = None /\
  search _LOWER_ONLY_RE raw = None.
End WithUnicode.
End Spec.

(** ** Fixtures of the repository's tests *)

Module Fixtures.
Import Py Objects Spec.

Definition obs_of (d : Z) (v : Q) (f : Flag) : Observation.t :=
  Observation.mk (Date.mk 2024 1 d) v [] None (Some f) [].

Definition analyte_of (key : string) (obs : list Observation.t)
    : LabAnalyte.t Observation.t :=
  LabAnalyte.mk [] [] [] (str key) [] [] [] ReferenceRange.default obs.

Definition day (d : Z) : Date.t := Date.mk 2024 1 d.

Definition plain_obs (d : Z) (v : Q) : Observation.t :=
  Observation.mk (day d) v [] None None [].

Definition sodium (obs : list ref) : LabAnalyte.t ref :=
  LabAnalyte.mk [] [] [] (str "sodium") [] [] (str "mmol/L")
    (ReferenceRange.mk (Some 136) (Some 145) []) obs.

Definition potassium (obs : list ref) : LabAnalyte.t ref :=
  LabAnalyte.mk [] [] [] (str "potassium") [] [] (str "mmol/L")
    (ReferenceRange.mk (Some (35 # 10)) (Some (51 # 10)) []) obs.

Definition _make_report (image_id : string) (analytes : list (LabAnalyte.t ref))
    : LabReport.t ref :=
  LabReport.mk (str image_id) [LabPanel.mk (str "General") analytes].

(** What a test sees of the result: per merged analyte its key and, per
    observation, day, value and source image. *)
Definition view (res : store * list (LabAnalyte.t ref))
    : list (text * list (Z * Q * text)) :=
  List.map
    (fun a =>
       (LabAnalyte.analyte_key a,
        List.map
          (fun r =>
             let o := fst res r in
             (Date.day (Observation.date o), Observation.value o,
              Observation.source_image_id o))
          (LabAnalyte.observations a)))
    (snd res).

(** The sodium analyte of the pipeline smoke test
    ([tests/test_pipeline_smoke.py]), as the extractor hands it over, and the
    object store holding its observation. *)
Definition smoke_sodium : LabAnalyte.t ref :=
  LabAnalyte.mk (str "Sodium") (str "mmol/L") (str "136 - 145") (str "sodium")
    (str "Sodium") (str "mmol/L") (str "mmol/L") ReferenceRange.default [0%nat].

Definition smoke_store : store :=
  store_of_list
    [Observation.mk (Date.mk 2024 1 1) 148 (str "148") (Some Flag_high) None []].

Definition flag_after (r : result exn (store * LabAnalyte.t ref)) : option Flag :=
  match r with
  | Ok (h, _) => Observation.flag_computed (h 0%nat)
  | Raise _ => None
  end.

Definition key_and_range_after (r : result exn (store * LabAnalyte.t ref))
    : option (text * option Q * option Q) :=
  match r with
  | Ok (_, a) =>
      Some (LabAnalyte.analyte_key a,
            option_map Qred (ReferenceRange.low (LabAnalyte.ref_range a)),
            option_map Qred (ReferenceRange.high (LabAnalyte.ref_range a)))
  | Raise _ => None
  end.
End Fixtures.

(** ** Where the merged timeline comes from *)

Module Invariants.
Import Py Objects.

(** The analytes, observation objects and image ids of a list of reports. *)
Definition input_analyte (rs : list (LabReport.t ref)) (a : LabAnalyte.t ref) : Prop :=
  exists r, In r rs /\ In a (Spec.analytes_of r).

Definition input_ref (rs : list (LabReport.t ref)) (l : ref) : Prop :=
  exists a, input_analyte rs a /\ In l (LabAnalyte.observations a).

Definition input_id (rs : list (LabReport.t ref)) (sid : text) : Prop :=
  exists r, In r rs /\ LabReport.source_image_id r = sid.

(** The store [h'] differs from [h] in [source_image_id] fields only. *)
Definition only_tag (h h' : store) : Prop :=
  forall l,
    h' l
    = Observation.set_source_image_id (Observation.source_image_id (h' l)) (h l).

Section From.
Variable refs : ref -> Prop.
Variable ids : text -> Prop.
Variable analytes : LabAnalyte.t ref -> Prop.

(** The objects of an observation dictionary are among [refs] and carry a
    tag among [ids]. *)
Definition od_from (h : store) (od : Merge.obs_dict) : Prop :=
  Forall
    (fun kl => refs (snd kl) /\ ids (Observation.source_image_id (h (snd kl))))
    od.

(** The template of an entry is one of [analytes], emptied. *)
Definition entry_from (h : store)
    (e : text * (LabAnalyte.t ref * Merge.obs_dict)) : Prop :=
  (exists a, analytes a /\ fst (snd e) = LabAnalyte.with_observations [] a) /\
  od_from h (snd (snd e)).

(** Objects outside [refs] are as in [h0]. *)
Definition state_from (h0 : store) (st : store * Merge.merged_dict) : Prop :=
  (forall l, ~ refs l -> fst st l = h0 l) /\ Forall (entry_from (fst st)) (snd st).
End From.
End Invariants.

(** ** What post-processing keeps *)

Module Kept.
Import Py Objects.

(** The store [h'] differs from [h] in [flag_computed] fields only. *)
Definition only_flag (h h' : store) : Prop :=
  forall l,
    h' l = Observation.set_flag_computed (Observation.flag_computed (h' l)) (h l).

(** The fields of an analyte that [_normalize_analyte] never assigns. *)
Definition analyte_kept (a a' : LabAnalyte.t ref) : Prop :=
  LabAnalyte.raw_name a' = LabAnalyte.raw_name a /\
  LabAnalyte.raw_unit a' = LabAnalyte.raw_unit a /\
  LabAnalyte.raw_range_text a' = LabAnalyte.raw_range_text a /\
  LabAnalyte.unit a' = LabAnalyte.unit a /\
  LabAnalyte.observations a' = LabAnalyte.observations a.

Definition panel_kept (p p' : LabPanel.t ref) : Prop :=
  LabPanel.panel_name p' = LabPanel.panel_name p /\
  Forall2 analyte_kept (LabPanel.results p) (LabPanel.results p').

Definition report_kept (r r' : LabReport.t ref) : Prop :=
  LabReport.source_image_id r' = LabReport.source_image_id r /\
  Forall2 panel_kept (LabReport.panels r) (LabReport.panels r').
End Kept.

(** ** What a loaded image says about its file *)

Module Loaded.
Import Py ImageIO.

Section WithHost.
Context {host : Host}.

(** The type that [load_image] settles on: magic bytes first, then the
    extension. *)
Definition detected_mime (path : text) : option text :=
  match _sniff_mime (read_bytes path) with
  | Some m => Some m
  | None => guess_type path
  end.

(** Size of a file in MB, as [load_image] computes it. *)
Definition size_mb (path : text) : float :=
  inject_Z (Z.of_nat (List.length (read_bytes path))) / inject_Z (1024 * 1024).

Definition prepared_from (max_mb : float) (path : text) (img : PreparedImage) : Prop :=
  is_file path = true /\
  size_mb path <= max_mb /\
  detected_mime path = Some (media_type img) /\
  supported (Some (media_type img)) = true /\
  img = mkPreparedImage (sha256_hexdigest (read_bytes path)) (media_type img)
          (standard_b64encode (read_bytes path)) (path_name path).
End WithHost.

(** A host with one file, [scan.txt], that holds a JPEG header, and with the
    extension table of [mimetypes] for [.txt]. *)
Definition one_jpeg : Host := {|
  is_file := fun p => text_eqb p (str "scan.txt");
  read_bytes := fun p =>
    if text_eqb p (str "scan.txt") then [255; 216; 255; 224; 0; 16]%N else [];
  path_name := fun p => p;
  guess_type := fun _ => Some (str "text/plain");
  sha256_hexdigest := fun _ => str "digest";
  standard_b64encode := fun _ => str "/9j/4AAQ"
|}.
End Loaded.

(** ** A mock extractor and summarizer *)

Module Mock.
Import Py Objects.

(** Providers in the manner of the repository's mocks: the extractor reports
    the sodium analyte of the smoke test for every image, the summarizer
    returns a fixed text. *)
Definition canned : Orchestrator.Providers := {|
  Orchestrator.extract := fun h img =>
    Ok (h, LabReport.mk (ImageIO.image_id img)
             [LabPanel.mk (str "General") [Fixtures.smoke_sodium]]);
  Orchestrator.summarize := fun _ _ => Ok (str "summary")
|}.

Definition settings : Orchestrator.Settings :=
  Orchestrator.mkSettings 4 10 12 true.
End Mock.

(** ** Bounded concurrency ([labx/pipeline/concurrency.py])

    [run_concurrently] is modelled by what it returns.  A task is the
    outcome of awaiting it: its value or the exception it raises.  The
    semaphore decides when a task runs, not what it returns, except that a
    semaphore without slots never lets a task start and
    [asyncio.Semaphore] refuses a negative value;
    [asyncio.gather(..., return_exceptions=True)] waits for every task and
    hands the outcomes back in the order of its arguments. *)

Module Concurrency.
Import Py.

(** How a call ends. *)
Inductive outcome (E A : Type) : Type :=
| Returns (a : A)
| Raises (e : E)
| Hangs.
Arguments Returns {E A} a.
Arguments Raises {E A} e.
Arguments Hangs {E A}.

(** The exceptions of [run_concurrently]: one that a task raised, the
    [ValueError] of the semaphore, the [IndexError] of a list assignment. *)
Inductive failure (E : Type) : Type :=
| Task (e : E)
| Semaphore_value
| Index_out_of_range.
Arguments Task {E} e.
Arguments Semaphore_value {E}.
Arguments Index_out_of_range {E}.

Section RunConcurrently.
Variables E T : Type.

(** [enumerate(tasks)] *)
Fixpoint enumerate_from {A : Type} (i : nat) (l : list A) : list (nat * A) :=
  match l with
  | [] => []
  | x :: l' => (i, x) :: enumerate_from (S i) l'
  end.

(** [_guarded(idx, fn)]: the result of the task with its index. *)
Definition _guarded (idx : nat) (fn : result E T) : result E (nat * T) :=
  match fn with
  | Ok v => Ok (idx, v)
  | Raise e => Raise e
  end.

(** [ordered[idx] = val]; [None] is the [IndexError] of an index out of
    range. *)
Fixpoint set_item {A : Type} (l : list A) (idx : nat) (val : A) : option (list A) :=
  match l, idx with
  | [], _ => None
  | _ :: l', O => Some (val :: l')
  | x :: l', S idx' =>
      match set_item l' idx' val with
      | Some l'' => Some (x :: l'')
      | None => None
      end
  end.

(** The loop over [completed]. *)
Fixpoint collect (ordered : list (option T)) (completed : list (result E (nat * T)))
    : result (failure E) (list (option T)) :=
  match completed with
  | [] => Ok ordered
  | Raise e :: _ => Raise (Task e)
  | Ok (idx, val) :: rest =>
      match set_item ordered idx (Some val) with
      | Some ordered' => collect ordered' rest
      | None => Raise Index_out_of_range
      end
  end.

Definition run_concurrently (tasks : list (result E T)) (max_concurrent : Z)
    : outcome (failure E) (list (option T)) :=
  if Z.ltb max_concurrent 0 then Raises Semaphore_value else
  let coros := List.map (fun it => _guarded (fst it) (snd it)) (enumerate_from 0 tasks) in
  match coros with
  | _ :: _ =>
      if Z.eqb max_concurrent 0 then Hangs else
      match collect (repeat None (List.length tasks)) coros with
      | Ok ordered => Returns ordered
      | Raise e => Raises e
      end
  | [] => Returns (repeat None (List.length tasks))
  end.
End RunConcurrently.
End Concurrency.

(** * Theorems *)

Unset Implicit Arguments.

Import Spec Fixtures.

(** ** Order on floats *)

Lemma flt_iff (a b : Q) : Py.flt a b = true <-> a < b.
Proof.
  unfold Py.flt. rewrite negb_true_iff.
  split; intro H.
  - apply Qnot_le_lt. intro Hle. apply Qle_bool_iff in Hle. congruence.
  - destruct (Qle_bool b a) eqn:E; [|reflexivity].
    apply Qle_bool_iff in E. exfalso. apply (Qlt_not_le _ _ H E).
Qed.

Lemma fgt_iff (a b : Q) : Py.fgt a b = true <-> b < a.
Proof. unfold Py.fgt. apply flt_iff. Qed.

Lemma flt_false_iff (a b : Q) : Py.flt a b = false <-> b <= a.
Proof.
  unfold Py.flt. rewrite negb_false_iff. apply Qle_bool_iff.
Qed.

Lemma flt_irrefl (a : Q) : Py.flt a a = false.
Proof. apply flt_false_iff. apply Qle_refl. Qed.

Lemma fgt_irrefl (a : Q) : Py.fgt a a = false.
Proof. apply flt_irrefl. Qed.

(** ** Flag engine *)

Section FlagFacts.
Import Py Flags.

(** The repository's own boundary tests ([tests/test_flag_recompute.py]). *)
Example test_sodium_tight_critical :
  compute_flag 146 (ReferenceRange.mk (Some 136) (Some 145) []) (str "sodium")
  = Flag_critical_high.
Proof. reflexivity. Qed.

Example test_upper_bound_only :
  compute_flag 3 (ReferenceRange.mk None (Some 5) []) [] = Flag_normal /\
  compute_flag (55 # 10) (ReferenceRange.mk None (Some 5) []) [] = Flag_high.
Proof. split; reflexivity. Qed.

Example test_lower_bound_only :
  compute_flag 2 (ReferenceRange.mk (Some 1) None []) [] = Flag_normal /\
  compute_flag (5 # 10) (ReferenceRange.mk (Some 1) None []) [] = Flag_critical_low.
Proof. split; reflexivity. Qed.

Example test_potassium_tighter_critical :
  compute_flag (55 # 10) (ReferenceRange.mk (Some (35 # 10)) (Some (51 # 10)) [])
    (str "potassium") = Flag_critical_high.
Proof. reflexivity. Qed.



End FlagFacts.




(** C3, as stated, fails when the two bounds are in inverted textual order
    (the parser keeps them as written): against [low = 5.1, high = 3.5] the
    value 3.5, equal to [high], is flagged [critical_low]. *)
Lemma C3_inverted_range_boundary_not_normal :
  Flags.compute_flag (35 # 10)
    (ReferenceRange.mk (Some (51 # 10)) (Some (35 # 10)) (Py.str "5.1 - 3.5")) []
  = Flag_critical_low /\
  Flags.compute_flag (35 # 10)
    (ReferenceRange.mk (Some (51 # 10)) (Some (35 # 10)) (Py.str "5.1 - 3.5")) []
  <> Flag_normal.
Proof. split; [reflexivity | vm_compute; discriminate]. Qed.

(** C3 (amended): for every range with one bound set, or with both bounds set
    and [low <= high], and for every analyte key, a value equal to [low] or
    equal to [high] is [normal]. *)
Theorem C3_boundary_inclusive (v : Q) (ref : ReferenceRange.t) (key : Py.text) :
  (forall lo hi,
     ReferenceRange.low ref = Some lo -> ReferenceRange.high ref = Some hi ->
     lo <= hi) ->
  (exists b,
     (ReferenceRange.low ref = Some b \/ ReferenceRange.high ref = Some b) /\
     v == b) ->
  Flags.compute_flag v ref key = Flag_normal.
Proof.
  intros Hord [b [Hb Hv]].
  destruct ref as [lo hi raw]. cbn in *.
  unfold Flags.compute_flag.
  cbn [ReferenceRange.is_bounded ReferenceRange.low ReferenceRange.high].
  assert (Hhi : forall h, hi = Some h -> Py.fgt v h = false).
  { intros h ->. apply flt_false_iff. rewrite Hv.
    destruct Hb as [-> | Hb].
    - apply (Hord b h); reflexivity.
    - injection Hb as ->. apply Qle_refl. }
  assert (Hlo : forall l, lo = Some l -> Py.flt v l = false).
  { intros l ->. apply flt_false_iff. rewrite Hv.
    destruct Hb as [Hb | ->].
    - injection Hb as ->. apply Qle_refl.
    - apply (Hord l b); reflexivity. }
  destruct lo as [l|], hi as [h|]; cbn [negb].
  - rewrite (Hhi h eq_refl), (Hlo l eq_refl). reflexivity.
  - rewrite (Hlo l eq_refl). reflexivity.
  - rewrite (Hhi h eq_refl). reflexivity.
  - destruct Hb; discriminate.
Qed.

Lemma C3_boundary_inclusive_witness :
  Flags.compute_flag (35 # 10)
    (ReferenceRange.mk (Some (35 # 10)) (Some (51 # 10)) []) (Py.str "potassium")
  = Flag_normal.
Proof.
  apply C3_boundary_inclusive.
  - intros lo hi Hl Hh. cbn in Hl, Hh.
    injection Hl as <-. injection Hh as <-. discriminate.
  - exists (35 # 10). split; [left; reflexivity | reflexivity].
Defined.

(** ** Unit normaliser *)

Lemma text_eqb_eq (a b : Py.text) : Py.text_eqb a b = true <-> a = b.
Proof.
  revert b. induction a as [|x a IH]; intros [|y b]; cbn; split; intro H;
    try reflexivity; try discriminate.
  - apply andb_true_iff in H. destruct H as [Hx Ha].
    apply N.eqb_eq in Hx. apply IH in Ha. congruence.
  - injection H as -> ->. apply andb_true_iff. split.
    + apply N.eqb_refl.
    + apply IH. reflexivity.
Qed.

Lemma text_eqb_refl (a : Py.text) : Py.text_eqb a a = true.
Proof. apply text_eqb_eq. reflexivity. Qed.

Lemma text_eqb_neq (a b : Py.text) : Py.text_eqb a b = false <-> a <> b.
Proof.
  split.
  - intros H E. apply text_eqb_eq in E. congruence.
  - intro H. destruct (Py.text_eqb a b) eqn:E; [|reflexivity].
    apply text_eqb_eq in E. contradiction.
Qed.

Section UnitFacts.
Context {U : Py.UnicodeDB}.
Import Py Units.

(** The repository's tests ([tests/test_units.py]) on ASCII input. *)
Example test_lowercase_to_canonical :
  normalize_unit (str "mmol/l") = str "mmol/L" /\
  normalize_unit (str "mg/dl") = str "mg/dL" /\
  normalize_unit (str "g/dl") = str "g/dL".
Proof. repeat split; reflexivity. Qed.

Example test_passthrough :
  normalize_unit (str "  some_weird_unit  ") = str "some_weird_unit".
Proof. reflexivity. Qed.

Example test_normalized_lookup :
  convert_value 1 (str "g/dl") (str "g/l") = Some 10.
Proof. reflexivity. Qed.

Example test_g_l_to_g_dl :
  match convert_value 10 (str "g/L") (str "g/dL") with
  | Some r => r == 1
  | None => False
  end.
Proof. reflexivity. Qed.
End UnitFacts.



(** ** Reference-range parser *)

Section ReferenceExamples.
Context {U : Py.UnicodeDB}.
Import Py Reference.

(** The repository's tests ([tests/test_reference_ranges.py]). *)
Example test_standard_range :
  range_of (parse_reference_range (str "3.5 - 5.1"))
  = Some (Some (7 # 2), Some (51 # 10)).
Proof. vm_compute. reflexivity. Qed.

(** Evaluation on input with one of the non-ASCII signs of the patterns. *)
Ltac by_unicode_cases c :=
  destruct U as [sp dec aln ie lo ti Hsp Hdec];
  assert (Es : sp c = false) by (apply Hsp; vm_compute; tauto);
  assert (Ed : dec c = None) by (apply Hdec; vm_compute; tauto);
  vm_compute; rewrite ?Es, ?Ed;
  repeat match goal with
         | |- context [ie ?a c] => destruct (ie a c)
         end;
  vm_compute; rewrite ?Es, ?Ed; reflexivity.

Example test_en_dash :
  range_of (parse_reference_range (str "3.5" ++ [8211%N] ++ str "5.1"))
  = Some (Some (7 # 2), Some (51 # 10)).
Proof. by_unicode_cases 8211%N. Qed.

Example test_em_dash :
  range_of (parse_reference_range (str "3.5" ++ [8212%N] ++ str "5.1"))
  = Some (Some (7 # 2), Some (51 # 10)).
Proof. by_unicode_cases 8212%N. Qed.

Example test_to_keyword :
  range_of (parse_reference_range (str "3.5 to 5.1"))
  = Some (Some (7 # 2), Some (51 # 10)).
Proof. vm_compute. reflexivity. Qed.

Example test_upper_only_le :
  range_of (parse_reference_range (str "<= 5.0")) = Some (None, Some 5).
Proof. vm_compute. reflexivity. Qed.

Example test_upper_only_unicode :
  range_of (parse_reference_range ([8804%N] ++ str "5.0")) = Some (None, Some 5).
Proof. by_unicode_cases 8804%N. Qed.

Example test_lower_only_gt :
  range_of (parse_reference_range (str "> 1.0")) = Some (Some 1, None).
Proof. vm_compute. reflexivity. Qed.

Example test_multi_population_takes_first :
  range_of (parse_reference_range (str "Adult: 3.5-5.1; Child: 3.0-4.5"))
  = Some (Some (7 # 2), Some (51 # 10)).
Proof. vm_compute. reflexivity. Qed.

Example test_qualitative_non_reactive :
  range_of (parse_reference_range (str "Non-reactive")) = Some (None, None).
Proof. vm_compute. reflexivity. Qed.

Example test_raw_text_preserved :
  match parse_reference_range (str "3.5 - 5.1 mmol/L") with
  | Ok rr => ReferenceRange.raw_text rr = str "3.5 - 5.1 mmol/L"
  | Raise _ => False
  end.
Proof. vm_compute. reflexivity. Qed.

Example inverted_range_kept_as_written :
  range_of (parse_reference_range (str "5.1 - 3.5"))
  = Some (Some (51 # 10), Some (7 # 2)).
Proof. vm_compute. reflexivity. Qed.
End ReferenceExamples.

(** ** The matcher against the language of a pattern *)

Section MatcherFacts.
Import Py Re.
Local Open Scope nat_scope.

Lemma has_group_cons (c : caps) (n m : string) (t : text) :
  n = m \/ has_group c n -> has_group ((m, t) :: c) n.
Proof.
  unfold has_group. cbn. intros [-> | H].
  - rewrite String.eqb_refl. discriminate.
  - destruct (String.eqb m n); [discriminate | exact H].
Qed.

Lemma group_sat (P : text -> Prop) (c : caps) (n : string) (t : text) :
  caps_sat P c -> group c n = Some t -> P t.
Proof.
  induction 1 as [|[m u] c Hm Hc IH]; cbn; [discriminate|].
  destruct (String.eqb m n).
  - intros [= <-]. exact Hm.
  - exact IH.
Qed.

Lemma star_match_sound {A} (P : text -> Prop) (p : N -> bool) (s : text) :
  forall pos c (k : cont A) x,
    caps_sat P c ->
    star_match p pos s c k = Some x ->
    ended_in P (Star p) pos s c k x.
Proof.
  induction s as [|a s IH]; intros pos c k x Hc H; cbn in H.
  - exists [], [], c. rewrite Nat.add_0_r.
    repeat split; auto using lang_Star. intros n [[]|Hn]; exact Hn.
  - assert (Hstop : k pos (a :: s) c = Some x ->
                    ended_in P (Star p) pos (a :: s) c k x).
    { intro Hk. exists [], (a :: s), c. rewrite Nat.add_0_r.
      repeat split; auto using lang_Star. intros n [[]|Hn]; exact Hn. }
    destruct (p a) eqn:Hp; [|auto].
    destruct (star_match p (S pos) s c k) eqn:Hrec; [|auto].
    injection H as ->.
    destruct (IH _ _ _ _ Hc Hrec) as (t & s' & c' & -> & Hl & Hc' & Hg & Hk).
    exists (a :: t), s', c'. repeat split; auto.
    + constructor. inversion Hl; subst. constructor; assumption.
    + cbn [List.length]. rewrite Nat.add_succ_r. exact Hk.
Qed.

Lemma firstn_add_sub (pos : nat) (t s' : text) :
  firstn (pos + List.length t - pos) (t ++ s') = t.
Proof.
  replace (pos + List.length t - pos)%nat with (List.length t + 0)%nat by lia.
  rewrite firstn_app_2. cbn. apply app_nil_r.
Qed.

Lemma mtch_sound (P : text -> Prop) (r : regex) :
  groups_sat P r ->
  forall A pos s c (k : cont A) x,
    caps_sat P c ->
    mtch r pos s c k = Some x ->
    ended_in P r pos s c k x.
Proof.
  induction r as [|p|r1 IH1 r2 IH2|r1 IH1 r2 IH2|r1 IH1|p|n r1 IH1| |];
    intros Hg A pos s c k x Hc H; cbn in H.
  - exists [], s, c. rewrite Nat.add_0_r.
    repeat split; auto using lang_Eps. intros n [[]|Hn]; exact Hn.
  - destruct s as [|a s]; [discriminate|].
    destruct (p a) eqn:Hp; [|discriminate].
    exists [a], s, c. rewrite Nat.add_1_r.
    repeat split; auto using lang_Chr. intros n [[]|Hn]; exact Hn.
  - destruct Hg as [Hg1 Hg2].
    destruct (IH1 Hg1 _ _ _ _ _ _ Hc H) as (t1 & s1 & c1 & -> & Hl1 & Hc1 & Hn1 & Hk1).
    destruct (IH2 Hg2 _ _ _ _ _ _ Hc1 Hk1) as (t2 & s2 & c2 & -> & Hl2 & Hc2 & Hn2 & Hk2).
    exists (t1 ++ t2), s2, c2. repeat split; auto using lang_Seq.
    + apply app_assoc.
    + intros n [Hn|Hn]; cbn in Hn.
      * apply in_app_or in Hn. destruct Hn as [Hn|Hn]; auto.
      * auto.
    + rewrite length_app, Nat.add_assoc. exact Hk2.
  - destruct Hg as [Hg1 Hg2].
    destruct (mtch r1 pos s c k) eqn:E1.
    + injection H as ->.
      destruct (IH1 Hg1 _ _ _ _ _ _ Hc E1) as (t & s' & c' & -> & Hl & Hc' & Hn & Hk).
      exists t, s', c'. repeat split; auto using lang_Alt_l.
      intros n [[]|Hn']; auto.
    + destruct (IH2 Hg2 _ _ _ _ _ _ Hc H) as (t & s' & c' & -> & Hl & Hc' & Hn & Hk).
      exists t, s', c'. repeat split; auto using lang_Alt_r.
      intros n [[]|Hn']; auto.
  - destruct (mtch r1 pos s c k) eqn:E1.
    + injection H as ->.
      destruct (IH1 Hg _ _ _ _ _ _ Hc E1) as (t & s' & c' & -> & Hl & Hc' & Hn & Hk).
      exists t, s', c'. repeat split; auto using lang_Opt_some.
      intros n [[]|Hn']; auto.
    + exists [], s, c. rewrite Nat.add_0_r.
      repeat split; auto using lang_Opt_none. intros n [[]|Hn]; exact Hn.
  - apply star_match_sound; assumption.
  - destruct Hg as [HP Hg1].
    destruct (IH1 Hg1 _ _ _ _ _ _ Hc H) as (t & s' & c' & -> & Hl & Hc' & Hn & Hk).
    rewrite firstn_add_sub in Hk.
    exists t, s', ((n, t) :: c'). repeat split; auto using lang_Group.
    + constructor; [apply HP; exact Hl | exact Hc'].
    + intros m [[Hm|Hm]|Hm]; apply has_group_cons; auto.
  - destruct (Nat.eqb pos 0); [|discriminate].
    exists [], s, c. rewrite Nat.add_0_r.
    repeat split; auto using lang_Bol. intros n [[]|Hn]; exact Hn.
  - assert (Hk : k pos s c = Some x).
    { destruct s as [|a [|b s]]; try discriminate; auto.
      destruct (N.eqb a 10); [exact H | discriminate]. }
    exists [], s, c. rewrite Nat.add_0_r.
    repeat split; auto using lang_Eol. intros n [[]|Hn]; exact Hn.
Qed.

(** A search that succeeds found an occurrence, and its match object holds
    every mandatory group, each satisfying [P]. *)
Lemma search_from_sound (P : text -> Prop) (r : regex) :
  groups_sat P r ->
  forall s pos m,
    search_from r pos s = Some m ->
    occurs r s /\ caps_sat P m /\ (forall n, In n (mandatory r) -> has_group m n).
Proof.
  intros Hg. induction s as [|a s IH]; intros pos m H; cbn in H.
  - destruct (match_at r pos []) eqn:E; [|discriminate].
    injection H as ->.
    destruct (mtch_sound P r Hg _ _ _ _ _ _ (Forall_nil _) E)
      as (t & s' & c' & Hs & Hl & Hc' & Hn & Hk).
    injection Hk as ->.
    split; [|split; auto].
    exists [], t, s'. split; auto.
  - destruct (match_at r pos (a :: s)) eqn:E.
    + injection H as ->.
      destruct (mtch_sound P r Hg _ _ _ _ _ _ (Forall_nil _) E)
        as (t & s' & c' & Hs & Hl & Hc' & Hn & Hk).
      injection Hk as ->.
      split; [|split; auto].
      exists [], t, s'. split; auto.
    + destruct (IH _ _ H) as ((pre & t & post & -> & Hl) & Hc & Hn).
      split; [|split; auto].
      exists (a :: pre), t, post. split; auto.
Qed.

Lemma star_match_complete {A} (p : N -> bool) (t : text) :
  Forall (fun x => p x = true) t ->
  forall pos s' c (k : cont A),
    (forall c', k (pos + List.length t) s' c' <> None) ->
    star_match p pos (t ++ s') c k <> None.
Proof.
  induction 1 as [|a t Ha Ht IH]; intros pos s' c k Hk.
  - cbn in *. rewrite Nat.add_0_r in Hk.
    destruct s' as [|b s']; cbn; [apply Hk|].
    destruct (p b); [|apply Hk].
    destruct (star_match p (S pos) s' c k); [discriminate | apply Hk].
  - cbn. rewrite Ha.
    specialize (IH (S pos) s' c k).
    destruct (star_match p (S pos) (t ++ s') c k); [discriminate|].
    exfalso. apply IH; [|reflexivity].
    intro c'. cbn [List.length] in Hk. rewrite Nat.add_succ_r in Hk. apply Hk.
Qed.

Lemma mtch_complete (r : regex) (t : text) :
  lang r t ->
  anchor_free r ->
  forall A pos s' c (k : cont A),
    (forall c', k (pos + List.length t) s' c' <> None) ->
    mtch r pos (t ++ s') c k <> None.
Proof.
  induction 1 as [|p x Hp|r1 r2 t1 t2 H1 IH1 H2 IH2|r1 r2 t H1 IH1|r1 r2 t H2 IH2
                 |r1 t H1 IH1|r1|p t Ht|n r1 t H1 IH1| |];
    intros Haf A pos s' c k Hk; cbn in *.
  - rewrite Nat.add_0_r in Hk. apply Hk.
  - rewrite Hp. rewrite Nat.add_1_r in Hk. apply Hk.
  - destruct Haf as [Haf1 Haf2].
    rewrite <- app_assoc. apply IH1; [exact Haf1|].
    intro c'. apply IH2; [exact Haf2|].
    intro c''. rewrite <- Nat.add_assoc, <- length_app. apply Hk.
  - destruct Haf as [Haf1 Haf2].
    specialize (IH1 Haf1 A pos s' c k Hk).
    destruct (mtch r1 pos (t ++ s') c k); [discriminate | contradiction].
  - destruct Haf as [Haf1 Haf2].
    destruct (mtch r1 pos (t ++ s') c k); [discriminate|].
    apply IH2; assumption.
  - specialize (IH1 Haf A pos s' c k Hk).
    destruct (mtch r1 pos (t ++ s') c k); [discriminate | contradiction].
  - rewrite Nat.add_0_r in Hk.
    destruct (mtch r1 pos s' c k); [discriminate | apply Hk].
  - apply star_match_complete; assumption.
  - apply IH1; [exact Haf|]. intro c'. apply Hk.
  - contradiction.
  - contradiction.
Qed.

Lemma search_from_complete (r : regex) (s : text) :
  anchor_free r -> occurs r s -> forall pos, search_from r pos s <> None.
Proof.
  intros Haf (pre & t & post & -> & Hl).
  induction pre as [|a pre IH]; intro pos.
  - assert (E : match_at r pos (t ++ post) <> None).
    { apply mtch_complete; auto. intros c'. discriminate. }
    cbn [app]. destruct (t ++ post) as [|b u] eqn:Eu; cbn;
      destruct (match_at r pos _); try discriminate; contradiction.
  - cbn. destruct (match_at r pos _); [discriminate | apply IH].
Qed.
End MatcherFacts.

(** ** [float()] on what the number pattern captures *)

Section NumberFacts.
Context {U : Py.UnicodeDB}.
Import Py Re Reference.

Lemma digits_value_some (ds : text) :
  all_digits ds -> forall acc, exists v, digits_value acc ds = Some v.
Proof.
  induction 1 as [|d ds Hd Hds IH]; intro acc; cbn.
  - eauto.
  - unfold isdigit in Hd. destruct (decimal d); [apply IH | discriminate].
Qed.

Lemma takewhile_digits (ds rest : text) :
  all_digits ds ->
  (rest = [] \/ exists c r, rest = c :: r /\ isdigit c = false) ->
  takewhile isdigit (ds ++ rest) = ds /\ dropwhile isdigit (ds ++ rest) = rest.
Proof.
  intros Hds Hrest. induction Hds as [|d ds Hd Hds IH]; cbn.
  - destruct Hrest as [-> | (c & r & -> & Hc)]; cbn; [auto|].
    rewrite Hc. auto.
  - rewrite Hd. destruct IH as [-> ->]. auto.
Qed.

Lemma isdigit_dot : isdigit 46 = false.
Proof. reflexivity. Qed.

Lemma digit_not_sign (d : N) :
  isdigit d = true -> N.eqb d 45 = false /\ N.eqb d 43 = false.
Proof.
  intro Hd. split; apply N.eqb_neq; intros ->; discriminate.
Qed.

Lemma one_of_in (cs : list N) (x : N) : one_of cs x = true -> In x cs.
Proof.
  unfold one_of. intro H. apply existsb_exists in H.
  destruct H as (y & Hy & E). apply N.eqb_eq in E. subst. exact Hy.
Qed.

Lemma lang_Plus_inv (p : N -> bool) (t : text) :
  lang (Plus p) t ->
  exists d ds, t = d :: ds /\ p d = true /\ Forall (fun x => p x = true) ds.
Proof.
  unfold Plus. intro H. inversion H as [| |r1 r2 t1 t2 H1 H2| | | | | | | |]; subst.
  inversion H1; subst. inversion H2; subst.
  eexists _, _. cbn. eauto.
Qed.

Lemma unsigned_of_number (d : N) (ds frac : text) :
  isdigit d = true -> all_digits ds ->
  (frac = [] \/ exists e es, frac = 46%N :: e :: es /\ all_digits (e :: es)) ->
  exists q, unsigned_of_text ((d :: ds) ++ frac) = Some q.
Proof.
  intros Hd Hds Hfrac. unfold unsigned_of_text.
  assert (Hall : all_digits (d :: ds)) by (constructor; assumption).
  destruct (takewhile_digits (d :: ds) frac Hall) as [-> ->].
  { destruct Hfrac as [-> | (e & es & -> & _)]; [auto|].
    right. eexists _, _. split; [reflexivity | apply isdigit_dot]. }
  destruct (digits_value_some _ Hall 0%Z) as [iv ->].
  destruct Hfrac as [-> | (e & es & -> & Hes)]; [eauto|].
  rewrite N.eqb_refl.
  destruct (digits_value_some _ Hes 0%Z) as [fv ->]. eauto.
Qed.

(** [float()] accepts every string of the number pattern. *)
Lemma float_of_number (t : text) :
  lang _NUM t -> exists q, float_of_text t = Ok q.
Proof.
  unfold _NUM, seq_of. intro H.
  inversion H as [| |r1 r2 sg body Hsg Hbody| | | | | | | |]; subst; clear H.
  inversion Hbody as [| |r1 r2 ip frac Hip Hfrac| | | | | | | |]; subst; clear Hbody.
  apply lang_Plus_inv in Hip. destruct Hip as (d & ds & -> & Hd & Hds).
  assert (Hf : frac = [] \/ exists e es, frac = 46%N :: e :: es /\ all_digits (e :: es)).
  { inversion Hfrac as [| | | | |r t' Hin|r| | | |]; subst; [|auto].
    inversion Hin as [| |r1 r2 dot fp Hdot Hfp| | | | | | | |]; subst.
    inversion Hdot as [|p x Hx| | | | | | | | |]; subst.
    apply one_of_in in Hx. destruct Hx as [<- | []].
    apply lang_Plus_inv in Hfp. destruct Hfp as (e & es & -> & He & Hes).
    right. exists e, es. split; [reflexivity | constructor; assumption]. }
  destruct (unsigned_of_number d ds frac Hd Hds Hf) as [q Hq].
  unfold float_of_text.
  inversion Hsg as [| | | | |r t' Hin|r| | | |]; subst.
  - inversion Hin as [|p x Hx| | | | | | | | |]; subst.
    apply one_of_in in Hx. cbn [app] in *.
    destruct Hx as [<- | [<- | []]]; cbn [N.eqb Pos.eqb]; rewrite Hq;
      cbn; eauto.
  - cbn [app] in *. destruct (digit_not_sign d Hd) as [-> ->].
    rewrite Hq. eauto.
Qed.

Lemma float_group_ok (m : match_obj) (n : string) :
  caps_sat floatable m -> has_group m n -> exists q, float_group m n = Ok q.
Proof.
  intros Hm Hn. unfold float_group, has_group in *.
  destruct (group m n) as [t|] eqn:E; [|contradiction].
  exact (group_sat floatable m n t Hm E).
Qed.

Lemma groups_sat_RANGE : groups_sat floatable _RANGE_RE.
Proof.
  cbv [_RANGE_RE seq_of groups_sat]; fold _NUM.
  repeat split; try exact I; intros t Ht; exact (float_of_number t Ht).
Qed.

Lemma groups_sat_UPPER : groups_sat floatable _UPPER_ONLY_RE.
Proof.
  cbv [_UPPER_ONLY_RE seq_of groups_sat]; fold _NUM.
  repeat split; try exact I; intros t Ht; exact (float_of_number t Ht).
Qed.

Lemma groups_sat_LOWER : groups_sat floatable _LOWER_ONLY_RE.
Proof.
  cbv [_LOWER_ONLY_RE seq_of groups_sat]; fold _NUM.
  repeat split; try exact I; intros t Ht; exact (float_of_number t Ht).
Qed.

Lemma anchor_free_patterns :
  anchor_free _RANGE_RE /\ anchor_free _UPPER_ONLY_RE /\ anchor_free _LOWER_ONLY_RE.
Proof. cbn. tauto. Qed.
End NumberFacts.

(** ** Substrings cut out by [strip] and [split] *)

Section Substrings.
Context {U : Py.UnicodeDB}.
Import Py Re.

Lemma substring_refl (a : text) : substring a a.
Proof. exists [], []. cbn. rewrite app_nil_r. reflexivity. Qed.

Lemma substring_trans (a b c : text) :
  substring a b -> substring b c -> substring a c.
Proof.
  intros (p1 & q1 & ->) (p2 & q2 & ->).
  exists (p2 ++ p1), (q1 ++ q2). rewrite <- !app_assoc. reflexivity.
Qed.

Lemma dropwhile_suffix (p : N -> bool) (t : text) :
  exists pre, t = pre ++ dropwhile p t.
Proof.
  induction t as [|c t [pre IH]]; cbn.
  - exists []. reflexivity.
  - destruct (p c).
    + exists (c :: pre). cbn. congruence.
    + exists []. reflexivity.
Qed.

Lemma takewhile_prefix (p : N -> bool) (t : text) :
  exists post, t = takewhile p t ++ post.
Proof.
  induction t as [|c t [post IH]]; cbn.
  - exists []. reflexivity.
  - destruct (p c).
    + exists post. cbn. congruence.
    + exists (c :: t). reflexivity.
Qed.

Lemma substring_dropwhile (p : N -> bool) (t : text) : substring (dropwhile p t) t.
Proof.
  destruct (dropwhile_suffix p t) as [pre E].
  exists pre, []. rewrite app_nil_r. exact E.
Qed.

Lemma substring_takewhile (p : N -> bool) (t : text) : substring (takewhile p t) t.
Proof.
  destruct (takewhile_prefix p t) as [post E].
  exists [], post. exact E.
Qed.

Lemma substring_rstrip (p : N -> bool) (t : text) : substring (rstrip_chars p t) t.
Proof.
  unfold rstrip_chars.
  destruct (dropwhile_suffix p (rev t)) as [pre E].
  exists [], (rev pre). cbn.
  rewrite <- rev_app_distr, <- E, rev_involutive. reflexivity.
Qed.

Lemma substring_strip (t : text) : substring (strip t) t.
Proof.
  unfold strip, lstrip_chars.
  eapply substring_trans; [apply substring_rstrip | apply substring_dropwhile].
Qed.

Lemma substring_split_first (c : N) (t : text) : substring (split_first c t) t.
Proof. apply substring_takewhile. Qed.

Lemma split1_second_some (c : N) (t : text) :
  contains c t = true ->
  exists rest, split1_second c t = Some rest /\ substring rest t.
Proof.
  unfold split1_second, contains. intro H.
  destruct (dropwhile_suffix (fun x => negb (N.eqb x c)) t) as [pre E].
  destruct (dropwhile (fun x => negb (N.eqb x c)) t) as [|d rest] eqn:D.
  - exfalso. clear E. induction t as [|a t IH]; cbn in *; [discriminate|].
    rewrite (N.eqb_sym a c) in D.
    destruct (N.eqb c a); cbn in *; [discriminate | auto].
  - exists rest. split; [reflexivity|].
    exists (pre ++ [d]), []. rewrite app_nil_r, <- app_assoc. exact E.
Qed.

Lemma occurs_substring (r : regex) (a b : text) :
  substring a b -> occurs r a -> occurs r b.
Proof.
  intros (p & q & ->) (pre & t & post & -> & Hl).
  exists (p ++ pre), t, (post ++ q). split; [|exact Hl].
  rewrite <- !app_assoc. reflexivity.
Qed.

(** A pattern without anchors found in a substring is found in the whole. *)
Lemma search_substring (r : regex) (a b : text) :
  groups_sat (fun _ => True) r -> anchor_free r -> substring a b ->
  search r b = None -> search r a = None.
Proof.
  intros Hg Haf Hsub Hb.
  destruct (search r a) as [m|] eqn:E; [|reflexivity].
  exfalso.
  destruct (search_from_sound (fun _ => True) r Hg a 0 m E) as (Hocc & _).
  apply (search_from_complete r b Haf (occurs_substring r a b Hsub Hocc) 0).
  exact Hb.
Qed.

Lemma groups_sat_weaken (P : text -> Prop) (r : regex) :
  groups_sat P r -> groups_sat (fun _ => True) r.
Proof.
  induction r; cbn; intuition.
Qed.
End Substrings.

(** ** Reference-range parser: totality and raw text *)

Section ParseFacts.
Context {U : Py.UnicodeDB}.
Import Py Re Reference.

Lemma segment_of_ok (text : Py.text) :
  exists seg, segment_of text = Ok seg /\ substring seg text.
Proof.
  unfold segment_of.
  destruct (contains 59 text); [|eauto using substring_refl].
  assert (H1 : substring (strip (split_first 59 text)) text).
  { eapply substring_trans; [apply substring_strip | apply substring_split_first]. }
  destruct (contains 58 (strip (split_first 59 text))) eqn:C; [|eauto].
  destruct (split1_second_some _ _ C) as (rest & -> & Hrest).
  eexists. split; [reflexivity|].
  eapply substring_trans; [apply substring_strip|].
  eapply substring_trans; eassumption.
Qed.

Lemma parse_reference_range_spec (raw : Py.text) :
  exists rr,
    parse_reference_range raw = Ok rr /\
    ReferenceRange.raw_text rr = raw /\
    (strip raw = [] \/ match_ _QUALITATIVE_RE (strip raw) <> None \/
     no_numeric_pattern raw -> unbounded rr).
Proof.
  unfold parse_reference_range.
  destruct (strip raw) as [|c0 tx] eqn:Estrip.
  { eexists. repeat split. }
  destruct (match_ _QUALITATIVE_RE (c0 :: tx)) as [mq|] eqn:Equal.
  { eexists. repeat split. }
  fold (segment_of (c0 :: tx)).
  destruct (segment_of_ok (c0 :: tx)) as (seg & -> & Hseg).
  assert (Hsub : substring seg raw).
  { eapply substring_trans; [exact Hseg|]. rewrite <- Estrip. apply substring_strip. }
  destruct anchor_free_patterns as (AR & AU & AL).
  cbn [bind].
  destruct (search _RANGE_RE seg) as [m|] eqn:ER.
  { destruct (search_from_sound floatable _ groups_sat_RANGE seg 0 m ER)
      as (_ & Hc & Hn).
    destruct (float_group_ok m "lo" Hc) as [lo ->]; [apply Hn; cbn; tauto|].
    destruct (float_group_ok m "hi" Hc) as [hi ->]; [apply Hn; cbn; tauto|].
    cbn [bind]. eexists. split; [reflexivity|]. split; [reflexivity|].
    intros [H | [H | (H & _ & _)]]; [discriminate | contradiction |].
    rewrite (search_substring _ seg raw
               (groups_sat_weaken _ _ groups_sat_RANGE) AR Hsub H) in ER.
    discriminate. }
  destruct (search _UPPER_ONLY_RE seg) as [m|] eqn:EU.
  { destruct (search_from_sound floatable _ groups_sat_UPPER seg 0 m EU)
      as (_ & Hc & Hn).
    destruct (float_group_ok m "hi" Hc) as [hi ->]; [apply Hn; cbn; tauto|].
    cbn [bind]. eexists. split; [reflexivity|]. split; [reflexivity|].
    intros [H | [H | (_ & H & _)]]; [discriminate | contradiction |].
    rewrite (search_substring _ seg raw
               (groups_sat_weaken _ _ groups_sat_UPPER) AU Hsub H) in EU.
    discriminate. }
  destruct (search _LOWER_ONLY_RE seg) as [m|] eqn:EL.
  { destruct (search_from_sound floatable _ groups_sat_LOWER seg 0 m EL)
      as (_ & Hc & Hn).
    destruct (float_group_ok m "lo" Hc) as [lo ->]; [apply Hn; cbn; tauto|].
    cbn [bind]. eexists. split; [reflexivity|]. split; [reflexivity|].
    intros [H | [H | (_ & _ & H)]]; [discriminate | contradiction |].
    rewrite (search_substring _ seg raw
               (groups_sat_weaken _ _ groups_sat_LOWER) AL Hsub H) in EL.
    discriminate. }
  eexists. repeat split.
Qed.
End ParseFacts.

(** C8: [parse_reference_range] raises on no input string.  Input in which
    no pattern is found (blank, qualitative such as "Negative", or without
    any numeric pattern) yields an unbounded range: [low] and [high] both
    absent, [is_bounded] false.  In every case [raw_text] is the original,
    untrimmed input. *)
Theorem C8_parse_reference_range_total (U : Py.UnicodeDB) :
  (forall raw,
     exists rr,
       Reference.parse_reference_range raw = Py.Ok rr /\
       ReferenceRange.raw_text rr = raw /\
       (Py.strip raw = [] \/
        Re.match_ Reference._QUALITATIVE_RE (Py.strip raw) <> None \/
        no_numeric_pattern raw ->
        unbounded rr)) /\
  Reference.parse_reference_range (Py.str "Negative")
  = Py.Ok (ReferenceRange.mk None None (Py.str "Negative")) /\
  ReferenceRange.is_bounded (ReferenceRange.mk None None (Py.str "Negative")) = false.
Proof.
  split; [intro raw; apply parse_reference_range_spec|].
  split; reflexivity.
Qed.

Lemma C8_parse_reference_range_total_witness :
  exists rr,
    Reference.parse_reference_range (U := Py.ascii_only) (Py.str " see note ")
    = Py.Ok rr /\
    ReferenceRange.raw_text rr = Py.str " see note " /\
    unbounded rr.
Proof.
  destruct (proj1 (C8_parse_reference_range_total Py.ascii_only) (Py.str " see note "))
    as (rr & Hrr & Hraw & Hunb).
  exists rr. split; [exact Hrr|]. split; [exact Hraw|].
  apply Hunb. right. right. vm_compute. auto.
Defined.

(** ** The stable sort *)

Section SortedFacts.
Variable A : Type.
Variable leb : A -> A -> bool.

Lemma insert_perm (x : A) (l : list A) : Permutation (Py.insert leb x l) (x :: l).
Proof.
  induction l as [|y l IH]; cbn.
  - apply Permutation_refl.
  - destruct (leb x y).
    + apply Permutation_refl.
    + eapply perm_trans; [apply perm_skip, IH | apply perm_swap].
Qed.

Lemma sorted_perm (l : list A) : Permutation (Py.sorted leb l) l.
Proof.
  induction l as [|x l IH]; cbn.
  - apply perm_nil.
  - eapply perm_trans; [apply insert_perm | apply perm_skip, IH].
Qed.

Lemma sorted_length (l : list A) : List.length (Py.sorted leb l) = List.length l.
Proof. apply Permutation_length, sorted_perm. Qed.

Lemma sorted_in (l : list A) (x : A) : In x (Py.sorted leb l) <-> In x l.
Proof.
  split; apply Permutation_in; [|apply Permutation_sym]; apply sorted_perm.
Qed.

(** Elements of one class, any two of which may stay in input order, keep
    their input order. *)
Section Stable.
Variable p : A -> bool.
Hypothesis same_class : forall x y, p x = true -> p y = true -> leb x y = true.

Lemma insert_filter (x : A) (l : list A) :
  filter p (Py.insert leb x l) = filter p (x :: l).
Proof.
  induction l as [|y l IH]; [reflexivity|].
  cbn [Py.insert]. destruct (leb x y) eqn:E; [reflexivity|].
  cbn [filter] in *. destruct (p x) eqn:Px.
  - destruct (p y) eqn:Py.
    + rewrite (same_class x y Px Py) in E. discriminate.
    + exact IH.
  - rewrite IH. reflexivity.
Qed.

Lemma sorted_stable (l : list A) : filter p (Py.sorted leb l) = filter p l.
Proof.
  induction l as [|x l IH]; [reflexivity|].
  cbn [Py.sorted]. rewrite insert_filter. cbn [filter]. rewrite IH. reflexivity.
Qed.
End Stable.

Section Ordered.
Hypothesis leb_total : forall x y, leb x y = true \/ leb y x = true.
Hypothesis leb_trans : forall x y z, leb x y = true -> leb y z = true -> leb x z = true.

Let le (x y : A) : Prop := leb x y = true.

Lemma insert_sorted (x : A) (l : list A) :
  StronglySorted le l -> StronglySorted le (Py.insert leb x l).
Proof.
  induction 1 as [|y l Hl IH Hy]; cbn.
  - repeat constructor.
  - destruct (leb x y) eqn:E.
    + constructor; [constructor; assumption|].
      constructor; [exact E|].
      eapply Forall_impl; [|exact Hy]. intros z Hz. exact (leb_trans x y z E Hz).
    + constructor; [exact IH|].
      assert (Hyx : le y x) by (destruct (leb_total x y); [congruence | assumption]).
      apply (Permutation_Forall (Permutation_sym (insert_perm x l))).
      constructor; assumption.
Qed.

Lemma sorted_sorted (l : list A) : StronglySorted le (Py.sorted leb l).
Proof.
  induction l as [|x l IH]; cbn.
  - constructor.
  - apply insert_sorted, IH.
Qed.
End Ordered.
End SortedFacts.


(** ** Severity scorer *)

Section SeverityFacts.
Import Py Severity.




Lemma by_score_total (a b : LabTrend.t) : by_score a b = true \/ by_score b a = true.
Proof.
  unfold by_score, fle.
  destruct (Qlt_le_dec (LabTrend.severity_score a) (LabTrend.severity_score b)) as [H|H].
  - right. apply Qle_bool_iff, Qlt_le_weak, H.
  - left. apply Qle_bool_iff, H.
Qed.

Lemma by_score_trans (a b c : LabTrend.t) :
  by_score a b = true -> by_score b c = true -> by_score a c = true.
Proof.
  unfold by_score, fle. rewrite !Qle_bool_iff. intros H1 H2.
  eapply Qle_trans; eassumption.
Qed.


(** The repository's weights on a worsening, critical trend that tripled. *)
Example severity_of_critical_worsening :
  compute_severity
    (LabTrend.mk (str "potassium") (str "Potassium") TrendDirection_worsening
       (23456 # 100) (Some 7) (Some Flag_critical_high) 0 [])
  = 150.
Proof. reflexivity. Qed.

Example severity_rounds_to_two_decimals :
  compute_severity
    (LabTrend.mk (str "sodium") (str "Sodium") TrendDirection_improving
       (-(88 # 100)) (Some 148) (Some Flag_high) 0 [])
  = 4009 # 100.
Proof. reflexivity. Qed.
End SeverityFacts.


(** ** Trend engine *)

Section TrendFacts.
Import Py Trends.



(** The repository's tests ([tests/test_trends.py]). *)
Example test_single_observation_stable :
  LabTrend.direction
    (compute_trend (analyte_of "sodium" [obs_of 1 140 Flag_normal]))
  = TrendDirection_stable.
Proof. reflexivity. Qed.

Example test_high_and_decreasing_improving :
  LabTrend.direction
    (compute_trend
       (analyte_of "potassium"
          [obs_of 1 6 Flag_high; obs_of 2 (55 # 10) Flag_high;
           obs_of 3 (52 # 10) Flag_high]))
  = TrendDirection_improving.
Proof. reflexivity. Qed.

Example test_low_and_decreasing_worsening :
  LabTrend.direction
    (compute_trend
       (analyte_of "platelets"
          [obs_of 1 120 Flag_low; obs_of 2 100 Flag_low; obs_of 3 80 Flag_low]))
  = TrendDirection_worsening.
Proof. reflexivity. Qed.

Example test_fluctuating :
  LabTrend.direction
    (compute_trend
       (analyte_of "glucose"
          [obs_of 1 200 Flag_high; obs_of 2 150 Flag_high; obs_of 3 250 Flag_high;
           obs_of 4 120 Flag_high; obs_of 5 300 Flag_high]))
  = TrendDirection_fluctuating.
Proof. reflexivity. Qed.

Example test_pct_change_calculated :
  LabTrend.pct_change
    (compute_trend
       (analyte_of "creatinine" [obs_of 1 1 Flag_normal; obs_of 2 2 Flag_high]))
  = 100.
Proof. reflexivity. Qed.

Example test_empty_observations :
  let t := compute_trend (analyte_of "sodium" []) in
  LabTrend.direction t = TrendDirection_stable /\ LabTrend.latest_value t = None.
Proof. split; reflexivity. Qed.

Lemma length_diffs (l : list Observation.t) :
  List.length (diffs l) = pred (List.length l).
Proof.
  induction l as [|a [|b l] IH]; cbn in *; [reflexivity | reflexivity |].
  rewrite IH. reflexivity.
Qed.

Lemma diffs_decreasing (l : list Observation.t) :
  strictly_decreasing (List.map Observation.value l) ->
  Forall (fun d => d < 0) (diffs l).
Proof.
  induction l as [|a [|b l] IH]; cbn; intro H; try constructor.
  - destruct H as [H _]. unfold Qminus. rewrite <- (Qplus_opp_r (Observation.value a)).
    apply Qplus_lt_l. exact H.
  - apply IH. apply H.
Qed.

Lemma diffs_increasing (l : list Observation.t) :
  strictly_increasing (List.map Observation.value l) ->
  Forall (fun d => 0 < d) (diffs l).
Proof.
  induction l as [|a [|b l] IH]; cbn; intro H; try constructor.
  - destruct H as [H _]. unfold Qminus. rewrite <- (Qplus_opp_r (Observation.value a)).
    apply Qplus_lt_l. exact H.
  - apply IH. apply H.
Qed.

Lemma neg_tests (d : Q) : d < 0 -> fgt d 0 = false /\ flt d 0 = true.
Proof.
  intro H. split.
  - apply flt_false_iff. apply Qlt_le_weak, H.
  - apply flt_iff, H.
Qed.

Lemma pos_tests (d : Q) : 0 < d -> fgt d 0 = true /\ flt d 0 = false.
Proof.
  intro H. split.
  - apply fgt_iff, H.
  - apply flt_false_iff. apply Qlt_le_weak, H.
Qed.

(** A run of deltas of one sign never counts a reversal. *)
Lemma no_reversal_negative (ds : list Q) :
  Forall (fun d => d < 0) ds ->
  forall s, s = 0%Z \/ s = (-1)%Z ->
  fst (fold_left fluctuation_step ds (0%nat, s)) = 0%nat.
Proof.
  induction 1 as [|d ds Hd Hds IH]; intros s Hs; [reflexivity|].
  cbn [fold_left]. unfold fluctuation_step at 2.
  destruct (neg_tests d Hd) as [E1 E2]. rewrite ?E2, ?E1.
  destruct Hs as [-> | ->]; cbn; apply IH; auto.
Qed.

Lemma no_reversal_positive (ds : list Q) :
  Forall (fun d => 0 < d) ds ->
  forall s, s = 0%Z \/ s = 1%Z ->
  fst (fold_left fluctuation_step ds (0%nat, s)) = 0%nat.
Proof.
  induction 1 as [|d ds Hd Hds IH]; intros s Hs; [reflexivity|].
  cbn [fold_left]. unfold fluctuation_step at 2.
  destruct (pos_tests d Hd) as [E1 E2]. rewrite ?E2, ?E1.
  destruct Hs as [-> | ->]; cbn; apply IH; auto.
Qed.

Lemma counts_negative (ds : list Q) :
  Forall (fun d => d < 0) ds ->
  count (fun d => fgt d 0) ds = 0%nat /\ count (fun d => flt d 0) ds = List.length ds.
Proof.
  unfold count. induction 1 as [|d ds Hd Hds [IH1 IH2]]; [auto|].
  cbn. destruct (neg_tests d Hd) as [-> ->]. cbn. auto.
Qed.

Lemma counts_positive (ds : list Q) :
  Forall (fun d => 0 < d) ds ->
  count (fun d => fgt d 0) ds = List.length ds /\ count (fun d => flt d 0) ds = 0%nat.
Proof.
  unfold count. induction 1 as [|d ds Hd Hds [IH1 IH2]]; [auto|].
  cbn. destruct (pos_tests d Hd) as [-> ->]. cbn. auto.
Qed.

Lemma not_fluctuating_of_no_reversal (obs : list Observation.t) :
  fst (fold_left fluctuation_step (diffs obs) (0%nat, 0%Z)) = 0%nat ->
  _is_fluctuating obs = false.
Proof.
  unfold _is_fluctuating. intro H.
  destruct (Nat.ltb (List.length obs) 3); [reflexivity|].
  destruct (fold_left fluctuation_step (diffs obs) (0%nat, 0%Z)) as [r s].
  cbn in H. subst r. reflexivity.
Qed.



End TrendFacts.




(** ** Merge engine *)

Section MergeExamples.
Import Py Objects Merge.







Example merge_key_of_sodium :
  _merge_key (sodium []) = str "sodium|mmol/L|136.0000|145.0000".
Proof. reflexivity. Qed.

Example range_signature_rounds :
  _range_signature (ReferenceRange.mk (Some (-(1 # 100000))) None [])
  = str "-0.0000|None".
Proof. reflexivity. Qed.

(** The repository's tests ([tests/test_merge.py]). *)
Example test_merge_two_reports_same_analyte :
  view (merge_reports (store_of_list [plain_obs 1 140; plain_obs 2 142])
          [_make_report "img1" [sodium [0%nat]]; _make_report "img2" [sodium [1%nat]]])
  = [(str "sodium", [(1%Z, 140, str "img1"); (2%Z, 142, str "img2")])].
Proof. reflexivity. Qed.

Example test_dedup_same_date_value :
  view (merge_reports (store_of_list [plain_obs 1 140; plain_obs 1 140])
          [_make_report "img1" [sodium [0%nat]]; _make_report "img2" [sodium [1%nat]]])
  = [(str "sodium", [(1%Z, 140, str "img2")])].
Proof. reflexivity. Qed.

Example test_different_analytes_stay_separate :
  view (merge_reports (store_of_list [plain_obs 1 140; plain_obs 1 4])
          [_make_report "img1" [sodium [0%nat]; potassium [1%nat]]])
  = [(str "sodium", [(1%Z, 140, str "img1")]);
     (str "potassium", [(1%Z, 4, str "img1")])].
Proof. reflexivity. Qed.

Example test_observations_sorted_by_date :
  view (merge_reports (store_of_list [plain_obs 3 143; plain_obs 1 140])
          [_make_report "img1" [sodium [0%nat]]; _make_report "img2" [sodium [1%nat]]])
  = [(str "sodium", [(1%Z, 140, str "img2"); (3%Z, 143, str "img1")])].
Proof. reflexivity. Qed.

Example test_empty_reports :
  snd (merge_reports (store_of_list []) []) = [].
Proof. reflexivity. Qed.

(** One observation object listed by both reports: it is kept once and
    carries the identifier of the report that was merged last. *)
Example shared_object_is_tagged_last :
  view (merge_reports (store_of_list [plain_obs 1 140])
          [_make_report "img1" [sodium [0%nat]]; _make_report "img2" [sodium [0%nat]]])
  = [(str "sodium", [(1%Z, 140, str "img2")])].
Proof. reflexivity. Qed.
End MergeExamples.

(** *** Insertion-ordered dictionaries *)

Section ODictFacts.
Import Merge.
Variables K V : Type.
Variable eqb : K -> K -> bool.
Hypothesis eqb_refl : forall a, eqb a a = true.
Hypothesis eqb_sym : forall a b, eqb a b = eqb b a.
Hypothesis eqb_trans : forall a b c, eqb a b = true -> eqb b c = true -> eqb a c = true.

Local Abbreviation get := (odict_get eqb).
Local Abbreviation set := (odict_set eqb).

Lemma eqb_left_false (a b c : K) : eqb a b = true -> eqb a c = false -> eqb b c = false.
Proof.
  intros Hab Hac. destruct (eqb b c) eqn:E; [|reflexivity].
  rewrite (eqb_trans a b c Hab E) in Hac. discriminate.
Qed.

Lemma eqb_cong (a b c : K) : eqb a b = true -> eqb a c = eqb b c.
Proof.
  intro Hab. destruct (eqb a c) eqn:E.
  - symmetry. apply (eqb_trans b a c); [rewrite eqb_sym; exact Hab | exact E].
  - symmetry. apply (eqb_left_false a b c Hab E).
Qed.

Lemma odict_get_set (d : list (K * V)) (k k' : K) (v : V) :
  get (set d k v) k' = if eqb k k' then Some v else get d k'.
Proof.
  induction d as [|[k0 v0] d IH]; cbn.
  - reflexivity.
  - destruct (eqb k0 k) eqn:E0; cbn.
    + rewrite (eqb_cong k0 k k' E0). destruct (eqb k k'); reflexivity.
    + rewrite IH. destruct (eqb k0 k') eqn:E1; [|reflexivity].
      rewrite eqb_sym in E1.
      assert (eqb k k' = false) as ->; [|reflexivity].
      destruct (eqb k k') eqn:E2; [|reflexivity].
      rewrite (eqb_trans k0 k' k) in E0; [discriminate | |].
      * rewrite eqb_sym. exact E1.
      * rewrite eqb_sym. exact E2.
Qed.

Lemma odict_get_set_same (d : list (K * V)) (k : K) (v : V) :
  get (set d k v) k = Some v.
Proof. rewrite odict_get_set, eqb_refl. reflexivity. Qed.

Lemma odict_set_same (d : list (K * V)) (k : K) (v : V) :
  get d k = Some v -> set d k v = d.
Proof.
  induction d as [|[k0 v0] d IH]; cbn; [discriminate|].
  destruct (eqb k0 k).
  - intros [= ->]. reflexivity.
  - intro H. rewrite (IH H). reflexivity.
Qed.


Lemma odict_keys_set (d : list (K * V)) (k : K) (v : V) :
  List.map fst (set d k v) = keys_add eqb (List.map fst d) k.
Proof.
  unfold keys_add. induction d as [|[k0 v0] d IH]; cbn; [reflexivity|].
  destruct (eqb k0 k); cbn; [reflexivity|].
  rewrite IH. destruct (existsb _ _); reflexivity.
Qed.

Lemma odict_wf_set (d : list (K * V)) (k : K) (v : V) :
  odict_wf eqb d -> odict_wf eqb (set d k v).
Proof.
  induction d as [|[k0 v0] d IH]; cbn.
  - auto.
  - intros [Hk0 Hd]. destruct (eqb k0 k) eqn:E; cbn.
    + auto.
    + split; [|auto]. rewrite odict_get_set, eqb_sym, E. exact Hk0.
Qed.

(** In a well-formed dictionary the entries under a key are the one that
    [get] finds. *)
Lemma odict_filter_get (d : list (K * V)) (k : K) (v : V) :
  odict_wf eqb d -> get d k = Some v ->
  exists k0, filter (fun e => eqb (fst e) k) d = [(k0, v)].
Proof.
  induction d as [|[k0 v0] d IH]; cbn; [discriminate|].
  intros [Hk0 Hd]. destruct (eqb k0 k) eqn:E.
  - intros [= ->]. exists k0. f_equal.
    clear IH Hd. induction d as [|[k1 v1] d IH]; cbn in *; [reflexivity|].
    destruct (eqb k1 k0) eqn:E1; [discriminate|].
    rewrite (eqb_sym k1 k). rewrite <- (eqb_cong k0 k k1 E), eqb_sym, E1.
    apply IH, Hk0.
  - apply IH, Hd.
Qed.

Lemma Forall_odict_set (P : K * V -> Prop) (d : list (K * V)) (k : K) (v : V) :
  (forall k0, eqb k0 k = true -> P (k0, v)) ->
  Forall P d -> Forall P (set d k v).
Proof.
  intros HP. induction 1 as [|[k0 v0] d H0 Hd IH]; cbn.
  - constructor; [apply HP, eqb_refl | constructor].
  - destruct (eqb k0 k) eqn:E.
    + constructor; [apply HP, E | exact Hd].
    + constructor; [exact H0 | exact IH].
Qed.

Lemma odict_get_in (d : list (K * V)) (k : K) (v : V) :
  get d k = Some v -> exists k0, In (k0, v) d /\ eqb k0 k = true.
Proof.
  induction d as [|[k0 v0] d IH]; cbn; [discriminate|].
  destruct (eqb k0 k) eqn:E.
  - intros [= ->]. eauto.
  - intro H. destruct (IH H) as (k1 & Hin & Hk). eauto.
Qed.
End ODictFacts.

(** *** Key comparison *)

Section KeyFacts.
Import Py Objects Merge.

Lemma text_eqb_sym (a b : text) : text_eqb a b = text_eqb b a.
Proof.
  destruct (text_eqb a b) eqn:E.
  - apply text_eqb_eq in E. subst. symmetry. apply text_eqb_refl.
  - symmetry. apply text_eqb_neq. apply text_eqb_neq in E. congruence.
Qed.

Lemma text_eqb_trans (a b c : text) :
  text_eqb a b = true -> text_eqb b c = true -> text_eqb a c = true.
Proof. rewrite !text_eqb_eq. congruence. Qed.

Lemma Date_eqb_eq (a b : Date.t) : Date.eqb a b = true <-> a = b.
Proof.
  unfold Date.eqb, Date.compare. destruct a as [y m d], b as [y' m' d']; cbn.
  split.
  - destruct (Z.compare_spec y y'); try discriminate.
    destruct (Z.compare_spec m m'); try discriminate.
    destruct (Z.compare_spec d d'); try discriminate.
    subst. reflexivity.
  - intros [= -> -> ->]. rewrite !Z.compare_refl. reflexivity.
Qed.

Lemma Date_leb_of_eqb (a b : Date.t) : Date.eqb a b = true -> Date.leb a b = true.
Proof.
  unfold Date.eqb, Date.leb. destruct (Date.compare a b); auto; discriminate.
Qed.

Lemma obs_key_eqb_iff (a b : Date.t * float) :
  obs_key_eqb a b = true <-> fst a = fst b /\ snd a == snd b.
Proof.
  unfold obs_key_eqb, feq. rewrite andb_true_iff, Date_eqb_eq, Qeq_bool_iff.
  reflexivity.
Qed.

Lemma obs_key_eqb_refl (a : Date.t * float) : obs_key_eqb a a = true.
Proof. apply obs_key_eqb_iff. split; reflexivity. Qed.

Lemma obs_key_eqb_trans (a b c : Date.t * float) :
  obs_key_eqb a b = true -> obs_key_eqb b c = true -> obs_key_eqb a c = true.
Proof.
  rewrite !obs_key_eqb_iff. intros [H1 H2] [H3 H4]. split.
  - congruence.
  - rewrite H2. exact H4.
Qed.

Lemma obs_key_eqb_sym (a b : Date.t * float) : obs_key_eqb a b = obs_key_eqb b a.
Proof.
  assert (H : forall x y, obs_key_eqb x y = true -> obs_key_eqb y x = true).
  { intros x y. rewrite !obs_key_eqb_iff. intros [H1 H2]. split; symmetry; assumption. }
  destruct (obs_key_eqb a b) eqn:E.
  - symmetry. apply H, E.
  - destruct (obs_key_eqb b a) eqn:E'; [|reflexivity].
    rewrite (H _ _ E') in E. discriminate.
Qed.

Lemma obs_key_set (sid : text) (o : Observation.t) :
  _obs_key (Observation.set_source_image_id sid o) = _obs_key o.
Proof. reflexivity. Qed.

Lemma merge_key_with_observations {O O'} (obs : list O') (a : LabAnalyte.t O) :
  _merge_key (LabAnalyte.with_observations obs a) = _merge_key a.
Proof. reflexivity. Qed.

Lemma touched_refl (sid : text) (h : store) : touched sid h h.
Proof. intro r. left. reflexivity. Qed.

Lemma touched_trans (sid : text) (h1 h2 h3 : store) :
  touched sid h1 h2 -> touched sid h2 h3 -> touched sid h1 h3.
Proof.
  intros H12 H23 r. destruct (H23 r) as [-> | ->], (H12 r) as [-> | ->]; auto.
Qed.

Lemma touched_same_keys (sid : text) (h h' : store) :
  touched sid h h' -> same_keys h h'.
Proof. intros H r. destruct (H r) as [-> | ->]; reflexivity. Qed.

Lemma touched_keeps_tag (sid : text) (h h' : store) (l : ref) :
  touched sid h h' ->
  Observation.source_image_id (h l) = sid ->
  Observation.source_image_id (h' l) = sid.
Proof. intros H E. destruct (H l) as [-> | ->]; [exact E | reflexivity]. Qed.

Lemma same_keys_refl (h : store) : same_keys h h.
Proof. intro r. reflexivity. Qed.

Lemma same_keys_trans (h1 h2 h3 : store) :
  same_keys h1 h2 -> same_keys h2 h3 -> same_keys h1 h3.
Proof. intros H12 H23 r. rewrite H23. apply H12. Qed.

Lemma same_keys_sym (h1 h2 : store) : same_keys h1 h2 -> same_keys h2 h1.
Proof. intros H r. symmetry. apply H. Qed.

Lemma event_of_same_keys (h h' : store) (a : LabAnalyte.t ref) :
  same_keys h h' -> event_of h' a = event_of h a.
Proof.
  intro H. unfold event_of. f_equal. apply map_ext. intro r. apply H.
Qed.

Lemma events_of_same_keys (h h' : store) (rs : list (LabReport.t ref)) :
  same_keys h h' -> events_of h' rs = events_of h rs.
Proof.
  intro H. unfold events_of. apply map_ext. intro a. apply event_of_same_keys, H.
Qed.
End KeyFacts.

(** *** The merge acts on keys alone *)

Section SkeletonFacts.
Import Py Objects Merge.

Lemma store_set_touched (sid : text) (h : store) (o : ref) :
  touched sid h (store_set h o (Observation.set_source_image_id sid (h o))).
Proof.
  intro r. unfold store_set. destruct (Nat.eqb r o) eqn:E.
  - apply Nat.eqb_eq in E. subst. right. reflexivity.
  - left. reflexivity.
Qed.

Lemma merge_observation_eq (sid : text) (h : store) (od : obs_dict) (o : ref) :
  merge_observation sid (h, od) o
  = (store_set h o (Observation.set_source_image_id sid (h o)),
     odict_set obs_key_eqb od (_obs_key (h o)) o).
Proof.
  unfold merge_observation. f_equal. f_equal.
  unfold store_set. rewrite Nat.eqb_refl. reflexivity.
Qed.

Lemma merge_observations_keys (sid : text) (os : list ref) :
  forall h od,
    let st := fold_left (merge_observation sid) os (h, od) in
    touched sid h (fst st) /\
    List.map fst (snd st)
    = fold_left (keys_add obs_key_eqb)
        (List.map (fun r => _obs_key (h r)) os) (List.map fst od).
Proof.
  induction os as [|o os IH]; intros h od; cbv zeta; cbn [fold_left List.map].
  - split; [apply touched_refl | reflexivity].
  - rewrite merge_observation_eq.
    pose proof (store_set_touched sid h o) as Ht.
    set (h1 := store_set h o _) in *.
    destruct (IH h1 (odict_set obs_key_eqb od (_obs_key (h o)) o)) as [IH1 IH2].
    split.
    + eapply touched_trans; eassumption.
    + etransitivity; [exact IH2|]. rewrite odict_keys_set.
      f_equal. apply map_ext. intro r. apply (touched_same_keys sid h h1 Ht).
Qed.

Lemma skeleton_get (m : merged_dict) (K : text) :
  odict_get text_eqb (skeleton_of m) K
  = option_map (fun v => List.map fst (snd v)) (odict_get text_eqb m K).
Proof.
  induction m as [|[k0 v0] m IH]; cbn; [reflexivity|].
  destruct (text_eqb k0 K); [reflexivity | exact IH].
Qed.

Lemma skeleton_set (m : merged_dict) (K : text) (v : LabAnalyte.t ref * obs_dict) :
  skeleton_of (odict_set text_eqb m K v)
  = odict_set text_eqb (skeleton_of m) K (List.map fst (snd v)).
Proof.
  induction m as [|[k0 v0] m IH]; cbn; [reflexivity|].
  destruct (text_eqb k0 K); cbn; [reflexivity|].
  f_equal. exact IH.
Qed.

Lemma merge_analyte_skeleton (sid : text) (h : store) (m : merged_dict)
    (a : LabAnalyte.t ref) :
  let st := merge_analyte sid (h, m) a in
  touched sid h (fst st) /\
  skeleton_of (snd st) = skeleton_step (skeleton_of m) (event_of h a).
Proof.
  cbv zeta. unfold merge_analyte, skeleton_step. cbn [fst snd event_of].
  set (K := _merge_key a).
  set (m1 := match odict_get text_eqb m K with
             | Some _ => m
             | None => odict_set text_eqb m K (LabAnalyte.with_observations [] a, [])
             end).
  assert (Hsk1 : skeleton_of m1
                 = match odict_get text_eqb (skeleton_of m) K with
                   | Some _ => skeleton_of m
                   | None => odict_set text_eqb (skeleton_of m) K []
                   end).
  { subst m1. rewrite skeleton_get.
    destruct (odict_get text_eqb m K); cbn; [reflexivity|].
    apply skeleton_set. }
  rewrite <- Hsk1. rewrite skeleton_get.
  destruct (odict_get text_eqb m1 K) as [[t od]|]; cbn [option_map snd].
  - destruct (merge_observations_keys sid (LabAnalyte.observations a) h od)
      as [Ht Hk].
    destruct (fold_left (merge_observation sid) (LabAnalyte.observations a) (h, od))
      as [h' od'].
    cbn [fst snd] in *. split; [exact Ht|].
    rewrite skeleton_set. cbn [snd]. rewrite Hk. reflexivity.
  - split; [apply touched_refl | reflexivity].
Qed.

Lemma merge_analytes_skeleton (sid : text) (l : list (LabAnalyte.t ref)) :
  forall h m,
    let st := fold_left (merge_analyte sid) l (h, m) in
    touched sid h (fst st) /\
    skeleton_of (snd st)
    = fold_left skeleton_step (List.map (event_of h) l) (skeleton_of m).
Proof.
  induction l as [|a l IH]; intros h m; cbv zeta; cbn [fold_left List.map].
  - split; [apply touched_refl | reflexivity].
  - destruct (merge_analyte_skeleton sid h m a) as [Ht Hs].
    destruct (merge_analyte sid (h, m) a) as [h1 m1]. cbn [fst snd] in *.
    destruct (IH h1 m1) as [IHt IHs]. split.
    + eapply touched_trans; eassumption.
    + etransitivity; [exact IHs|]. rewrite Hs. f_equal. apply map_ext. intro x.
      apply event_of_same_keys. apply (touched_same_keys sid), Ht.
Qed.

Lemma merge_panels_skeleton (sid : text) (ps : list (LabPanel.t ref)) :
  forall h m,
    let st := fold_left (merge_panel sid) ps (h, m) in
    touched sid h (fst st) /\
    skeleton_of (snd st)
    = fold_left skeleton_step
        (List.map (event_of h) (flat_map (fun p => LabPanel.results p) ps))
        (skeleton_of m).
Proof.
  induction ps as [|p ps IH]; intros h m; cbv zeta; cbn [fold_left flat_map].
  - split; [apply touched_refl | reflexivity].
  - change (merge_panel sid (h, m) p)
      with (fold_left (merge_analyte sid) (LabPanel.results p) (h, m)).
    destruct (merge_analytes_skeleton sid (LabPanel.results p) h m) as [Ht Hs].
    destruct (fold_left (merge_analyte sid) (LabPanel.results p) (h, m)) as [h1 m1].
    cbn [fst snd] in *.
    destruct (IH h1 m1) as [IHt IHs]. split.
    + eapply touched_trans; eassumption.
    + etransitivity; [exact IHs|].
      rewrite Hs, map_app, fold_left_app. f_equal. apply map_ext. intro x.
      apply event_of_same_keys. apply (touched_same_keys sid), Ht.
Qed.

Lemma merge_reports_skeleton (rs : list (LabReport.t ref)) :
  forall h m,
    let st := fold_left merge_report rs (h, m) in
    same_keys h (fst st) /\
    skeleton_of (snd st) = fold_left skeleton_step (events_of h rs) (skeleton_of m).
Proof.
  unfold events_of.
  induction rs as [|r rs IH]; intros h m; cbv zeta; cbn [fold_left flat_map].
  - split; [apply same_keys_refl | reflexivity].
  - change (merge_report (h, m) r)
      with (fold_left (merge_panel (LabReport.source_image_id r))
              (LabReport.panels r) (h, m)).
    destruct (merge_panels_skeleton (LabReport.source_image_id r)
                (LabReport.panels r) h m) as [Ht Hs].
    destruct (fold_left (merge_panel (LabReport.source_image_id r))
                (LabReport.panels r) (h, m)) as [h1 m1].
    cbn [fst snd] in *. apply touched_same_keys in Ht.
    destruct (IH h1 m1) as [IHt IHs]. split.
    + eapply same_keys_trans; eassumption.
    + etransitivity; [exact IHs|].
      rewrite Hs, map_app, fold_left_app. f_equal. apply map_ext. intro x.
      apply event_of_same_keys, Ht.
Qed.
End SkeletonFacts.

(** *** Merging the same reports again changes no key *)

Section KeysAddFacts.
Variable K : Type.
Variable eqb : K -> K -> bool.
Hypothesis eqb_refl : forall a, eqb a a = true.

Local Abbreviation present := (Spec.present eqb).


Lemma keys_add_present (ks : list K) (k : K) : present (keys_add eqb ks k) k = true.
Proof.
  unfold keys_add. fold (present ks k). destruct (present ks k) eqn:E; [exact E|].
  unfold present. rewrite existsb_app. cbn. rewrite eqb_refl. cbn.
  apply orb_true_r.
Qed.

Lemma keys_add_mono (ks : list K) (k k' : K) :
  present ks k' = true -> present (keys_add eqb ks k) k' = true.
Proof.
  unfold keys_add. fold (present ks k). destruct (present ks k); [auto|].
  intro H. unfold present in *. rewrite existsb_app, H. reflexivity.
Qed.

Lemma keys_add_id (ks : list K) (k : K) : present ks k = true -> keys_add eqb ks k = ks.
Proof. unfold keys_add, present. intros ->. reflexivity. Qed.

Lemma fold_keys_add_mono (l ks : list K) (k' : K) :
  present ks k' = true -> present (fold_left (keys_add eqb) l ks) k' = true.
Proof.
  revert ks. induction l as [|k l IH]; intros ks H; cbn; [exact H|].
  apply IH, keys_add_mono, H.
Qed.

Lemma fold_keys_add_present (l ks : list K) (k : K) :
  In k l -> present (fold_left (keys_add eqb) l ks) k = true.
Proof.
  revert ks. induction l as [|k0 l IH]; intros ks; cbn; [contradiction|].
  intros [-> | H].
  - apply fold_keys_add_mono, keys_add_present.
  - apply IH, H.
Qed.

Lemma fold_keys_add_id (l ks : list K) :
  (forall k, In k l -> present ks k = true) -> fold_left (keys_add eqb) l ks = ks.
Proof.
  induction l as [|k l IH]; intro H; cbn; [reflexivity|].
  rewrite keys_add_id by (apply H; left; reflexivity).
  apply IH. intros k' Hk'. apply H. right. exact Hk'.
Qed.
End KeysAddFacts.

Section IdempotenceFacts.
Import Py Objects Merge.

Let sk_get_set :=
  odict_get_set text (list (Date.t * float)) text_eqb text_eqb_sym text_eqb_trans.

Lemma skeleton_step_get (sk : skeleton) (e : event) (K' : text) :
  odict_get text_eqb (skeleton_step sk e) K'
  = if text_eqb (fst e) K'
    then Some (fold_left (keys_add obs_key_eqb) (snd e)
                 (match odict_get text_eqb sk (fst e) with
                  | Some oks => oks
                  | None => []
                  end))
    else odict_get text_eqb sk K'.
Proof.
  unfold skeleton_step. destruct e as [K ks]. cbn [fst snd].
  destruct (odict_get text_eqb sk K) as [oks|] eqn:E.
  - rewrite E. rewrite sk_get_set. reflexivity.
  - rewrite (odict_get_set_same _ _ text_eqb text_eqb_refl text_eqb_sym text_eqb_trans).
    rewrite !sk_get_set. destruct (text_eqb K K'); reflexivity.
Qed.

Lemma skeleton_step_covered (sk : skeleton) (e : event) :
  covered (skeleton_step sk e) e.
Proof.
  unfold covered. rewrite skeleton_step_get, text_eqb_refl.
  eexists. split; [reflexivity|].
  intros k Hk. apply fold_keys_add_present; [apply obs_key_eqb_refl | exact Hk].
Qed.

Lemma skeleton_step_mono (sk : skeleton) (e e' : event) :
  covered sk e' -> covered (skeleton_step sk e) e'.
Proof.
  intros (oks & Hget & Hall). unfold covered. rewrite skeleton_step_get.
  destruct (text_eqb (fst e) (fst e')) eqn:E.
  - apply text_eqb_eq in E. rewrite E, Hget.
    eexists. split; [reflexivity|].
    intros k Hk. apply fold_keys_add_mono, Hall, Hk.
  - exists oks. split; assumption.
Qed.

Lemma skeleton_step_id (sk : skeleton) (e : event) :
  covered sk e -> skeleton_step sk e = sk.
Proof.
  intros (oks & Hget & Hall). unfold skeleton_step. rewrite Hget, Hget.
  rewrite fold_keys_add_id by exact Hall.
  apply odict_set_same, Hget.
Qed.

Lemma skeleton_run_covers (ev : list event) :
  forall sk e, In e ev \/ covered sk e -> covered (fold_left skeleton_step ev sk) e.
Proof.
  induction ev as [|e0 ev IH]; intros sk e H; cbn.
  - destruct H as [[] | H]; exact H.
  - apply IH. destruct H as [[-> | H] | H].
    + right. apply skeleton_step_covered.
    + left. exact H.
    + right. apply skeleton_step_mono, H.
Qed.

Lemma skeleton_run_id (ev : list event) (sk : skeleton) :
  (forall e, In e ev -> covered sk e) -> fold_left skeleton_step ev sk = sk.
Proof.
  induction ev as [|e0 ev IH]; intro H; cbn; [reflexivity|].
  rewrite skeleton_step_id by (apply H; left; reflexivity).
  apply IH. intros e He. apply H. right. exact He.
Qed.

Lemma skeleton_run_twice (ev : list event) (sk : skeleton) :
  fold_left skeleton_step (ev ++ ev) sk = fold_left skeleton_step ev sk.
Proof.
  rewrite fold_left_app. apply skeleton_run_id.
  intros e He. apply skeleton_run_covers. left. exact He.
Qed.

Lemma total_observations_assemble (h : store) (m : merged_dict) :
  total_observations (assemble h m) = skeleton_size (skeleton_of m).
Proof.
  unfold total_observations, skeleton_size, assemble, skeleton_of.
  induction m as [|[k [t od]] m IH]; cbn [List.map fold_right fst snd];
    [reflexivity|].
  rewrite IH. f_equal. cbn. unfold sorted_refs, odict_values.
  rewrite sorted_length, !length_map. reflexivity.
Qed.

Lemma events_of_app (h : store) (rs rs' : list (LabReport.t ref)) :
  events_of h (rs ++ rs') = events_of h rs ++ events_of h rs'.
Proof. unfold events_of. rewrite flat_map_app, map_app. reflexivity. Qed.

Lemma merge_reports_eq (h : store) (rs : list (LabReport.t ref)) :
  merge_reports h rs
  = (fst (fold_left merge_report rs (h, [])),
     assemble (fst (fold_left merge_report rs (h, [])))
       (snd (fold_left merge_report rs (h, [])))).
Proof.
  unfold merge_reports. destruct (fold_left merge_report rs (h, [])). reflexivity.
Qed.

(** The number of merged observations depends on the keys alone. *)
Lemma total_observations_merge (h : store) (rs : list (LabReport.t ref)) :
  total_observations (snd (merge_reports h rs))
  = skeleton_size (fold_left skeleton_step (events_of h rs) []).
Proof.
  rewrite merge_reports_eq. cbn [snd].
  rewrite total_observations_assemble. f_equal.
  exact (proj2 (merge_reports_skeleton rs h [])).
Qed.

Lemma merge_reports_same_keys (h : store) (rs : list (LabReport.t ref)) :
  same_keys h (fst (merge_reports h rs)).
Proof.
  rewrite merge_reports_eq. cbn [fst].
  exact (proj1 (merge_reports_skeleton rs h [])).
Qed.
End IdempotenceFacts.

(** C5: for every list of reports [rs] (and every content of the object
    store), [merge_reports(rs + rs)] yields the same total observation count,
    summed over all merged analytes, as [merge_reports(rs)]; this also holds
    when the second call runs on the objects as the first call left them. *)
Theorem C5_merge_idempotent_count (h : Objects.store) (rs : list (LabReport.t Objects.ref)) :
  Merge.total_observations (snd (Merge.merge_reports h (rs ++ rs)))
  = Merge.total_observations (snd (Merge.merge_reports h rs)) /\
  Merge.total_observations
    (snd (Merge.merge_reports (fst (Merge.merge_reports h rs)) (rs ++ rs)))
  = Merge.total_observations (snd (Merge.merge_reports h rs)).
Proof.
  rewrite !total_observations_merge.
  rewrite (events_of_same_keys h _ (rs ++ rs) (merge_reports_same_keys h rs)).
  rewrite events_of_app, skeleton_run_twice. split; reflexivity.
Qed.

(** *** The last report to present a key tags the object kept under it *)

Section LastWriterFacts.
Import Py Objects Merge.

Let okey := (Date.t * float)%type.

Lemma okey_get_set (d : obs_dict) (k k' : okey) (v : ref) :
  odict_get obs_key_eqb (odict_set obs_key_eqb d k v) k'
  = if obs_key_eqb k k' then Some v else odict_get obs_key_eqb d k'.
Proof. apply odict_get_set; [apply obs_key_eqb_sym | apply obs_key_eqb_trans]. Qed.

Lemma text_get_set (V : Type) (d : list (text * V)) (k k' : text) (v : V) :
  odict_get text_eqb (odict_set text_eqb d k v) k'
  = if text_eqb k k' then Some v else odict_get text_eqb d k'.
Proof. apply odict_get_set; [apply text_eqb_sym | apply text_eqb_trans]. Qed.

Lemma okey_get_cong (d : obs_dict) (k k' : okey) :
  obs_key_eqb k k' = true ->
  odict_get obs_key_eqb d k = odict_get obs_key_eqb d k'.
Proof.
  intro H. induction d as [|[k0 v0] d IH]; cbn; [reflexivity|].
  rewrite (obs_key_eqb_sym k0 k), (obs_key_eqb_sym k0 k').
  rewrite (eqb_cong _ obs_key_eqb obs_key_eqb_sym obs_key_eqb_trans k k' k0 H).
  rewrite IH. reflexivity.
Qed.

Lemma od_ok_same_keys (h h' : store) (od : obs_dict) :
  same_keys h h' -> od_ok h od -> od_ok h' od.
Proof.
  intros Hk [Hwf Hall]. split; [exact Hwf|].
  eapply Forall_impl; [|exact Hall]. intros [k l] H. cbn in *.
  rewrite Hk. exact H.
Qed.

Lemma entry_ok_same_keys (h h' : store) (e : text * (LabAnalyte.t ref * obs_dict)) :
  same_keys h h' -> entry_ok h e -> entry_ok h' e.
Proof.
  intros Hk (HK & Hod). split; [exact HK|].
  apply (od_ok_same_keys h h' _ Hk Hod).
Qed.

Lemma merge_observations_ok (sid : text) (os : list ref) :
  forall h od,
    od_ok h od ->
    od_ok (fst (fold_left (merge_observation sid) os (h, od)))
          (snd (fold_left (merge_observation sid) os (h, od))).
Proof.
  induction os as [|o os IH]; intros h od Hok; cbn [fold_left]; [exact Hok|].
  rewrite merge_observation_eq. apply IH.
  pose proof (touched_same_keys sid _ _ (store_set_touched sid h o)) as Hk.
  destruct (od_ok_same_keys _ _ _ Hk Hok) as [Hwf Hall].
  split.
  - apply odict_wf_set; [apply obs_key_eqb_sym | apply obs_key_eqb_trans | exact Hwf].
  - apply Forall_odict_set; [apply obs_key_eqb_refl | | exact Hall].
    intros k0 H0. cbn [fst snd]. rewrite Hk. exact H0.
Qed.

Lemma merge_observations_recorded (sid : text) (os : list ref) :
  forall h od,
    (forall o, In o os ->
       od_recorded sid (fst (fold_left (merge_observation sid) os (h, od)))
         (snd (fold_left (merge_observation sid) os (h, od))) (_obs_key (h o))) /\
    (forall k, od_recorded sid h od k ->
       od_recorded sid (fst (fold_left (merge_observation sid) os (h, od)))
         (snd (fold_left (merge_observation sid) os (h, od))) k).
Proof.
  induction os as [|o os IH]; intros h od; cbn [fold_left].
  - split; [intros o [] | auto].
  - rewrite merge_observation_eq.
    pose proof (store_set_touched sid h o) as Ht.
    set (h1 := store_set h o _) in *.
    set (od1 := odict_set obs_key_eqb od (_obs_key (h o)) o).
    destruct (IH h1 od1) as [IHr IHs].
    assert (Hnew : od_recorded sid h1 od1 (_obs_key (h o))).
    { exists o. split.
      - subst od1. rewrite okey_get_set, obs_key_eqb_refl. reflexivity.
      - subst h1. unfold store_set. rewrite Nat.eqb_refl. reflexivity. }
    assert (Hold : forall k, od_recorded sid h od k -> od_recorded sid h1 od1 k).
    { intros k (l & Hl & Hs). subst od1. unfold od_recorded.
      rewrite okey_get_set. destruct (obs_key_eqb (_obs_key (h o)) k).
      - exists o. split; [reflexivity|].
        subst h1. unfold store_set. rewrite Nat.eqb_refl. reflexivity.
      - exists l. split; [exact Hl|]. apply (touched_keeps_tag sid h h1 l Ht Hs). }
    split.
    + intros o' [<- | Ho'].
      * apply IHs, Hnew.
      * rewrite <- (touched_same_keys sid h h1 Ht o'). apply IHr, Ho'.
    + intros k Hk. apply IHs, Hold, Hk.
Qed.


Lemma with_key_present (m : merged_dict) (a : LabAnalyte.t ref) :
  exists t od, odict_get text_eqb (with_key m a) (_merge_key a) = Some (t, od).
Proof.
  unfold with_key. destruct (odict_get text_eqb m (_merge_key a)) as [[t od]|] eqn:E.
  - eauto.
  - rewrite text_get_set, text_eqb_refl. eauto.
Qed.

Lemma with_key_get (m : merged_dict) (a : LabAnalyte.t ref) (K : text)
    (v : LabAnalyte.t ref * obs_dict) :
  odict_get text_eqb m K = Some v -> odict_get text_eqb (with_key m a) K = Some v.
Proof.
  unfold with_key. intro H.
  destruct (odict_get text_eqb m (_merge_key a)) eqn:E; [exact H|].
  rewrite text_get_set. destruct (text_eqb (_merge_key a) K) eqn:EK; [|exact H].
  apply text_eqb_eq in EK. congruence.
Qed.

Lemma with_key_ok (h : store) (m : merged_dict) (a : LabAnalyte.t ref) :
  state_ok h m -> state_ok h (with_key m a).
Proof.
  unfold with_key. intros [Hwf Hall].
  destruct (odict_get text_eqb m (_merge_key a)); [split; assumption|].
  split.
  - apply odict_wf_set; [apply text_eqb_sym | apply text_eqb_trans | exact Hwf].
  - apply Forall_odict_set; [apply text_eqb_refl | | exact Hall].
    intros k0 H0. apply text_eqb_eq in H0. subst k0.
    split; [reflexivity|]. split; [exact I | constructor].
Qed.

Lemma state_ok_get (h : store) (m : merged_dict) (K : text)
    (t : LabAnalyte.t ref) (od : obs_dict) :
  state_ok h m -> odict_get text_eqb m K = Some (t, od) ->
  _merge_key t = K /\ od_ok h od.
Proof.
  intros [_ Hall] Hget.
  destruct (odict_get_in _ _ text_eqb m K (t, od) Hget) as (k0 & Hin & Hk0).
  apply text_eqb_eq in Hk0. subst k0.
  rewrite Forall_forall in Hall. exact (Hall _ Hin).
Qed.

Lemma merge_analyte_eq (sid : text) (h : store) (m : merged_dict)
    (a : LabAnalyte.t ref) (t : LabAnalyte.t ref) (od : obs_dict) :
  odict_get text_eqb (with_key m a) (_merge_key a) = Some (t, od) ->
  merge_analyte sid (h, m) a
  = (fst (fold_left (merge_observation sid) (LabAnalyte.observations a) (h, od)),
     odict_set text_eqb (with_key m a) (_merge_key a)
       (t, snd (fold_left (merge_observation sid) (LabAnalyte.observations a) (h, od)))).
Proof.
  intro H. unfold merge_analyte. fold (with_key m a). rewrite H.
  destruct (fold_left (merge_observation sid) (LabAnalyte.observations a) (h, od)).
  reflexivity.
Qed.

Lemma merge_analyte_ok (sid : text) (h : store) (m : merged_dict)
    (a : LabAnalyte.t ref) :
  state_ok h m ->
  state_ok (fst (merge_analyte sid (h, m) a)) (snd (merge_analyte sid (h, m) a)).
Proof.
  intro Hok. destruct (with_key_present m a) as (t & od & Hget).
  rewrite (merge_analyte_eq sid h m a t od Hget). cbn [fst snd].
  pose proof (with_key_ok h m a Hok) as Hok1.
  destruct (state_ok_get h _ _ t od Hok1 Hget) as [HK Hod].
  pose proof (merge_observations_ok sid (LabAnalyte.observations a) h od Hod) as Hod'.
  pose proof (proj1 (merge_observations_keys sid (LabAnalyte.observations a) h od)) as Ht.
  cbv zeta in Ht. apply touched_same_keys in Ht.
  destruct Hok1 as [Hwf Hall]. split.
  - apply odict_wf_set; [apply text_eqb_sym | apply text_eqb_trans | exact Hwf].
  - apply Forall_odict_set; [apply text_eqb_refl | |].
    + intros k0 H0. apply text_eqb_eq in H0. subst k0.
      split; [exact HK | exact Hod'].
    + eapply Forall_impl; [|exact Hall]. intro e. apply entry_ok_same_keys, Ht.
Qed.

Lemma merge_analyte_recorded (sid : text) (h : store) (m : merged_dict)
    (a : LabAnalyte.t ref) :
  (forall o, In o (LabAnalyte.observations a) ->
     recorded sid (fst (merge_analyte sid (h, m) a)) (snd (merge_analyte sid (h, m) a))
       (_merge_key a) (_obs_key (h o))) /\
  (forall K k, recorded sid h m K k ->
     recorded sid (fst (merge_analyte sid (h, m) a)) (snd (merge_analyte sid (h, m) a))
       K k).
Proof.
  destruct (with_key_present m a) as (t & od & Hget).
  rewrite (merge_analyte_eq sid h m a t od Hget). cbn [fst snd].
  destruct (merge_observations_recorded sid (LabAnalyte.observations a) h od)
    as [Hr Hs].
  pose proof (proj1 (merge_observations_keys sid (LabAnalyte.observations a) h od)) as Ht.
  cbv zeta in Ht.
  split.
  - intros o Ho. destruct (Hr o Ho) as (l & Hl & Hsrc).
    exists t, (snd (fold_left (merge_observation sid) (LabAnalyte.observations a) (h, od))), l.
    rewrite text_get_set, text_eqb_refl. auto.
  - intros K k (t' & od' & l & HgetK & Hl & Hsrc).
    apply (with_key_get m a) in HgetK. unfold recorded.
    rewrite text_get_set. destruct (text_eqb (_merge_key a) K) eqn:EK.
    + apply text_eqb_eq in EK. subst K.
      rewrite Hget in HgetK. injection HgetK as <- <-.
      destruct (Hs k (ex_intro _ l (conj Hl Hsrc))) as (l' & Hl' & Hsrc').
      eauto 6.
    + exists t', od', l. repeat split; auto.
      apply (touched_keeps_tag sid h _ l Ht Hsrc).
Qed.
End LastWriterFacts.

Section LastWriterFolds.
Import Py Objects Merge.

Lemma merge_analytes_ok (sid : text) (l : list (LabAnalyte.t ref)) :
  forall h m,
    state_ok h m ->
    state_ok (fst (fold_left (merge_analyte sid) l (h, m)))
             (snd (fold_left (merge_analyte sid) l (h, m))).
Proof.
  induction l as [|a l IH]; intros h m Hok; cbn [fold_left]; [exact Hok|].
  pose proof (merge_analyte_ok sid h m a Hok) as H1.
  destruct (merge_analyte sid (h, m) a) as [h1 m1]. apply IH, H1.
Qed.

Lemma merge_report_ok (h : store) (m : merged_dict) (r : LabReport.t ref) :
  state_ok h m ->
  state_ok (fst (merge_report (h, m) r)) (snd (merge_report (h, m) r)).
Proof.
  unfold merge_report. generalize (LabReport.source_image_id r) as sid. intro sid.
  revert h m. induction (LabReport.panels r) as [|p ps IH]; intros h m Hok;
    cbn [fold_left]; [exact Hok|].
  change (merge_panel sid (h, m) p)
    with (fold_left (merge_analyte sid) (LabPanel.results p) (h, m)).
  pose proof (merge_analytes_ok sid (LabPanel.results p) h m Hok) as H1.
  destruct (fold_left (merge_analyte sid) (LabPanel.results p) (h, m)) as [h1 m1].
  apply IH, H1.
Qed.

Lemma merge_analytes_recorded (sid : text) (l : list (LabAnalyte.t ref)) :
  forall h m,
    (forall a o, In a l -> In o (LabAnalyte.observations a) ->
       recorded sid (fst (fold_left (merge_analyte sid) l (h, m)))
         (snd (fold_left (merge_analyte sid) l (h, m)))
         (_merge_key a) (_obs_key (h o))) /\
    (forall K k, recorded sid h m K k ->
       recorded sid (fst (fold_left (merge_analyte sid) l (h, m)))
         (snd (fold_left (merge_analyte sid) l (h, m))) K k).
Proof.
  induction l as [|a l IH]; intros h m; cbn [fold_left].
  - split; [intros a o [] | auto].
  - destruct (merge_analyte_recorded sid h m a) as [Hr Hs].
    pose proof (proj1 (merge_analyte_skeleton sid h m a)) as Ht. cbv zeta in Ht.
    apply touched_same_keys in Ht.
    destruct (merge_analyte sid (h, m) a) as [h1 m1]. cbn [fst snd] in *.
    destruct (IH h1 m1) as [IHr IHs]. split.
    + intros a' o [<- | Ha'] Ho.
      * apply IHs, Hr, Ho.
      * rewrite <- (Ht o). apply IHr; assumption.
    + intros K k H. apply IHs, Hs, H.
Qed.

Lemma merge_report_recorded (h : store) (m : merged_dict) (r : LabReport.t ref) :
  (forall a o, In a (analytes_of r) -> In o (LabAnalyte.observations a) ->
     recorded (LabReport.source_image_id r)
       (fst (merge_report (h, m) r)) (snd (merge_report (h, m) r))
       (_merge_key a) (_obs_key (h o))) /\
  (forall K k, recorded (LabReport.source_image_id r) h m K k ->
     recorded (LabReport.source_image_id r)
       (fst (merge_report (h, m) r)) (snd (merge_report (h, m) r)) K k).
Proof.
  unfold merge_report, analytes_of.
  generalize (LabReport.source_image_id r) as sid. intro sid.
  revert h m. induction (LabReport.panels r) as [|p ps IH]; intros h m;
    cbn [fold_left flat_map].
  - split; [intros a o [] | auto].
  - change (merge_panel sid (h, m) p)
      with (fold_left (merge_analyte sid) (LabPanel.results p) (h, m)).
    destruct (merge_analytes_recorded sid (LabPanel.results p) h m) as [Hr Hs].
    pose proof (proj1 (merge_analytes_skeleton sid (LabPanel.results p) h m)) as Ht.
    cbv zeta in Ht. apply touched_same_keys in Ht.
    destruct (fold_left (merge_analyte sid) (LabPanel.results p) (h, m)) as [h1 m1].
    cbn [fst snd] in *.
    destruct (IH h1 m1) as [IHr IHs]. split.
    + intros a o Ha Ho. apply in_app_or in Ha. destruct Ha as [Ha | Ha].
      * apply IHs, Hr; assumption.
      * rewrite <- (Ht o). apply IHr; assumption.
    + intros K k H. apply IHs, Hs, H.
Qed.

Lemma filter_map_ext (A B : Type) (f : A -> B) (p : B -> bool) (q : A -> bool)
    (l : list A) :
  Forall (fun x => p (f x) = q x) l ->
  filter p (List.map f l) = List.map f (filter q l).
Proof.
  induction 1 as [|x l Hx Hl IH]; cbn; [reflexivity|].
  rewrite Hx, IH. destruct (q x); reflexivity.
Qed.

(** The merged analyte under a key is the one assembled from its entry. *)
Lemma assemble_filter (h : store) (m : merged_dict) (K : text)
    (t : LabAnalyte.t ref) (od : obs_dict) :
  state_ok h m -> odict_get text_eqb m K = Some (t, od) ->
  filter (fun x => text_eqb (_merge_key x) K) (assemble h m)
  = [LabAnalyte.with_observations (sorted_refs h od) t].
Proof.
  intros [Hwf Hall] Hget. unfold assemble.
  rewrite (filter_map_ext _ _ _ _ (fun e => text_eqb (fst e) K)).
  - destruct (odict_filter_get _ _ text_eqb text_eqb_sym text_eqb_trans m K (t, od) Hwf Hget)
      as [k0 ->].
    reflexivity.
  - eapply Forall_impl; [|exact Hall].
    intros [k0 [t0 od0]] (HK & _). cbn in *. rewrite <- HK. reflexivity.
Qed.

(** The observations under a key are the one object the dictionary holds. *)
Lemma sorted_refs_filter (h : store) (od : obs_dict) (k : Date.t * float) (l : ref) :
  od_ok h od -> odict_get obs_key_eqb od k = Some l ->
  filter (fun r => obs_key_eqb (_obs_key (h r)) k) (sorted_refs h od) = [l].
Proof.
  intros [Hwf Hall] Hget. unfold sorted_refs, odict_values.
  rewrite sorted_stable.
  - rewrite (filter_map_ext _ _ _ _ (fun e => obs_key_eqb (fst e) k)).
    + destruct (odict_filter_get _ _ obs_key_eqb obs_key_eqb_sym obs_key_eqb_trans
                  od k l Hwf Hget) as [k0 ->].
      reflexivity.
    + eapply Forall_impl; [|exact Hall]. intros [k0 l0] H0. cbn in *.
      symmetry. apply (eqb_cong _ obs_key_eqb obs_key_eqb_sym obs_key_eqb_trans).
      exact H0.
  - intros x y Hx Hy. apply Date_leb_of_eqb.
    apply obs_key_eqb_iff in Hx, Hy. cbn in Hx, Hy.
    apply Date_eqb_eq. destruct Hx as [-> _], Hy as [-> _]. reflexivity.
Qed.
(** The second of two reports decides the tag. *)
Lemma last_report_tags (h0 : store) (st1 : store * merged_dict)
    (r2 : LabReport.t ref) (K : text) (a2 : LabAnalyte.t ref) (o2 : ref)
    (k : Date.t * float) :
  state_ok (fst st1) (snd st1) ->
  same_keys h0 (fst st1) ->
  In a2 (analytes_of r2) -> K = _merge_key a2 ->
  In o2 (LabAnalyte.observations a2) ->
  obs_key_eqb k (_obs_key (h0 o2)) = true ->
  exists m l,
    filter (fun x => text_eqb (_merge_key x) K)
      (assemble (fst (merge_report st1 r2)) (snd (merge_report st1 r2))) = [m] /\
    filter (fun r => obs_key_eqb (_obs_key (fst (merge_report st1 r2) r)) k)
      (LabAnalyte.observations m) = [l] /\
    Observation.source_image_id (fst (merge_report st1 r2) l)
    = LabReport.source_image_id r2.
Proof.
  destruct st1 as [h1 m1]. cbn [fst snd]. intros Hok1 Hk1 Ha2 -> Ho2 Hk.
  pose proof (merge_report_ok h1 m1 r2 Hok1) as Hok2.
  pose proof (proj1 (merge_report_recorded h1 m1 r2) a2 o2 Ha2 Ho2) as Hrec.
  destruct (merge_report (h1, m1) r2) as [h2 m2]. cbn [fst snd] in *.
  destruct Hrec as (t & od & l & Hget & Hl & Hsrc).
  destruct (state_ok_get h2 m2 _ t od Hok2 Hget) as [_ Hod].
  exists (LabAnalyte.with_observations (sorted_refs h2 od) t), l.
  split; [apply assemble_filter; assumption|].
  split; [|exact Hsrc].
  cbn. apply sorted_refs_filter; [exact Hod|].
  rewrite Hk1 in Hl.
  rewrite (okey_get_cong od _ _ Hk). exact Hl.
Qed.
End LastWriterFolds.

(** C4: when two reports each contain an analyte with the same composite
    merge key, and each of the two analytes has an observation with the same
    (date, value), then [merge_reports] of the two reports returns exactly
    one merged analyte under that merge key, its timeline holds exactly one
    observation with that (date, value), and the [source_image_id] of that
    observation is the one of the report that comes later in the input. *)
Theorem C4_merge_last_report_wins
    (h : Objects.store) (r1 r2 : LabReport.t Objects.ref)
    (a1 a2 : LabAnalyte.t Objects.ref) (o1 o2 : Objects.ref) :
  In a1 (analytes_of r1) -> In a2 (analytes_of r2) ->
  Merge._merge_key a1 = Merge._merge_key a2 ->
  In o1 (LabAnalyte.observations a1) -> In o2 (LabAnalyte.observations a2) ->
  Merge.obs_key_eqb (Merge._obs_key (h o1)) (Merge._obs_key (h o2)) = true ->
  let res := Merge.merge_reports h [r1; r2] in
  exists m l,
    filter (fun x => Py.text_eqb (Merge._merge_key x) (Merge._merge_key a1)) (snd res)
    = [m] /\
    filter
      (fun r => Merge.obs_key_eqb (Merge._obs_key (fst res r)) (Merge._obs_key (h o1)))
      (LabAnalyte.observations m)
    = [l] /\
    Observation.source_image_id (fst res l) = LabReport.source_image_id r2.
Proof.
  intros Ha1 Ha2 HK Ho1 Ho2 Hk res. subst res.
  rewrite merge_reports_eq. cbn [fold_left fst snd].
  apply (last_report_tags h (Merge.merge_report (h, []) r1) r2 _ a2 o2); auto.
  - apply merge_report_ok. split; [exact I | constructor].
  - exact (proj1 (merge_reports_skeleton [r1] h [])).
Qed.

Lemma C4_merge_last_report_wins_witness :
  exists m l,
    filter (fun x => Py.text_eqb (Merge._merge_key x) (Merge._merge_key (sodium [0%nat])))
      (snd (Merge.merge_reports (store_of_list [plain_obs 1 140; plain_obs 1 140])
              [_make_report "img1" [sodium [0%nat]];
               _make_report "img2" [sodium [1%nat]]]))
    = [m] /\
    filter
      (fun r =>
         Merge.obs_key_eqb
           (Merge._obs_key
              (fst (Merge.merge_reports (store_of_list [plain_obs 1 140; plain_obs 1 140])
                      [_make_report "img1" [sodium [0%nat]];
                       _make_report "img2" [sodium [1%nat]]]) r))
           (Merge._obs_key (store_of_list [plain_obs 1 140; plain_obs 1 140] 0%nat)))
      (LabAnalyte.observations m)
    = [l] /\
    Observation.source_image_id
      (fst (Merge.merge_reports (store_of_list [plain_obs 1 140; plain_obs 1 140])
              [_make_report "img1" [sodium [0%nat]];
               _make_report "img2" [sodium [1%nat]]]) l)
    = Py.str "img2".
Proof.
  apply (C4_merge_last_report_wins (store_of_list [plain_obs 1 140; plain_obs 1 140])
           (_make_report "img1" [sodium [0%nat]]) (_make_report "img2" [sodium [1%nat]])
           (sodium [0%nat]) (sodium [1%nat]) 0%nat 1%nat).
  - left. reflexivity.
  - left. reflexivity.
  - reflexivity.
  - left. reflexivity.
  - left. reflexivity.
  - reflexivity.
Defined.

(** ** Post-processor *)

Section PostprocessFacts.
Context {U : Py.UnicodeDB}.
Import Py Objects Postprocess.

Example normalize_key_sodium :
  _normalize_analyte_key (str "Sodium") = str "sodium" /\
  _normalize_analyte_key (str " Na+ ") = str "sodium" /\
  _normalize_analyte_key (str "Sod.") = str "sodium" /\
  _normalize_analyte_key (str "K") = str "potassium".
Proof. repeat split; reflexivity. Qed.

Example normalize_key_fallback :
  _normalize_analyte_key (str "Anion  Gap (calc)") = str "anion_gap_calc" /\
  _normalize_analyte_key (str "T. Bilirubin.") = str "total_bilirubin".
Proof. split; reflexivity. Qed.

Example make_display_name_wbc :
  _make_display_name (str "white_blood_cells") = str "White Blood Cells".
Proof. reflexivity. Qed.





Lemma smoke_sodium_postprocessed :
  key_and_range_after (_normalize_analyte smoke_store smoke_sodium)
  = Some (str "sodium", Some 136, Some 145) /\
  flag_after (_normalize_analyte smoke_store smoke_sodium) = Some Flag_critical_high.
Proof. split; vm_compute; reflexivity. Qed.
End PostprocessFacts.

(** C1, as the specification states it, fails: for Sodium = 148 against
    136-145 the flag computed with analyte key [sodium] is not [high]. *)
Lemma C1_sodium_148_not_high :
  Flags.compute_flag 148 (ReferenceRange.mk (Some 136) (Some 145) (Py.str "136 - 145"))
    (Py.str "sodium") = Flag_critical_high /\
  Flags.compute_flag 148 (ReferenceRange.mk (Some 136) (Some 145) (Py.str "136 - 145"))
    (Py.str "sodium") <> Flag_high.
Proof. split; [reflexivity | vm_compute; discriminate]. Qed.

(** C1 (amended): the override table holds the multiplier 0.10 for [sodium],
    so the critical threshold is 145 + 9 * 0.10 = 145.9 and Sodium = 148
    against 136-145 is flagged [critical_high], whatever the raw text of the
    range; post-processing the sodium analyte of the smoke test (raw range
    "136 - 145", key [sodium]) stores that flag in its observation.  The
    default multiplier 0.50 (threshold 149.5, flag [high]) applies only to an
    analyte key that the table does not hold, such as the empty key. *)
Theorem C1_sodium_148_critical_high (U : Py.UnicodeDB) :
  multiplier_of (Py.str "sodium") = 10 # 100 /\
  145 + (145 - 136) * multiplier_of (Py.str "sodium") == 1459 # 10 /\
  (forall raw,
     Flags.compute_flag 148 (ReferenceRange.mk (Some 136) (Some 145) raw)
       (Py.str "sodium") = Flag_critical_high) /\
  flag_after (Postprocess._normalize_analyte smoke_store smoke_sodium)
  = Some Flag_critical_high /\
  multiplier_of [] = 50 # 100 /\
  145 + (145 - 136) * multiplier_of [] == 1495 # 10 /\
  (forall raw,
     Flags.compute_flag 148 (ReferenceRange.mk (Some 136) (Some 145) raw) []
     = Flag_high).
Proof.
  split; [reflexivity|]. split; [reflexivity|].
  split; [intro raw; reflexivity|].
  split; [apply smoke_sodium_postprocessed|].
  repeat split; reflexivity.
Qed.

(** ** Image-batch validation *)

Section ImageFacts.
Context {host : ImageIO.Host}.
Import Py ImageIO.

Example sniff_jpeg_header :
  _sniff_mime ([255; 216; 255; 224]%N ++ repeat 0%N 100) = Some (str "image/jpeg").
Proof. reflexivity. Qed.

Example sniff_riff_that_is_not_webp :
  _sniff_mime (str "RIFF....WAVEfmt ") = None /\
  _sniff_mime (str "RIFF....WEBPVP8 ") = Some (str "image/webp").
Proof. split; reflexivity. Qed.

Lemma load_images_too_many (paths : list text) (max_images : Z) (max_mb : float) :
  (max_images < Z.of_nat (List.length paths))%Z ->
  load_images paths max_images max_mb
  = Raise (Too_many_images (List.length paths) max_images).
Proof.
  intro H. unfold load_images.
  assert (E : Z.gtb (Z.of_nat (List.length paths)) max_images = true).
  { rewrite Z.gtb_ltb. apply Z.ltb_lt. exact H. }
  rewrite E. reflexivity.
Qed.

Lemma load_images_empty (max_images : Z) (max_mb : float) :
  load_images [] max_images max_mb
  = if Z.ltb max_images 0
    then Raise (Too_many_images 0 max_images)
    else Raise No_images_provided.
Proof.
  unfold load_images. cbn [List.length Z.of_nat]. rewrite Z.gtb_ltb.
  destruct (Z.ltb max_images 0); reflexivity.
Qed.
End ImageFacts.

(** C10: [load_images] raises [ImageValidationError] on an empty list of
    paths and on a list of more than [max_images] paths; since it is the
    first step of [run_full_pipeline] and of [run_extract_only], both end in
    that validation error on an empty batch instead of returning an (empty)
    analysis, whatever the providers would do. *)
Theorem C10_empty_or_oversized_batch_rejected
    (U : Py.UnicodeDB) (host : ImageIO.Host) (providers : Orchestrator.Providers) :
  (forall max_images max_mb,
     exists e : ImageIO.ImageValidationError,
       ImageIO.load_images [] max_images max_mb = Py.Raise e) /\
  (forall max_images max_mb,
     (0 <= max_images)%Z ->
     ImageIO.load_images [] max_images max_mb = Py.Raise ImageIO.No_images_provided) /\
  (forall paths max_images max_mb,
     (max_images < Z.of_nat (List.length paths))%Z ->
     ImageIO.load_images paths max_images max_mb
     = Py.Raise (ImageIO.Too_many_images (List.length paths) max_images)) /\
  (forall h s enable_summary,
     exists e : ImageIO.ImageValidationError,
       Orchestrator.run_full_pipeline h [] s enable_summary
       = Py.Raise (Orchestrator.Validation e)) /\
  (forall h s,
     exists e : ImageIO.ImageValidationError,
       Orchestrator.run_extract_only h [] s = Py.Raise (Orchestrator.Validation e)).
Proof.
  assert (Hempty : forall max_images max_mb,
            exists e : ImageIO.ImageValidationError,
              ImageIO.load_images [] max_images max_mb = Py.Raise e).
  { intros. rewrite load_images_empty. destruct (Z.ltb max_images 0); eauto. }
  split; [exact Hempty|]. split; [|split; [|split]].
  - intros max_images max_mb H. rewrite load_images_empty.
    apply Z.ltb_ge in H. rewrite H. reflexivity.
  - intros. apply load_images_too_many. assumption.
  - intros h s es. unfold Orchestrator.run_full_pipeline.
    destruct (Hempty (Orchestrator.max_images s) (Orchestrator.max_image_mb s))
      as [e ->].
    exists e. reflexivity.
  - intros h s. unfold Orchestrator.run_extract_only.
    destruct (Hempty (Orchestrator.max_images s) (Orchestrator.max_image_mb s))
      as [e ->].
    exists e. reflexivity.
Qed.

Lemma C10_empty_or_oversized_batch_rejected_witness :
  ImageIO.load_images (host := no_files) [] 10 12
  = Py.Raise ImageIO.No_images_provided /\
  ImageIO.load_images (host := no_files) (repeat (Py.str "lab.jpg") 11) 10 12
  = Py.Raise (ImageIO.Too_many_images 11 10).
Proof.
  destruct (C10_empty_or_oversized_batch_rejected Py.ascii_only no_files no_providers)
    as (_ & Hnone & Hmany & _).
  split.
  - apply Hnone. discriminate.
  - apply (Hmany (repeat (Py.str "lab.jpg") 11) 10%Z 12). reflexivity.
Defined.
From Stdlib Require Import Lqa.

(** * Further properties of the code *)

(** ** Flag engine: thresholds and sides *)

Section FlagThresholds.
Import Py Flags.

Lemma float_or_eq (lo d : Q) : lo == 0 -> d == 0 -> float_or (Some lo) d == lo.
Proof.
  intros Hlo Hd. cbn. destruct (feq lo 0); [rewrite Hd, Hlo|]; reflexivity.
Qed.



Lemma fgt_compat (a b a' b' : Q) : a == a' -> b == b' -> fgt a b = fgt a' b'.
Proof.
  intros Ha Hb. destruct (fgt a' b') eqn:E.
  - apply fgt_iff. apply fgt_iff in E. rewrite Ha, Hb. exact E.
  - apply flt_false_iff. apply flt_false_iff in E. rewrite Ha, Hb. exact E.
Qed.

Lemma flt_compat (a b a' b' : Q) : a == a' -> b == b' -> flt a b = flt a' b'.
Proof. intros Ha Hb. apply fgt_compat; assumption. Qed.

End FlagThresholds.





(** X3: when the analyte's critical multiplier is zero (the troponins), the
    critical threshold coincides with the bound, so [compute_flag] never
    answers [high] or [low]: every abnormal value is critical. *)
Theorem X3_zero_multiplier_always_critical (v : Q) (ref : ReferenceRange.t)
  (key : Py.text) :
  multiplier_of key == 0 ->
  Flags.compute_flag v ref key <> Flag_high /\
  Flags.compute_flag v ref key <> Flag_low.
Proof.
  intros Hm. unfold Flags.compute_flag.
  change (Py.dict_get_default Constants.CRITICAL_MULTIPLIER_OVERRIDES key
            Constants.DEFAULT_CRITICAL_MULTIPLIER) with (multiplier_of key).
  destruct (negb (ReferenceRange.is_bounded ref)); [split; discriminate|].
  cbv zeta.
  assert (Hhi : forall hi span,
             Py.fgt v (if Py.fgt span 0 then hi + span * multiplier_of key else hi)
             = Py.fgt v hi).
  { intros hi span. apply fgt_compat; [reflexivity|].
    destruct (Py.fgt span 0); [rewrite Hm; ring | reflexivity]. }
  assert (Hlo : forall lo span,
             Py.flt v (if Py.fgt span 0 then lo - span * multiplier_of key else lo)
             = Py.flt v lo).
  { intros lo span. apply flt_compat; [reflexivity|].
    destruct (Py.fgt span 0); [rewrite Hm; ring | reflexivity]. }
  assert (L : forall lo,
             (if Py.flt v lo
              then if Py.flt v (if Py.fgt (Py.float_or (ReferenceRange.high ref) lo - lo) 0
                                then lo - (Py.float_or (ReferenceRange.high ref) lo - lo)
                                          * multiplier_of key
                                else lo)
                   then Flag_critical_low else Flag_low
              else Flag_normal) <> Flag_high /\
             (if Py.flt v lo
              then if Py.flt v (if Py.fgt (Py.float_or (ReferenceRange.high ref) lo - lo) 0
                                then lo - (Py.float_or (ReferenceRange.high ref) lo - lo)
                                          * multiplier_of key
                                else lo)
                   then Flag_critical_low else Flag_low
              else Flag_normal) <> Flag_low).
  { intros lo. rewrite Hlo. destruct (Py.flt v lo); split; discriminate. }
  destruct (ReferenceRange.high ref) as [hi|].
  - destruct (Py.fgt v hi) eqn:E.
    + rewrite Hhi, E. split; discriminate.
    + destruct (ReferenceRange.low ref) as [lo|]; [apply L | split; discriminate].
  - destruct (ReferenceRange.low ref) as [lo|]; [apply L | split; discriminate].
Qed.

Lemma X3_zero_multiplier_always_critical_witness :
  Flags.compute_flag (5 # 100) (ReferenceRange.mk None (Some (4 # 100)) [])
    (Py.str "troponin_i") <> Flag_high /\
  Flags.compute_flag (5 # 100) (ReferenceRange.mk None (Some (4 # 100)) [])
    (Py.str "troponin_t") <> Flag_high.
Proof.
  split.
  - apply (X3_zero_multiplier_always_critical (5 # 100)
             (ReferenceRange.mk None (Some (4 # 100)) []) (Py.str "troponin_i")).
    reflexivity.
  - apply (X3_zero_multiplier_always_critical (5 # 100)
             (ReferenceRange.mk None (Some (4 # 100)) []) (Py.str "troponin_t")).
    reflexivity.
Defined.

(** X4: [compute_flag] answers [normal] exactly when the value lies within
    every bound the range has (bounds included), whatever the analyte key;
    it answers a high flag exactly when the value exceeds the upper bound. *)
Theorem X4_normal_iff_within_bounds (v : Q) (ref : ReferenceRange.t)
  (key : Py.text) :
  (Flags.compute_flag v ref key = Flag_normal <->
   (forall hi, ReferenceRange.high ref = Some hi -> v <= hi) /\
   (forall lo, ReferenceRange.low ref = Some lo -> lo <= v)) /\
  (Flags.compute_flag v ref key = Flag_high \/
   Flags.compute_flag v ref key = Flag_critical_high <->
   exists hi, ReferenceRange.high ref = Some hi /\ hi < v).
Proof.
  unfold Flags.compute_flag. destruct ref as [[lo|] [hi|] raw];
    cbn [ReferenceRange.is_bounded ReferenceRange.low ReferenceRange.high
         negb orb]; cbv zeta.
  - destruct (Py.fgt v hi) eqn:Eh.
    + pose proof Eh as Hh. apply fgt_iff in Hh. clear Eh. split.
      * split.
        -- destruct (Py.fgt v _); intros H; discriminate H.
        -- intros [H _]. specialize (H hi eq_refl).
           exfalso. exact (Qlt_not_le _ _ Hh H).
      * split; [intros _; exists hi; split; [reflexivity | exact Hh]|].
        intros _. destruct (Py.fgt v _); [right | left]; reflexivity.
    + pose proof Eh as Hh. apply flt_false_iff in Hh. clear Eh.
      destruct (Py.flt v lo) eqn:El.
      * pose proof El as Hl. apply flt_iff in Hl. clear El. split.
        -- split.
           ++ destruct (Py.flt v _); intros H; discriminate H.
           ++ intros [_ H]. specialize (H lo eq_refl).
              exfalso. exact (Qlt_not_le _ _ Hl H).
        -- split.
           ++ destruct (Py.flt v _); intros [H | H]; discriminate.
           ++ intros [h [E H]]. injection E as <-.
              exfalso. exact (Qlt_not_le _ _ H Hh).
      * pose proof El as Hl. apply flt_false_iff in Hl. clear El. split.
        -- split; [|reflexivity]. intros _. split.
           ++ intros h E. injection E as <-. exact Hh.
           ++ intros l E. injection E as <-. exact Hl.
        -- split; [intros [H | H]; discriminate|].
           intros [h [E H]]. injection E as <-.
           exfalso. exact (Qlt_not_le _ _ H Hh).
  - destruct (Py.flt v lo) eqn:El.
    + pose proof El as Hl. apply flt_iff in Hl. clear El. split.
      * split.
        -- destruct (Py.flt v _); intros H; discriminate H.
        -- intros [_ H]. specialize (H lo eq_refl).
           exfalso. exact (Qlt_not_le _ _ Hl H).
      * split.
        -- destruct (Py.flt v _); intros [H | H]; discriminate.
        -- intros [h [E _]]. discriminate.
    + pose proof El as Hl. apply flt_false_iff in Hl. clear El. split.
      * split; [|reflexivity]. intros _. split.
        -- intros h E. discriminate.
        -- intros l E. injection E as <-. exact Hl.
      * split; [intros [H | H]; discriminate|].
        intros [h [E _]]. discriminate.
  - destruct (Py.fgt v hi) eqn:Eh.
    + pose proof Eh as Hh. apply fgt_iff in Hh. clear Eh. split.
      * split.
        -- destruct (Py.fgt v _); intros H; discriminate H.
        -- intros [H _]. specialize (H hi eq_refl).
           exfalso. exact (Qlt_not_le _ _ Hh H).
      * split; [intros _; exists hi; split; [reflexivity | exact Hh]|].
        intros _. destruct (Py.fgt v _); [right | left]; reflexivity.
    + pose proof Eh as Hh. apply flt_false_iff in Hh. clear Eh. split.
      * split; [|reflexivity]. intros _. split.
        -- intros h E. injection E as <-. exact Hh.
        -- intros l E. discriminate.
      * split; [intros [H | H]; discriminate|].
        intros [h [E H]]. injection E as <-.
        exfalso. exact (Qlt_not_le _ _ H Hh).
  - split.
    + split; [|reflexivity]. intros _. split; intros x E; discriminate.
    + split; [intros [H | H]; discriminate|].
      intros [h [E _]]. discriminate.
Qed.

(** ** Rounding *)

Section Rounding.
Import Py.

Lemma round_half_even_mono (p q : Q) :
  p <= q -> (round_half_even p <= round_half_even q)%Z.
Proof.
  intros Hpq. unfold round_half_even.
  pose proof (Qfloor_resp_le _ _ Hpq) as Hf.
  destruct (Z.eq_dec (Qfloor p) (Qfloor q)) as [E|N].
  - rewrite E.
    destruct (Qcompare_spec (p - inject_Z (Qfloor q)) (1 # 2)) as [H1|H1|H1];
      destruct (Qcompare_spec (q - inject_Z (Qfloor q)) (1 # 2)) as [H2|H2|H2];
      try lra; try destruct (Z.even (Qfloor q)); lia.
  - assert (Hlt : (Qfloor p + 1 <= Qfloor q)%Z) by lia.
    destruct (p - inject_Z (Qfloor p) ?= 1 # 2);
      destruct (q - inject_Z (Qfloor q) ?= 1 # 2);
      try destruct (Z.even (Qfloor p)); try destruct (Z.even (Qfloor q)); lia.
Qed.

(** [round(x, 2)] never reverses an order. *)
Lemma round_mono (p q : Q) : p <= q -> round p 2 <= round q 2.
Proof.
  intros Hpq. unfold round. rewrite !Qred_correct.
  assert (H : p * inject_Z (Zpos (Pos.pow 10 (Pos.of_nat 2)))
              <= q * inject_Z (Zpos (Pos.pow 10 (Pos.of_nat 2)))).
  { apply Qmult_le_compat_r; [exact Hpq | discriminate]. }
  apply round_half_even_mono in H.
  unfold Qle. cbn [Qnum Qden]. apply Z.mul_le_mono_nonneg_r; [lia | exact H].
Qed.
End Rounding.

(** ** Severity scorer: bounds, criticality, re-sorting *)

Section SeverityBounds.
Import Py Severity.

Lemma magnitude_bounds (pct : Q) :
  0 <= fmin (Qabs pct) 200 * (1 # 10) /\ fmin (Qabs pct) 200 * (1 # 10) <= 20.
Proof.
  pose proof (Qabs_nonneg pct) as H. unfold fmin.
  destruct (flt 200 (Qabs pct)) eqn:E.
  - split; lra.
  - apply flt_false_iff in E. split; lra.
Qed.

Lemma compute_severity_rescored (t : LabTrend.t) :
  compute_severity (rescored t) = compute_severity t.
Proof. destruct t. reflexivity. Qed.

Lemma rescored_idem (t : LabTrend.t) : rescored (rescored t) = rescored t.
Proof. destruct t. reflexivity. Qed.

(** An ordered list is left alone by [sorted]. *)
Lemma sorted_of_sorted (A : Type) (leb : A -> A -> bool) (l : list A) :
  StronglySorted (fun x y => leb x y = true) l -> sorted leb l = l.
Proof.
  induction 1 as [|x l Hl IH Hx]; [reflexivity|].
  cbn. rewrite IH. destruct l as [|y l']; [reflexivity|].
  cbn. inversion Hx as [|? ? Hxy _]; subst. rewrite Hxy. reflexivity.
Qed.
End SeverityBounds.

(** X5: every severity score lies between -10 and 150, whatever the trend:
    the flag contributes at most 100, the direction between -10 and 30, and
    the magnitude between 0 and 20 because the percentage is capped at 200. *)
Theorem X5_severity_bounds (t : LabTrend.t) :
  -10 <= Severity.compute_severity t /\ Severity.compute_severity t <= 150.
Proof.
  unfold Severity.compute_severity.
  pose proof (magnitude_bounds (LabTrend.pct_change t)) as [H0 H20].
  split;
    [apply Qle_trans with (Py.round (-10) 2); [vm_compute; discriminate|]
    |apply Qle_trans with (Py.round 150 2); [|vm_compute; discriminate]];
    apply round_mono;
    destruct (LabTrend.latest_flag t) as [[]|], (LabTrend.direction t);
    cbn [Severity.enum_get Severity._FLAG_WEIGHT Severity._DIRECTION_WEIGHT
         Flag_eqb TrendDirection_eqb]; lra.
Qed.

(** X6: a trend whose latest flag is critical and whose direction is not
    improving scores at least 100, and a trend whose latest flag is not
    critical scores at most 100, so the former is never scored below the
    latter.  The proviso matters: an improving critical trend can score 90,
    below a worsening high trend at 100. *)
Theorem X6_critical_scores_on_top :
  (forall t1 t2,
     Orchestrator.is_critical t1 = true ->
     LabTrend.direction t1 <> TrendDirection_improving ->
     Orchestrator.is_critical t2 = false ->
     Severity.compute_severity t2 <= 100 /\
     100 <= Severity.compute_severity t1) /\
  (exists t1 t2,
     Orchestrator.is_critical t1 = true /\
     Orchestrator.is_critical t2 = false /\
     Severity.compute_severity t1 < Severity.compute_severity t2).
Proof.
  split.
  - intros t1 t2 H1 Hd H2. unfold Severity.compute_severity, Orchestrator.is_critical in *.
    pose proof (magnitude_bounds (LabTrend.pct_change t1)) as [Ha Ha'].
    pose proof (magnitude_bounds (LabTrend.pct_change t2)) as [Hb Hb'].
    split;
      [apply Qle_trans with (Py.round 100 2); [|vm_compute; discriminate]
      |apply Qle_trans with (Py.round 100 2); [vm_compute; discriminate|]];
      apply round_mono.
    + destruct (LabTrend.latest_flag t2) as [[]|]; try discriminate H2;
        destruct (LabTrend.direction t2);
        cbn [Severity.enum_get Severity._FLAG_WEIGHT Severity._DIRECTION_WEIGHT
             Flag_eqb TrendDirection_eqb]; lra.
    + destruct (LabTrend.latest_flag t1) as [[]|]; try discriminate H1;
        destruct (LabTrend.direction t1); try (exfalso; apply Hd; reflexivity);
        cbn [Severity.enum_get Severity._FLAG_WEIGHT Severity._DIRECTION_WEIGHT
             Flag_eqb TrendDirection_eqb]; lra.
  - exists (LabTrend.mk [] [] TrendDirection_improving 0 None
              (Some Flag_critical_high) 0 []),
           (LabTrend.mk [] [] TrendDirection_worsening 200 None
              (Some Flag_high) 0 []).
    repeat split.
Qed.

(** X7: [sort_trends_by_severity] is idempotent: scoring and sorting an
    already scored and sorted list changes nothing, because the score never
    reads the stored score and the stable sort keeps an ordered list. *)
Theorem X7_sort_trends_idempotent (ts : list LabTrend.t) :
  Severity.sort_trends_by_severity (Severity.sort_trends_by_severity ts)
  = Severity.sort_trends_by_severity ts.
Proof.
  unfold Severity.sort_trends_by_severity.
  change (fun a b => Py.fle (LabTrend.severity_score b) (LabTrend.severity_score a))
    with by_score.
  change (fun t => LabTrend.set_severity_score (Severity.compute_severity t) t)
    with rescored.
  set (l := Py.sorted by_score (map rescored ts)).
  assert (Hmap : map rescored l = l).
  { rewrite <- (map_id l) at 2. apply map_ext_in. intros t Ht.
    unfold l in Ht. apply (proj1 (sorted_in _ by_score _ _)) in Ht.
    apply in_map_iff in Ht.
    destruct Ht as [t0 [<- _]]. apply rescored_idem. }
  rewrite Hmap. apply sorted_of_sorted.
  apply (sorted_sorted _ by_score by_score_total by_score_trans).
Qed.

Lemma X6_critical_scores_on_top_witness :
  Severity.compute_severity
    (LabTrend.mk [] [] TrendDirection_worsening 300 None (Some Flag_high) 0 [])
  <= 100 /\
  100 <= Severity.compute_severity
           (LabTrend.mk [] [] TrendDirection_stable 0 None (Some Flag_critical_low) 0 []).
Proof.
  destruct X6_critical_scores_on_top as [H _].
  apply (H (LabTrend.mk [] [] TrendDirection_stable 0 None (Some Flag_critical_low) 0 [])
           (LabTrend.mk [] [] TrendDirection_worsening 300 None (Some Flag_high) 0 []));
    [reflexivity | discriminate | reflexivity].
Defined.

(** ** Stripping *)

Section StripFacts.
Import Py.
Variable p : N -> bool.

Lemma dropwhile_idem (t : text) : dropwhile p (dropwhile p t) = dropwhile p t.
Proof.
  induction t as [|c t IH]; [reflexivity|].
  cbn. destruct (p c) eqn:E; [exact IH|]. cbn. rewrite E. reflexivity.
Qed.

Lemma dropwhile_length (t : text) : (List.length (dropwhile p t) <= List.length t)%nat.
Proof.
  induction t as [|c t IH]; cbn; [lia|]. destruct (p c); cbn; lia.
Qed.

(** A text that [dropwhile] leaves alone does not start with a dropped
    character. *)
Lemma dropwhile_fixed_head (c : N) (t : text) :
  dropwhile p (c :: t) = c :: t -> p c = false.
Proof.
  cbn. destruct (p c); [|reflexivity]. intros H.
  pose proof (dropwhile_length t) as L. rewrite H in L. cbn in L. lia.
Qed.

Lemma dropwhile_app_keep (t w : text) :
  dropwhile p t = t -> t <> [] -> dropwhile p (t ++ w) = t ++ w.
Proof.
  destruct t as [|c t]; [congruence|]. intros H _.
  apply dropwhile_fixed_head in H. cbn. rewrite H. reflexivity.
Qed.

Lemma rev_dropwhile_split (r : text) :
  exists w, rev r = rev (dropwhile p r) ++ w /\ forallb p w = true.
Proof.
  induction r as [|c r IH]; [exists []; split; reflexivity|].
  cbn [dropwhile]. destruct (p c) eqn:E.
  - destruct IH as [w [Hw Hp]]. exists (w ++ [c]). split.
    + cbn [rev]. rewrite Hw at 1. rewrite app_assoc. reflexivity.
    + rewrite forallb_app, Hp. cbn. rewrite E. reflexivity.
  - exists []. split; [rewrite app_nil_r; reflexivity | reflexivity].
Qed.

(** What [rstrip] removes is a suffix of dropped characters. *)
Lemma rstrip_split (t : text) :
  exists w, t = rstrip_chars p t ++ w /\ forallb p w = true.
Proof.
  unfold rstrip_chars. destruct (rev_dropwhile_split (rev t)) as [w [Hw Hp]].
  rewrite rev_involutive in Hw. exists w. split; assumption.
Qed.

Lemma dropwhile_all (w : text) : forallb p w = true -> dropwhile p w = [].
Proof.
  induction w as [|c w IH]; [reflexivity|]. cbn.
  destruct (p c); [exact IH | discriminate].
Qed.

Lemma rstrip_keeps_lstripped (t : text) :
  dropwhile p t = t -> dropwhile p (rstrip_chars p t) = rstrip_chars p t.
Proof.
  intros H. destruct (rstrip_split t) as [w [Hw Hp]].
  destruct (rstrip_chars p t) as [|c x] eqn:E; [reflexivity|].
  rewrite Hw in H. cbn in H. cbn. destruct (p c) eqn:Ec; [|reflexivity].
  pose proof (dropwhile_length (x ++ w)) as L. rewrite H in L. cbn in L. lia.
Qed.

Lemma rstrip_idem (t : text) :
  rstrip_chars p (rstrip_chars p t) = rstrip_chars p t.
Proof.
  unfold rstrip_chars. rewrite rev_involutive, dropwhile_idem. reflexivity.
Qed.
End StripFacts.

Section UnitTables.
Context {U : Py.UnicodeDB}.
Import Py Units.

(** [s.strip().strip() == s.strip()] *)
Lemma strip_idem (t : text) : strip (strip t) = strip t.
Proof.
  unfold strip, lstrip_chars.
  rewrite (rstrip_keeps_lstripped isspace (dropwhile isspace t))
    by apply dropwhile_idem.
  apply rstrip_idem.
Qed.

Lemma dict_get_in (V : Type) (d : list (text * V)) (k : text) (v : V) :
  dict_get d k = Some v -> In v (List.map snd d).
Proof.
  induction d as [|[k' v'] d IH]; cbn; [discriminate|].
  destruct (text_eqb k' k).
  - intros H. injection H as ->. left. reflexivity.
  - intros H. right. apply IH, H.
Qed.

(** Every canonical unit of the alias table normalises to itself; those
    whose lower-case form is no key of the table pass through. *)
Lemma unit_aliases_canonical :
  Forall (fun v => normalize_unit v = v) (List.map snd _UNIT_ALIASES).
Proof. repeat constructor. Qed.


End UnitTables.

(** X8: [normalize_unit] is idempotent: a normalised unit normalises to
    itself, whether it came from the alias table or passed through
    stripped. *)
Theorem X8_normalize_unit_idempotent (U : Py.UnicodeDB) (raw : Py.text) :
  Units.normalize_unit (Units.normalize_unit raw) = Units.normalize_unit raw.
Proof.
  unfold Units.normalize_unit at 2 3. unfold Py.dict_get_default.
  destruct (Py.dict_get Units._UNIT_ALIASES
              (Py.lower (Py.remove_whitespace (Py.strip raw)))) as [v|] eqn:E.
  - apply dict_get_in in E.
    pose proof unit_aliases_canonical as F. rewrite Forall_forall in F.
    apply F, E.
  - unfold Units.normalize_unit, Py.dict_get_default.
    rewrite strip_idem, E. reflexivity.
Qed.



(** ** Trend engine: directions, fluctuation, timeline *)

Section TrendShape.
Import Py Trends.

Lemma monotone_decreasing_slope (obs : list Observation.t) :
  (2 <= List.length obs)%nat ->
  strictly_decreasing (List.map Observation.value obs) ->
  _is_fluctuating obs = false /\ _slope_sign obs = (-1)%Z.
Proof.
  intros Hlen Hdec.
  pose proof (diffs_decreasing obs Hdec) as Hneg. split.
  - apply not_fluctuating_of_no_reversal, no_reversal_negative; auto.
  - unfold _slope_sign.
    assert (L : Nat.ltb (List.length obs) 2 = false) by (apply Nat.ltb_ge; exact Hlen).
    rewrite L. destruct (counts_negative _ Hneg) as [-> ->].
    rewrite length_diffs.
    assert (P : Nat.ltb (pred (List.length obs)) 0 = false) by (apply Nat.ltb_ge; lia).
    assert (N : Nat.ltb 0 (pred (List.length obs)) = true) by (apply Nat.ltb_lt; lia).
    rewrite P, N. reflexivity.
Qed.

Lemma monotone_increasing_slope (obs : list Observation.t) :
  (2 <= List.length obs)%nat ->
  strictly_increasing (List.map Observation.value obs) ->
  _is_fluctuating obs = false /\ _slope_sign obs = 1%Z.
Proof.
  intros Hlen Hinc.
  pose proof (diffs_increasing obs Hinc) as Hpos. split.
  - apply not_fluctuating_of_no_reversal, no_reversal_positive; auto.
  - unfold _slope_sign.
    assert (L : Nat.ltb (List.length obs) 2 = false) by (apply Nat.ltb_ge; exact Hlen).
    rewrite L. destruct (counts_positive _ Hpos) as [-> ->].
    rewrite length_diffs.
    assert (N : Nat.ltb 0 (pred (List.length obs)) = true) by (apply Nat.ltb_lt; lia).
    rewrite N. reflexivity.
Qed.

(** The loop of [_is_fluctuating] counts no reversal at the first delta and at
    most one at each later delta. *)
Lemma fluctuation_step_bound (r : nat) (s : Z) (d : Q) :
  (fst (fluctuation_step (r, s) d) <= S r)%nat /\
  (s = 0%Z -> fst (fluctuation_step (r, s) d) = r).
Proof.
  unfold fluctuation_step. split.
  - destruct (_ && _ && _); cbn; lia.
  - intros ->. rewrite andb_false_r. reflexivity.
Qed.

Lemma reversals_bound (ds : list Q) (r : nat) (s : Z) :
  (fst (fold_left fluctuation_step ds (r, s)) <= r + List.length ds)%nat.
Proof.
  revert r s. induction ds as [|d ds IH]; intros r s; cbn [fold_left List.length]; [cbn; lia|].
  destruct (fluctuation_step (r, s) d) as [r' s'] eqn:E.
  pose proof (proj1 (fluctuation_step_bound r s d)) as B. rewrite E in B. cbn in B.
  specialize (IH r' s'). lia.
Qed.

Lemma reversals_bound_start (ds : list Q) :
  (fst (fold_left fluctuation_step ds (0%nat, 0%Z)) <= pred (List.length ds))%nat.
Proof.
  destruct ds as [|d ds]; [cbn; lia|]. cbn [fold_left List.length pred].
  destruct (fluctuation_step (0%nat, 0%Z) d) as [r' s'] eqn:E.
  pose proof (proj2 (fluctuation_step_bound 0 0 d) eq_refl) as B.
  rewrite E in B. cbn in B. subst r'.
  apply (reversals_bound ds 0 s').
Qed.

Lemma is_fluctuating_length (obs : list Observation.t) :
  _is_fluctuating obs = true -> (4 <= List.length obs)%nat.
Proof.
  unfold _is_fluctuating. destruct (Nat.ltb (List.length obs) 3); [discriminate|].
  pose proof (reversals_bound_start (diffs obs)) as B.
  destruct (fold_left fluctuation_step (diffs obs) (0%nat, 0%Z)) as [r s].
  cbn in B. rewrite length_diffs in B. intros H. apply Nat.leb_le in H. lia.
Qed.

(** What [compute_trend] computes for an analyte with observations. *)
Lemma compute_trend_cons (a : LabAnalyte.t Observation.t) (o : Observation.t)
  (obs : list Observation.t) :
  sorted_by_date (LabAnalyte.observations a) = o :: obs ->
  compute_trend a
  = LabTrend.mk (LabAnalyte.analyte_key a) (LabAnalyte.display_name a)
      (_determine_direction (o :: obs) (latest_flag_of (last (o :: obs) o)))
      (round (_pct_change (Observation.value o)
                (Observation.value (last (o :: obs) o))) 2)
      (Some (Observation.value (last (o :: obs) o)))
      (Some (latest_flag_of (last (o :: obs) o))) 0 (o :: obs).
Proof. unfold compute_trend. intros ->. reflexivity. Qed.

Lemma sorted_by_date_length (l : list Observation.t) :
  List.length (sorted_by_date l) = List.length l.
Proof. apply sorted_length. Qed.
End TrendShape.

(** X10: with at least two observations and a latest flag [low] or
    [critical_low], a strictly increasing date-sorted series is [improving]
    and a strictly decreasing one is [worsening]: the low side mirrors the
    high side. *)
Theorem X10_monotone_low_direction (a : LabAnalyte.t Observation.t) :
  (2 <= List.length (LabAnalyte.observations a))%nat ->
  LabTrend.latest_flag (Trends.compute_trend a) = Some Flag_low \/
  LabTrend.latest_flag (Trends.compute_trend a) = Some Flag_critical_low ->
  (strictly_increasing
     (List.map Observation.value (Trends.sorted_by_date (LabAnalyte.observations a))) ->
   LabTrend.direction (Trends.compute_trend a) = TrendDirection_improving) /\
  (strictly_decreasing
     (List.map Observation.value (Trends.sorted_by_date (LabAnalyte.observations a))) ->
   LabTrend.direction (Trends.compute_trend a) = TrendDirection_worsening).
Proof.
  intros Hlen Hf. rewrite <- sorted_by_date_length in Hlen.
  destruct (Trends.sorted_by_date (LabAnalyte.observations a)) as [|o obs] eqn:E;
    [cbn in Hlen; lia|].
  rewrite (compute_trend_cons a o obs E) in *.
  remember (Trends.latest_flag_of (last (o :: obs) o)) as f eqn:Ef. clear Ef.
  cbn [LabTrend.latest_flag LabTrend.direction] in *.
  assert (L : Nat.ltb (List.length (o :: obs)) 2 = false) by (apply Nat.ltb_ge; exact Hlen).
  split; intros Hm; unfold Trends._determine_direction; rewrite L.
  - destruct (monotone_increasing_slope _ Hlen Hm) as [-> ->].
    destruct Hf as [Hf | Hf]; injection Hf as ->; reflexivity.
  - destruct (monotone_decreasing_slope _ Hlen Hm) as [-> ->].
    destruct Hf as [Hf | Hf]; injection Hf as ->; reflexivity.
Qed.

Lemma X10_monotone_low_direction_witness :
  LabTrend.direction
    (Trends.compute_trend
       (analyte_of "platelets"
          [obs_of 2 100 Flag_low; obs_of 3 120 Flag_low; obs_of 1 80 Flag_critical_low]))
  = TrendDirection_improving.
Proof.
  apply (X10_monotone_low_direction
           (analyte_of "platelets"
              [obs_of 2 100 Flag_low; obs_of 3 120 Flag_low;
               obs_of 1 80 Flag_critical_low])).
  - cbn. lia.
  - left. reflexivity.
  - cbn. repeat split.
Defined.

(** X11: a trend is [improving] or [worsening] only if its latest flag is
    abnormal and there are at least two observations: with a normal latest
    flag, or none, the direction is [stable] or [fluctuating] whatever the
    values do. *)
Theorem X11_normal_flag_has_no_direction (a : LabAnalyte.t Observation.t) :
  LabTrend.direction (Trends.compute_trend a) = TrendDirection_improving \/
  LabTrend.direction (Trends.compute_trend a) = TrendDirection_worsening ->
  (2 <= List.length (LabAnalyte.observations a))%nat /\
  LabTrend.latest_flag (Trends.compute_trend a) <> None /\
  LabTrend.latest_flag (Trends.compute_trend a) <> Some Flag_normal.
Proof.
  rewrite <- sorted_by_date_length.
  destruct (Trends.sorted_by_date (LabAnalyte.observations a)) as [|o obs] eqn:E.
  - unfold Trends.compute_trend. rewrite E. cbn. intros [H | H]; discriminate H.
  - rewrite (compute_trend_cons a o obs E).
    remember (Trends.latest_flag_of (last (o :: obs) o)) as f eqn:Ef. clear Ef.
    cbn [LabTrend.latest_flag LabTrend.direction].
    unfold Trends._determine_direction.
    destruct (Nat.ltb (List.length (o :: obs)) 2) eqn:L;
      [intros [H | H]; discriminate H|].
    apply Nat.ltb_ge in L. intros H. split; [exact L|]. split; [discriminate|].
    intros F. injection F as ->.
    destruct (Trends._is_fluctuating (o :: obs)); destruct H as [H | H]; discriminate H.
Qed.

Lemma X11_normal_flag_has_no_direction_witness :
  (2 <= List.length
          (LabAnalyte.observations
             (analyte_of "creatinine" [obs_of 1 2 Flag_high; obs_of 2 3 Flag_high])))%nat /\
  LabTrend.latest_flag
    (Trends.compute_trend
       (analyte_of "creatinine" [obs_of 1 2 Flag_high; obs_of 2 3 Flag_high]))
  <> None /\
  LabTrend.latest_flag
    (Trends.compute_trend
       (analyte_of "creatinine" [obs_of 1 2 Flag_high; obs_of 2 3 Flag_high]))
  <> Some Flag_normal.
Proof.
  apply (X11_normal_flag_has_no_direction
           (analyte_of "creatinine" [obs_of 1 2 Flag_high; obs_of 2 3 Flag_high])).
  right. reflexivity.
Defined.

(** X12: a trend is [fluctuating] only with at least four observations: two
    reversals need three non-zero deltas, so the guard [len(obs) < 3] of
    [_is_fluctuating] never decides and three observations are never
    fluctuating. *)
Theorem X12_fluctuating_needs_four (a : LabAnalyte.t Observation.t) :
  LabTrend.direction (Trends.compute_trend a) = TrendDirection_fluctuating ->
  (4 <= List.length (LabAnalyte.observations a))%nat.
Proof.
  rewrite <- sorted_by_date_length.
  destruct (Trends.sorted_by_date (LabAnalyte.observations a)) as [|o obs] eqn:E.
  - unfold Trends.compute_trend. rewrite E. cbn. discriminate.
  - rewrite (compute_trend_cons a o obs E).
    remember (Trends.latest_flag_of (last (o :: obs) o)) as f eqn:Ef. clear Ef.
    cbn [LabTrend.direction].
    unfold Trends._determine_direction.
    destruct (Nat.ltb (List.length (o :: obs)) 2); [discriminate|].
    destruct (Trends._is_fluctuating (o :: obs)) eqn:F.
    + intros _. apply is_fluctuating_length, F.
    + destruct f;
        repeat match goal with |- context [if ?b then _ else _] => destruct b end;
        discriminate.
Qed.

Lemma X12_fluctuating_needs_four_witness :
  (4 <= List.length
          (LabAnalyte.observations
             (analyte_of "glucose"
                [obs_of 1 200 Flag_high; obs_of 2 150 Flag_high;
                 obs_of 3 250 Flag_high; obs_of 4 120 Flag_high])))%nat.
Proof.
  apply (X12_fluctuating_needs_four
           (analyte_of "glucose"
              [obs_of 1 200 Flag_high; obs_of 2 150 Flag_high;
               obs_of 3 250 Flag_high; obs_of 4 120 Flag_high])).
  reflexivity.
Defined.

Section DateOrder.

Lemma Date_compare_antisym (a b : Date.t) :
  Date.compare b a = CompOpp (Date.compare a b).
Proof.
  unfold Date.compare. destruct a as [y m d], b as [y' m' d']; cbn.
  rewrite (Z.compare_antisym y y'), (Z.compare_antisym m m'), (Z.compare_antisym d d').
  destruct (y ?= y')%Z, (m ?= m')%Z, (d ?= d')%Z; reflexivity.
Qed.

Lemma Date_leb_refl (a : Date.t) : Date.leb a a = true.
Proof. apply Date_leb_of_eqb, Date_eqb_eq. reflexivity. Qed.

Lemma Date_leb_total (a b : Date.t) : Date.leb a b = true \/ Date.leb b a = true.
Proof.
  unfold Date.leb. rewrite (Date_compare_antisym a b).
  destruct (Date.compare a b); cbn; auto.
Qed.

Lemma Date_leb_antisym (a b : Date.t) :
  Date.leb a b = true -> Date.leb b a = true -> a = b.
Proof.
  unfold Date.leb. rewrite (Date_compare_antisym a b). intros H1 H2.
  apply Date_eqb_eq. unfold Date.eqb.
  destruct (Date.compare a b); cbn in *; congruence.
Qed.

Lemma Date_leb_trans (a b c : Date.t) :
  Date.leb a b = true -> Date.leb b c = true -> Date.leb a c = true.
Proof.
  unfold Date.leb, Date.compare.
  destruct a as [y1 m1 d1], b as [y2 m2 d2], c as [y3 m3 d3]; cbn.
  destruct (Z.compare_spec y1 y2), (Z.compare_spec m1 m2), (Z.compare_spec d1 d2);
    try discriminate;
    destruct (Z.compare_spec y2 y3), (Z.compare_spec m2 m3), (Z.compare_spec d2 d3);
    try discriminate;
    destruct (Z.compare_spec y1 y3), (Z.compare_spec m1 m3), (Z.compare_spec d1 d3);
    try reflexivity; lia.
Qed.

(** The order [sorted_by_date] sorts by. *)
Lemma by_date_total (x y : Observation.t) :
  Date.leb (Observation.date x) (Observation.date y) = true \/
  Date.leb (Observation.date y) (Observation.date x) = true.
Proof. apply Date_leb_total. Qed.

Lemma by_date_trans (x y z : Observation.t) :
  Date.leb (Observation.date x) (Observation.date y) = true ->
  Date.leb (Observation.date y) (Observation.date z) = true ->
  Date.leb (Observation.date x) (Observation.date z) = true.
Proof. apply Date_leb_trans. Qed.

Lemma sorted_by_date_sorted (l : list Observation.t) :
  StronglySorted
    (fun x y => Date.leb (Observation.date x) (Observation.date y) = true)
    (Trends.sorted_by_date l).
Proof.
  apply (sorted_sorted _ (fun a b => Date.leb (Observation.date a) (Observation.date b))
           by_date_total by_date_trans).
Qed.

(** The last element of an ordered list is a greatest one. *)
Lemma last_sorted_max (A : Type) (R : A -> A -> Prop) (l : list A) (d : A) :
  (forall x, R x x) -> StronglySorted R l ->
  forall x, In x l -> R x (last l d).
Proof.
  intros Hrefl. induction 1 as [|y l Hl IH Hy]; intros x Hx; [destruct Hx|].
  destruct l as [|z l'].
  - destruct Hx as [<- | []]. apply Hrefl.
  - change (last (y :: z :: l') d) with (last (z :: l') d).
    destruct Hx as [<- | Hx]; [|apply IH, Hx].
    rewrite Forall_forall in Hy. apply Hy.
    clear. revert z. induction l' as [|w l' IH]; intros z; [left; reflexivity|].
    change (last (z :: w :: l') d) with (last (w :: l') d). right. apply IH.
Qed.

Lemma last_in (A : Type) (l : list A) (x d : A) : In (last (x :: l) d) (x :: l).
Proof.
  revert x. induction l as [|y l IH]; intros x; [left; reflexivity|].
  change (last (x :: y :: l) d) with (last (y :: l) d). right. apply IH.
Qed.

(** Two ordered arrangements of the same elements coincide when the order
    tells the elements apart. *)
Lemma sorted_unique (A : Type) (R : A -> A -> Prop) (l1 l2 : list A) :
  (forall x y, In x l1 -> In y l1 -> R x y -> R y x -> x = y) ->
  Permutation l1 l2 -> StronglySorted R l1 -> StronglySorted R l2 -> l1 = l2.
Proof.
  revert l2. induction l1 as [|x l1 IH]; intros l2 Hanti Hp H1 H2.
  - apply Permutation_nil in Hp. congruence.
  - destruct l2 as [|y l2]; [apply Permutation_sym, Permutation_nil in Hp; discriminate|].
    assert (E : x = y).
    { assert (Hx : In x (y :: l2)) by (eapply Permutation_in; [exact Hp | left; reflexivity]).
      assert (Hy : In y (x :: l1)).
      { eapply Permutation_in; [apply Permutation_sym, Hp | left; reflexivity]. }
      destruct Hx as [Hx | Hx]; [congruence|].
      destruct Hy as [Hy | Hy]; [congruence|].
      inversion H1 as [|? ? _ F1]; subst. inversion H2 as [|? ? _ F2]; subst.
      rewrite Forall_forall in F1, F2.
      apply Hanti; [left; reflexivity | right; exact Hy | apply F1, Hy | apply F2, Hx]. }
    subst y. f_equal. apply IH.
    + intros a b Ha Hb. apply Hanti; right; assumption.
    + eapply Permutation_cons_inv, Hp.
    + inversion H1; assumption.
    + inversion H2; assumption.
Qed.

Lemma NoDup_map_eq (A B : Type) (f : A -> B) (l : list A) (x y : A) :
  NoDup (List.map f l) -> In x l -> In y l -> f x = f y -> x = y.
Proof.
  induction l as [|a l IH]; cbn; intros Hnd Hx Hy E; [destruct Hx|].
  inversion Hnd as [|? ? Hni Hnd']; subst.
  destruct Hx as [-> | Hx], Hy as [-> | Hy].
  - reflexivity.
  - exfalso. apply Hni. rewrite E. apply in_map, Hy.
  - exfalso. apply Hni. rewrite <- E. apply in_map, Hx.
  - apply IH; assumption.
Qed.
End DateOrder.

(** X13: the timeline of a trend holds the analyte's observations, all of
    them, ordered by date; when there are any, [latest_value] and
    [latest_flag] are those of an observation whose date no other
    observation exceeds. *)
Theorem X13_trend_timeline (a : LabAnalyte.t Observation.t) :
  Permutation (LabTrend.observations (Trends.compute_trend a))
    (LabAnalyte.observations a) /\
  StronglySorted
    (fun x y => Date.leb (Observation.date x) (Observation.date y) = true)
    (LabTrend.observations (Trends.compute_trend a)) /\
  (LabAnalyte.observations a <> [] ->
   exists latest,
     In latest (LabAnalyte.observations a) /\
     LabTrend.latest_value (Trends.compute_trend a)
     = Some (Observation.value latest) /\
     LabTrend.latest_flag (Trends.compute_trend a)
     = Some (Trends.latest_flag_of latest) /\
     forall o, In o (LabAnalyte.observations a) ->
       Date.leb (Observation.date o) (Observation.date latest) = true).
Proof.
  pose proof (sorted_perm _ (fun a b => Date.leb (Observation.date a) (Observation.date b))
                (LabAnalyte.observations a)) as Hp.
  pose proof (sorted_by_date_sorted (LabAnalyte.observations a)) as Hs.
  fold (Trends.sorted_by_date (LabAnalyte.observations a)) in Hp.
  destruct (Trends.sorted_by_date (LabAnalyte.observations a)) as [|o obs] eqn:E.
  - unfold Trends.compute_trend. rewrite E. cbn [LabTrend.default LabTrend.observations].
    split; [exact Hp|]. split; [constructor|].
    intros Hne. apply Permutation_nil in Hp. contradiction.
  - rewrite (compute_trend_cons a o obs E).
    cbn [LabTrend.observations LabTrend.latest_value LabTrend.latest_flag].
    split; [exact Hp|]. split; [exact Hs|]. intros _.
    exists (last (o :: obs) o). split; [|split; [reflexivity|split; [reflexivity|]]].
    + eapply Permutation_in; [exact Hp | apply last_in].
    + intros x Hx.
      apply (last_sorted_max _
               (fun x y => Date.leb (Observation.date x) (Observation.date y) = true)
               (o :: obs) o); [intros z; apply Date_leb_refl | exact Hs |].
      eapply Permutation_in; [apply Permutation_sym, Hp | exact Hx].
Qed.

Lemma X13_trend_timeline_witness :
  exists latest,
    In latest [obs_of 3 3 Flag_critical_high; obs_of 1 2 Flag_high] /\
    LabTrend.latest_value
      (Trends.compute_trend
         (analyte_of "creatinine" [obs_of 3 3 Flag_critical_high; obs_of 1 2 Flag_high]))
    = Some (Observation.value latest) /\
    LabTrend.latest_flag
      (Trends.compute_trend
         (analyte_of "creatinine" [obs_of 3 3 Flag_critical_high; obs_of 1 2 Flag_high]))
    = Some (Trends.latest_flag_of latest) /\
    forall o, In o [obs_of 3 3 Flag_critical_high; obs_of 1 2 Flag_high] ->
      Date.leb (Observation.date o) (Observation.date latest) = true.
Proof.
  apply (X13_trend_timeline
           (analyte_of "creatinine" [obs_of 3 3 Flag_critical_high; obs_of 1 2 Flag_high])).
  discriminate.
Defined.

(** X14: when no two observations share a date, the trend does not depend on
    the order in which the analyte lists them.  With a shared date it can:
    the stable sort keeps the input order of same-day observations, and the
    later listed one becomes the latest. *)
Theorem X14_trend_order_independent :
  (forall a b : LabAnalyte.t Observation.t,
     LabAnalyte.analyte_key a = LabAnalyte.analyte_key b ->
     LabAnalyte.display_name a = LabAnalyte.display_name b ->
     Permutation (LabAnalyte.observations a) (LabAnalyte.observations b) ->
     NoDup (List.map Observation.date (LabAnalyte.observations a)) ->
     Trends.compute_trend a = Trends.compute_trend b) /\
  (exists a b : LabAnalyte.t Observation.t,
     LabAnalyte.analyte_key a = LabAnalyte.analyte_key b /\
     LabAnalyte.display_name a = LabAnalyte.display_name b /\
     Permutation (LabAnalyte.observations a) (LabAnalyte.observations b) /\
     LabTrend.latest_value (Trends.compute_trend a)
     <> LabTrend.latest_value (Trends.compute_trend b)).
Proof.
  split.
  - intros a b Hk Hd Hp Hnd.
    assert (E : Trends.sorted_by_date (LabAnalyte.observations a)
                = Trends.sorted_by_date (LabAnalyte.observations b)).
    { apply (sorted_unique _
               (fun x y => Date.leb (Observation.date x) (Observation.date y) = true)).
      - intros x y Hx Hy H1 H2.
        apply (proj1 (sorted_in _ _ _ _)) in Hx, Hy.
        apply (NoDup_map_eq _ _ Observation.date (LabAnalyte.observations a));
          try assumption.
        apply Date_leb_antisym; assumption.
      - eapply perm_trans; [apply sorted_perm|].
        eapply perm_trans; [exact Hp | apply Permutation_sym, sorted_perm].
      - apply sorted_by_date_sorted.
      - apply sorted_by_date_sorted. }
    unfold Trends.compute_trend. rewrite E, Hk, Hd. reflexivity.
  - exists (analyte_of "sodium" [plain_obs 1 1; plain_obs 1 2]),
           (analyte_of "sodium" [plain_obs 1 2; plain_obs 1 1]).
    split; [reflexivity|]. split; [reflexivity|]. split; [apply perm_swap|].
    cbn. discriminate.
Qed.

Lemma X14_trend_order_independent_witness :
  Trends.compute_trend (analyte_of "sodium" [plain_obs 1 1; plain_obs 2 2])
  = Trends.compute_trend (analyte_of "sodium" [plain_obs 2 2; plain_obs 1 1]).
Proof.
  destruct X14_trend_order_independent as [H _].
  apply H; [reflexivity | reflexivity | apply perm_swap |].
  repeat constructor; cbn; intuition discriminate.
Defined.

(** X15: the percentage change of a trend has the sign of the move from the
    earliest to the latest value whenever the earliest value is not zero;
    from a zero baseline every change, a fall included, is reported as
    +100. *)
Theorem X15_pct_change_sign (first last : Q) :
  (~ first == 0 ->
   (first <= last -> 0 <= Py.round (Trends._pct_change first last) 2) /\
   (last <= first -> Py.round (Trends._pct_change first last) 2 <= 0)) /\
  (first == 0 -> ~ last == 0 -> Trends._pct_change first last = 100).
Proof.
  unfold Trends._pct_change, Py.feq. split.
  - intros Hz. destruct (Qeq_bool first 0) eqn:E; [apply Qeq_bool_iff in E; contradiction|].
    assert (Hi : 0 <= / Qabs first) by (apply Qinv_le_0_compat, Qabs_nonneg).
    unfold Qdiv. split; intros H.
    + apply Qle_trans with (Py.round 0 2); [vm_compute; discriminate|].
      apply round_mono. nra.
    + apply Qle_trans with (Py.round 0 2); [|vm_compute; discriminate].
      apply round_mono. nra.
  - intros Hz Hl. apply Qeq_bool_iff in Hz. rewrite Hz.
    destruct (Qeq_bool last 0) eqn:E; [apply Qeq_bool_iff in E; contradiction|].
    reflexivity.
Qed.

Lemma X15_pct_change_sign_witness :
  0 <= Py.round (Trends._pct_change 3 4) 2 /\
  Trends._pct_change 0 (-2) = 100.
Proof.
  destruct (X15_pct_change_sign 3 4) as [[H _] _]; [discriminate|].
  destruct (X15_pct_change_sign 0 (-2)) as [_ H'].
  split; [apply H; discriminate | apply H'; [reflexivity | discriminate]].
Defined.

(** ** Merge engine: shape of the merged timeline *)

Section MergeShape.
Import Py Objects Merge.


Lemma merge_reports_ok (rs : list (LabReport.t ref)) :
  forall h m,
    state_ok h m ->
    state_ok (fst (fold_left merge_report rs (h, m)))
             (snd (fold_left merge_report rs (h, m))).
Proof.
  induction rs as [|r rs IH]; intros h m Hok; cbn [fold_left]; [exact Hok|].
  pose proof (merge_report_ok h m r Hok) as H1.
  destruct (merge_report (h, m) r) as [h1 m1]. apply IH, H1.
Qed.

Lemma state_ok_empty (h : store) : state_ok h [].
Proof. split; [exact I | constructor]. Qed.

(** The final accumulator of [merge_reports] is well formed. *)
Lemma merge_reports_final_ok (h : store) (rs : list (LabReport.t ref)) :
  state_ok (fst (fold_left merge_report rs (h, [])))
           (snd (fold_left merge_report rs (h, []))).
Proof. apply merge_reports_ok, state_ok_empty. Qed.

Lemma in_assemble (h : store) (m : merged_dict) (x : LabAnalyte.t ref) :
  In x (assemble h m) ->
  exists K t od,
    In (K, (t, od)) m /\ x = LabAnalyte.with_observations (sorted_refs h od) t.
Proof.
  unfold assemble. intros H. apply in_map_iff in H.
  destruct H as [[K [t od]] [<- Hin]]. exists K, t, od. split; [exact Hin | reflexivity].
Qed.




End MergeShape.



Section MergeComplete.
Import Py Objects Merge Invariants.


End MergeComplete.



(** X18: the last report of any list wins: every observation of the last
    report is represented in the result by an observation tagged with that
    report's image id, whatever the earlier reports held under the same
    keys. *)
Theorem X18_last_of_many_reports_wins (h : Objects.store)
  (rs : list (LabReport.t Objects.ref)) (r : LabReport.t Objects.ref)
  (a : LabAnalyte.t Objects.ref) (o : Objects.ref) :
  In a (analytes_of r) -> In o (LabAnalyte.observations a) ->
  exists m l,
    filter (fun x => Py.text_eqb (Merge._merge_key x) (Merge._merge_key a))
      (snd (Merge.merge_reports h (rs ++ [r]))) = [m] /\
    filter
      (fun x =>
         Merge.obs_key_eqb (Merge._obs_key (fst (Merge.merge_reports h (rs ++ [r])) x))
           (Merge._obs_key (h o)))
      (LabAnalyte.observations m) = [l] /\
    Observation.source_image_id (fst (Merge.merge_reports h (rs ++ [r])) l)
    = LabReport.source_image_id r.
Proof.
  intros Ha Ho. rewrite merge_reports_eq. cbn [fst snd].
  rewrite fold_left_app. cbn [fold_left].
  apply (last_report_tags h (fold_left Merge.merge_report rs (h, [])) r
           (Merge._merge_key a) a o (Merge._obs_key (h o))).
  - apply merge_reports_final_ok.
  - pose proof (merge_reports_skeleton rs h []) as Hsk. cbv zeta in Hsk. apply Hsk.
  - exact Ha.
  - reflexivity.
  - exact Ho.
  - apply obs_key_eqb_refl.
Qed.

Lemma X18_last_of_many_reports_wins_witness :
  exists m l,
    filter (fun x => Py.text_eqb (Merge._merge_key x) (Merge._merge_key (sodium [2%nat])))
      (snd (Merge.merge_reports
              (store_of_list [plain_obs 1 140; plain_obs 1 140; plain_obs 1 140])
              ([_make_report "img1" [sodium [0%nat]];
                _make_report "img2" [sodium [1%nat]]]
               ++ [_make_report "img3" [sodium [2%nat]]])))
    = [m] /\
    filter
      (fun x =>
         Merge.obs_key_eqb
           (Merge._obs_key
              (fst (Merge.merge_reports
                      (store_of_list [plain_obs 1 140; plain_obs 1 140; plain_obs 1 140])
                      ([_make_report "img1" [sodium [0%nat]];
                        _make_report "img2" [sodium [1%nat]]]
                       ++ [_make_report "img3" [sodium [2%nat]]])) x))
           (Merge._obs_key
              (store_of_list [plain_obs 1 140; plain_obs 1 140; plain_obs 1 140] 2%nat)))
      (LabAnalyte.observations m)
    = [l] /\
    Observation.source_image_id
      (fst (Merge.merge_reports
              (store_of_list [plain_obs 1 140; plain_obs 1 140; plain_obs 1 140])
              ([_make_report "img1" [sodium [0%nat]];
                _make_report "img2" [sodium [1%nat]]]
               ++ [_make_report "img3" [sodium [2%nat]]])) l)
    = LabReport.source_image_id (_make_report "img3" [sodium [2%nat]]).
Proof.
  apply (X18_last_of_many_reports_wins
           (store_of_list [plain_obs 1 140; plain_obs 1 140; plain_obs 1 140])
           [_make_report "img1" [sodium [0%nat]];
            _make_report "img2" [sodium [1%nat]]]
           (_make_report "img3" [sodium [2%nat]]) (sodium [2%nat]) 2%nat).
  - left. reflexivity.
  - left. reflexivity.
Defined.

(** ** Merge engine: provenance and frame *)

Section ProvenanceFacts.
Import Py Objects Merge Invariants.
Variable refs : ref -> Prop.
Variable ids : text -> Prop.
Variable analytes : LabAnalyte.t ref -> Prop.

Lemma od_from_touched (sid : text) (h h' : store) (od : obs_dict) :
  touched sid h h' -> ids sid -> od_from refs ids h od -> od_from refs ids h' od.
Proof.
  intros Ht Hsid. unfold od_from. apply Forall_impl. intros [k l] [Hr Hi]. cbn in *.
  split; [exact Hr|]. destruct (Ht l) as [-> | ->]; [exact Hi | exact Hsid].
Qed.

Lemma entry_from_touched (sid : text) (h h' : store)
  (e : text * (LabAnalyte.t ref * obs_dict)) :
  touched sid h h' -> ids sid ->
  entry_from refs ids analytes h e -> entry_from refs ids analytes h' e.
Proof.
  intros Ht Hsid [Ha Hod]. split; [exact Ha|].
  eapply od_from_touched; eassumption.
Qed.

Lemma merge_observations_from (sid : text) (os : list ref) :
  ids sid -> (forall o, In o os -> refs o) ->
  forall h od,
    od_from refs ids h od ->
    od_from refs ids (fst (fold_left (merge_observation sid) os (h, od)))
      (snd (fold_left (merge_observation sid) os (h, od))) /\
    (forall l, ~ refs l ->
       fst (fold_left (merge_observation sid) os (h, od)) l = h l).
Proof.
  intros Hsid. induction os as [|o os IH]; intros Hos h od Hod; cbn [fold_left].
  - split; [exact Hod | reflexivity].
  - rewrite merge_observation_eq.
    assert (Ho : refs o) by (apply Hos; left; reflexivity).
    destruct (IH (fun x Hx => Hos x (or_intror Hx))
                (store_set h o (Observation.set_source_image_id sid (h o)))
                (odict_set obs_key_eqb od (_obs_key (h o)) o)) as [H1 H2].
    + apply (Forall_odict_set _ _ obs_key_eqb obs_key_eqb_refl).
      * intros k0 _. cbn. split; [exact Ho|].
        unfold store_set. rewrite Nat.eqb_refl. exact Hsid.
      * eapply od_from_touched; [apply store_set_touched | exact Hsid | exact Hod].
    + split; [exact H1|]. intros l Hl.
      eapply eq_trans; [exact (H2 l Hl)|].
      unfold store_set. destruct (Nat.eqb l o) eqn:E; [|reflexivity].
      apply Nat.eqb_eq in E. subst l. contradiction.
Qed.

Lemma with_key_from (h : store) (m : merged_dict) (a : LabAnalyte.t ref) :
  analytes a ->
  Forall (entry_from refs ids analytes h) m ->
  Forall (entry_from refs ids analytes h) (with_key m a).
Proof.
  intros Ha Hall. unfold with_key.
  destruct (odict_get text_eqb m (_merge_key a)); [exact Hall|].
  apply (Forall_odict_set _ _ text_eqb text_eqb_refl); [|exact Hall].
  intros k0 _. split; cbn.
  - exists a. split; [exact Ha | reflexivity].
  - constructor.
Qed.

Lemma merge_analyte_from (sid : text) (h0 h : store) (m : merged_dict)
  (a : LabAnalyte.t ref) :
  ids sid -> analytes a -> (forall o, In o (LabAnalyte.observations a) -> refs o) ->
  state_from refs ids analytes h0 (h, m) ->
  state_from refs ids analytes h0 (merge_analyte sid (h, m) a).
Proof.
  intros Hsid Ha Hos [Hframe Hall]. cbn [fst snd] in *.
  destruct (with_key_present m a) as (t & od & Hget).
  rewrite (merge_analyte_eq sid h m a t od Hget).
  pose proof (with_key_from h m a Ha Hall) as Hall1.
  destruct (odict_get_in _ _ text_eqb _ _ _ Hget) as (k0 & Hin & _).
  rewrite Forall_forall in Hall1. pose proof (Hall1 _ Hin) as [Ht Hod].
  cbn [fst snd] in Ht, Hod.
  destruct (merge_observations_from sid (LabAnalyte.observations a) Hsid Hos h od Hod)
    as [Hod' Hfr].
  pose proof (proj1 (merge_observations_keys sid (LabAnalyte.observations a) h od)) as Htd.
  cbv zeta in Htd.
  split; cbn [fst snd].
  - intros l Hl. rewrite (Hfr l Hl). apply Hframe, Hl.
  - apply (Forall_odict_set _ _ text_eqb text_eqb_refl).
    + intros k1 _. split; [exact Ht | exact Hod'].
    + apply Forall_forall. intros e He.
      eapply entry_from_touched; [exact Htd | exact Hsid | apply Hall1, He].
Qed.

Lemma merge_analytes_from (sid : text) (h0 : store) (l : list (LabAnalyte.t ref)) :
  ids sid ->
  (forall a, In a l ->
     analytes a /\ forall o, In o (LabAnalyte.observations a) -> refs o) ->
  forall st,
    state_from refs ids analytes h0 st ->
    state_from refs ids analytes h0 (fold_left (merge_analyte sid) l st).
Proof.
  intros Hsid. induction l as [|a l IH]; intros Hl st Hst; cbn [fold_left]; [exact Hst|].
  apply IH; [intros x Hx; apply Hl; right; exact Hx|].
  destruct st as [h m]. destruct (Hl a (or_introl eq_refl)) as [Ha Hos].
  apply merge_analyte_from; assumption.
Qed.

Lemma merge_report_from (h0 : store) (r : LabReport.t ref) :
  ids (LabReport.source_image_id r) ->
  (forall a, In a (analytes_of r) ->
     analytes a /\ forall o, In o (LabAnalyte.observations a) -> refs o) ->
  forall st,
    state_from refs ids analytes h0 st ->
    state_from refs ids analytes h0 (merge_report st r).
Proof.
  unfold merge_report, analytes_of. generalize (LabReport.source_image_id r) as sid.
  intros sid Hsid. induction (LabReport.panels r) as [|p ps IH]; intros Hl st Hst;
    cbn [fold_left]; [exact Hst|].
  apply IH.
  - intros a Ha. apply Hl. cbn [flat_map]. apply in_or_app. right. exact Ha.
  - unfold merge_panel. apply merge_analytes_from; [exact Hsid | | exact Hst].
    intros a Ha. apply Hl. cbn [flat_map]. apply in_or_app. left. exact Ha.
Qed.

Lemma merge_reports_from (h0 : store) (rs : list (LabReport.t ref)) :
  (forall r, In r rs ->
     ids (LabReport.source_image_id r) /\
     forall a, In a (analytes_of r) ->
       analytes a /\ forall o, In o (LabAnalyte.observations a) -> refs o) ->
  forall st,
    state_from refs ids analytes h0 st ->
    state_from refs ids analytes h0 (fold_left merge_report rs st).
Proof.
  induction rs as [|r rs IH]; intros Hl st Hst; cbn [fold_left]; [exact Hst|].
  apply IH; [intros x Hx; apply Hl; right; exact Hx|].
  destruct (Hl r (or_introl eq_refl)) as [Hid Ha].
  apply merge_report_from; assumption.
Qed.
End ProvenanceFacts.

Section FrameFacts.
Import Py Objects Merge Invariants.

Lemma only_tag_refl (h : store) : only_tag h h.
Proof. intros l. destruct (h l). reflexivity. Qed.

Lemma only_tag_touched (sid : text) (h1 h2 h3 : store) :
  only_tag h1 h2 -> touched sid h2 h3 -> only_tag h1 h3.
Proof.
  intros H12 H23 l. destruct (H23 l) as [-> | ->]; [apply H12|].
  rewrite (H12 l). reflexivity.
Qed.

Lemma merge_report_touched (h : store) (m : merged_dict) (r : LabReport.t ref) :
  touched (LabReport.source_image_id r) h (fst (merge_report (h, m) r)).
Proof.
  pose proof (merge_panels_skeleton (LabReport.source_image_id r)
                (LabReport.panels r) h m) as H.
  cbv zeta in H. apply H.
Qed.

Lemma merge_reports_only_tag (rs : list (LabReport.t ref)) :
  forall h0 st, only_tag h0 (fst st) -> only_tag h0 (fst (fold_left merge_report rs st)).
Proof.
  induction rs as [|r rs IH]; intros h0 st H; cbn [fold_left]; [exact H|].
  apply IH. destruct st as [h m]. cbn [fst] in H.
  eapply only_tag_touched; [exact H | apply merge_report_touched].
Qed.

Lemma in_sorted_refs (h : store) (od : obs_dict) (l : ref) :
  In l (sorted_refs h od) -> exists k, In (k, l) od.
Proof.
  unfold sorted_refs, odict_values. intros H.
  apply (proj1 (sorted_in _ _ _ _)) in H. apply in_map_iff in H.
  destruct H as [[k l'] [E Hin]]. cbn in E. subst l'. exists k. exact Hin.
Qed.
End FrameFacts.

(** X19: [merge_reports] writes nothing but [source_image_id] fields, and
    only on observation objects that the reports hold; every merged analyte
    is an input analyte with its observations replaced, and each of its
    observations is an observation object of the input tagged with the image
    id of an input report. *)
Theorem X19_merge_provenance (h : Objects.store)
  (rs : list (LabReport.t Objects.ref)) :
  Invariants.only_tag h (fst (Merge.merge_reports h rs)) /\
  (forall l, ~ Invariants.input_ref rs l -> fst (Merge.merge_reports h rs) l = h l) /\
  (forall m, In m (snd (Merge.merge_reports h rs)) ->
     (exists a,
        Invariants.input_analyte rs a /\
        m = LabAnalyte.with_observations (LabAnalyte.observations m) a) /\
     (forall l, In l (LabAnalyte.observations m) ->
        Invariants.input_ref rs l /\
        Invariants.input_id rs
          (Observation.source_image_id (fst (Merge.merge_reports h rs) l)))).
Proof.
  rewrite merge_reports_eq. cbn [fst snd].
  pose proof (merge_reports_only_tag rs h (h, []) (only_tag_refl h)) as Htag.
  assert (Hfrom : Invariants.state_from (Invariants.input_ref rs)
                    (Invariants.input_id rs) (Invariants.input_analyte rs) h
                    (fold_left Merge.merge_report rs (h, []))).
  { apply merge_reports_from.
    - intros r Hr. split; [exists r; split; [exact Hr | reflexivity]|].
      intros a Ha. split; [exists r; split; assumption|].
      intros o Ho. exists a. split; [exists r; split; assumption | exact Ho].
    - split; [reflexivity | constructor]. }
  destruct (fold_left Merge.merge_report rs (h, [])) as [h' M].
  cbn [fst snd] in *. destruct Hfrom as [Hframe Hall].
  split; [exact Htag|]. split; [exact Hframe|].
  intros m Hm. apply in_assemble in Hm. destruct Hm as (K & t & od & Hin & ->).
  rewrite Forall_forall in Hall. destruct (Hall _ Hin) as [(a & Ha & Ht) Hod].
  cbn [fst snd] in Ht, Hod. subst t. split.
  - exists a. split; [exact Ha | reflexivity].
  - cbn [LabAnalyte.observations LabAnalyte.with_observations].
    intros l Hl. apply in_sorted_refs in Hl. destruct Hl as [k Hk].
    unfold Invariants.od_from in Hod. rewrite Forall_forall in Hod.
    apply (Hod _ Hk).
Qed.

Lemma X19_merge_provenance_witness :
  fst (Merge.merge_reports (store_of_list [plain_obs 1 140; plain_obs 2 141])
         [_make_report "img1" [sodium [0%nat]]]) 1%nat
  = store_of_list [plain_obs 1 140; plain_obs 2 141] 1%nat.
Proof.
  apply (X19_merge_provenance (store_of_list [plain_obs 1 140; plain_obs 2 141])
           [_make_report "img1" [sodium [0%nat]]]).
  intros (a & (r & Hr & Ha) & Hl).
  destruct Hr as [<- | []]. cbn in Ha. destruct Ha as [<- | []].
  cbn in Hl. destruct Hl as [E | []]. discriminate E.
Defined.

(** ** Post-processor: totality, flags, idempotence *)

Section PostprocessFacts.
Context {U : Py.UnicodeDB}.
Import Py Objects Postprocess Kept.

Lemma set_flag_computed_twice (f g : option Flag) (o : Observation.t) :
  Observation.set_flag_computed f (Observation.set_flag_computed g o)
  = Observation.set_flag_computed f o.
Proof. reflexivity. Qed.

(** The store after the loop over the observations of an analyte. *)
Lemma recompute_flags_at (rr : ReferenceRange.t) (key : text) (os : list ref) :
  forall h l,
    (In l os ->
     fold_left (recompute_flag rr key) os h l
     = Observation.set_flag_computed
         (Some (Flags.compute_flag (Observation.value (h l)) rr key)) (h l)) /\
    (~ In l os -> fold_left (recompute_flag rr key) os h l = h l).
Proof.
  induction os as [|o os IH]; intros h l; cbn [fold_left].
  - split; [intros [] | reflexivity].
  - destruct (IH (recompute_flag rr key h o) l) as [IHin IHout].
    assert (Hl : forall x, x <> o -> recompute_flag rr key h o x = h x).
    { intros x Hx. unfold recompute_flag, store_set.
      destruct (Nat.eqb x o) eqn:E; [apply Nat.eqb_eq in E; contradiction | reflexivity]. }
    assert (Ho : recompute_flag rr key h o o
                 = Observation.set_flag_computed
                     (Some (Flags.compute_flag (Observation.value (h o)) rr key)) (h o)).
    { unfold recompute_flag, store_set. rewrite Nat.eqb_refl. reflexivity. }
    split.
    + intros Hin. destruct (in_dec Nat.eq_dec l os) as [Hos | Hos].
      * rewrite (IHin Hos). destruct (Nat.eq_dec l o) as [-> | Hne].
        -- rewrite Ho. reflexivity.
        -- rewrite (Hl l Hne). reflexivity.
      * rewrite (IHout Hos). destruct Hin as [<- | Hin]; [exact Ho | contradiction].
    + intros Hout. rewrite IHout by (intro; apply Hout; right; assumption).
      apply Hl. intros ->. apply Hout. left. reflexivity.
Qed.

Lemma only_flag_refl (h : store) : only_flag h h.
Proof. intros l. destruct (h l). reflexivity. Qed.

Lemma only_flag_trans (h1 h2 h3 : store) :
  only_flag h1 h2 -> only_flag h2 h3 -> only_flag h1 h3.
Proof. intros H12 H23 l. rewrite (H23 l), (H12 l). reflexivity. Qed.

Lemma recompute_flags_only_flag (rr : ReferenceRange.t) (key : text)
  (os : list ref) (h : store) :
  only_flag h (fold_left (recompute_flag rr key) os h).
Proof.
  intros l. destruct (recompute_flags_at rr key os h l) as [Hin Hout].
  destruct (in_dec Nat.eq_dec l os) as [H | H].
  - rewrite (Hin H). reflexivity.
  - rewrite (Hout H). destruct (h l). reflexivity.
Qed.

(** [_normalize_analyte] returns, and what it returns. *)
Lemma normalize_analyte_ok (h : store) (a : LabAnalyte.t ref) :
  exists key dn uc rr,
    _normalize_analyte h a
    = Ok (fold_left (recompute_flag rr key) (LabAnalyte.observations a) h,
          LabAnalyte.mk (LabAnalyte.raw_name a) (LabAnalyte.raw_unit a)
            (LabAnalyte.raw_range_text a) key dn (LabAnalyte.unit a) uc rr
            (LabAnalyte.observations a)) /\
    key = (if negb (nonempty (LabAnalyte.analyte_key a))
              || text_eqb (LabAnalyte.analyte_key a) (LabAnalyte.raw_name a)
           then _normalize_analyte_key (LabAnalyte.raw_name a)
           else LabAnalyte.analyte_key a) /\
    dn = (if negb (nonempty (LabAnalyte.display_name a))
          then _make_display_name key else LabAnalyte.display_name a) /\
    uc = (if nonempty (LabAnalyte.unit a)
             && negb (nonempty (LabAnalyte.unit_canonical a))
          then Units.normalize_unit (LabAnalyte.unit a)
          else LabAnalyte.unit_canonical a) /\
    (if nonempty (LabAnalyte.raw_range_text a)
        && negb (ReferenceRange.is_bounded (LabAnalyte.ref_range a))
     then Reference.parse_reference_range (LabAnalyte.raw_range_text a)
     else Ok (LabAnalyte.ref_range a)) = Ok rr.
Proof.
  unfold _normalize_analyte.
  destruct (nonempty (LabAnalyte.raw_range_text a)
            && negb (ReferenceRange.is_bounded (LabAnalyte.ref_range a))).
  - destruct (parse_reference_range_spec (LabAnalyte.raw_range_text a))
      as (rr & -> & _).
    cbn [bind]. do 4 eexists. repeat split; reflexivity.
  - cbn [bind]. do 4 eexists. repeat split; reflexivity.
Qed.

(** A loop whose body always returns, returns; a relation between input and
    output of the body holds along the lists, and a preorder on stores that
    the body respects holds from start to end. *)
Lemma for_each_ok (A B : Type) (f : store -> A -> result exn (store * B))
  (R : A -> B -> Prop) (Q : store -> store -> Prop) :
  (forall h, Q h h) -> (forall h1 h2 h3, Q h1 h2 -> Q h2 h3 -> Q h1 h3) ->
  (forall h x, exists h' y, f h x = Ok (h', y) /\ R x y /\ Q h h') ->
  forall l h, exists h' l', for_each f h l = Ok (h', l') /\ Forall2 R l l' /\ Q h h'.
Proof.
  intros Hrefl Htrans Hf. induction l as [|x l IH]; intros h; cbn [for_each].
  - exists h, []. split; [reflexivity|]. split; [constructor | apply Hrefl].
  - destruct (Hf h x) as (h1 & y & -> & Hxy & Hq1). cbn [bind fst snd].
    destruct (IH h1) as (h2 & l' & -> & Hl & Hq2). cbn [bind fst snd].
    exists h2, (y :: l'). split; [reflexivity|].
    split; [constructor; assumption | eapply Htrans; eassumption].
Qed.

Lemma normalize_analyte_kept (h : store) (a : LabAnalyte.t ref) :
  exists h' a', _normalize_analyte h a = Ok (h', a') /\ analyte_kept a a' /\ only_flag h h'.
Proof.
  destruct (normalize_analyte_ok h a) as (key & dn & uc & rr & -> & _).
  do 2 eexists. split; [reflexivity|]. split.
  - repeat split.
  - apply recompute_flags_only_flag.
Qed.

Lemma postprocess_panel_kept (h : store) (p : LabPanel.t ref) :
  exists h' p', postprocess_panel h p = Ok (h', p') /\ panel_kept p p' /\ only_flag h h'.
Proof.
  unfold postprocess_panel.
  destruct (for_each_ok _ _ _normalize_analyte analyte_kept only_flag
              only_flag_refl only_flag_trans normalize_analyte_kept
              (LabPanel.results p) h) as (h' & l' & -> & Hl & Hq).
  cbn [bind fst snd]. do 2 eexists. split; [reflexivity|].
  split; [split; [reflexivity | exact Hl] | exact Hq].
Qed.

Lemma postprocess_report_kept (h : store) (r : LabReport.t ref) :
  exists h' r', postprocess_report h r = Ok (h', r') /\ report_kept r r' /\ only_flag h h'.
Proof.
  unfold postprocess_report.
  destruct (for_each_ok _ _ postprocess_panel panel_kept only_flag
              only_flag_refl only_flag_trans postprocess_panel_kept
              (LabReport.panels r) h) as (h' & l' & -> & Hl & Hq).
  cbn [bind fst snd]. do 2 eexists. split; [reflexivity|].
  split; [split; [reflexivity | exact Hl] | exact Hq].
Qed.

Lemma postprocess_reports_kept (h : store) (reports : list (LabReport.t ref)) :
  exists h' reports',
    postprocess_reports h reports = Ok (h', reports') /\
    Forall2 report_kept reports reports' /\ only_flag h h'.
Proof.
  unfold postprocess_reports.
  apply (for_each_ok _ _ postprocess_report report_kept only_flag
           only_flag_refl only_flag_trans postprocess_report_kept).
Qed.
End PostprocessFacts.

(** X20: [postprocess_reports] raises on no input.  It returns the reports
    with the same image ids, panel names and, analyte by analyte, the same
    raw name, raw unit, raw range text, unit and observation objects; in the
    store it writes [flag_computed] fields and nothing else. *)
Theorem X20_postprocess_total_and_keeps (U : Py.UnicodeDB) (h : Objects.store)
  (reports : list (LabReport.t Objects.ref)) :
  exists h' reports',
    Postprocess.postprocess_reports h reports = Py.Ok (h', reports') /\
    Forall2 Kept.report_kept reports reports' /\
    Kept.only_flag h h'.
Proof. apply postprocess_reports_kept. Qed.

(** X21: [_normalize_analyte] returns for every analyte; afterwards the
    computed flag of each of its observations is [compute_flag] of the
    observation's value under the range and the key that the returned
    analyte carries, and no other object of the store has changed. *)
Theorem X21_flags_recomputed (U : Py.UnicodeDB) (h : Objects.store)
  (a : LabAnalyte.t Objects.ref) :
  exists h' a',
    Postprocess._normalize_analyte h a = Py.Ok (h', a') /\
    (forall l, In l (LabAnalyte.observations a) ->
       h' l
       = Observation.set_flag_computed
           (Some (Flags.compute_flag (Observation.value (h l))
                    (LabAnalyte.ref_range a') (LabAnalyte.analyte_key a')))
           (h l)) /\
    (forall l, ~ In l (LabAnalyte.observations a) -> h' l = h l).
Proof.
  destruct (normalize_analyte_ok h a) as (key & dn & uc & rr & -> & _).
  do 2 eexists. split; [reflexivity|].
  cbn [LabAnalyte.ref_range LabAnalyte.analyte_key].
  split; intros l Hl; apply recompute_flags_at; exact Hl.
Qed.

Lemma X21_flags_recomputed_witness :
  exists h' a',
    Postprocess._normalize_analyte (U := Py.ascii_only) smoke_store smoke_sodium
    = Py.Ok (h', a') /\
    h' 0%nat
    = Observation.set_flag_computed
        (Some (Flags.compute_flag (Observation.value (smoke_store 0%nat))
                 (LabAnalyte.ref_range a') (LabAnalyte.analyte_key a')))
        (smoke_store 0%nat) /\
    h' 1%nat = smoke_store 1%nat.
Proof.
  destruct (X21_flags_recomputed Py.ascii_only smoke_store smoke_sodium)
    as (h' & a' & E & Hin & Hout).
  exists h', a'. split; [exact E|]. split.
  - apply Hin. left. reflexivity.
  - apply Hout. intros [H | []]. discriminate H.
Defined.

(** X22: [_normalize_analyte] is idempotent: run again on its own result it
    returns the same analyte and leaves every object of the store as it
    is. *)
Theorem X22_normalize_analyte_idempotent (U : Py.UnicodeDB) (h h1 : Objects.store)
  (a a1 : LabAnalyte.t Objects.ref) :
  Postprocess._normalize_analyte h a = Py.Ok (h1, a1) ->
  exists h2,
    Postprocess._normalize_analyte h1 a1 = Py.Ok (h2, a1) /\
    forall l, h2 l = h1 l.
Proof.
  intros H.
  destruct (normalize_analyte_ok h a) as (key & dn & uc & rr & E & Hkey & Hdn & Huc & Hrr).
  rewrite E in H. injection H as <- <-.
  destruct (normalize_analyte_ok
              (fold_left (Postprocess.recompute_flag rr key) (LabAnalyte.observations a) h)
              (LabAnalyte.mk (LabAnalyte.raw_name a) (LabAnalyte.raw_unit a)
                 (LabAnalyte.raw_range_text a) key dn (LabAnalyte.unit a) uc rr
                 (LabAnalyte.observations a)))
    as (key2 & dn2 & uc2 & rr2 & E2 & Hkey2 & Hdn2 & Huc2 & Hrr2).
  cbn [LabAnalyte.raw_name LabAnalyte.raw_unit LabAnalyte.raw_range_text
       LabAnalyte.analyte_key LabAnalyte.display_name LabAnalyte.unit
       LabAnalyte.unit_canonical LabAnalyte.ref_range LabAnalyte.observations] in *.
  assert (K : key2 = key).
  { rewrite Hkey2. destruct (negb (Postprocess.nonempty key) || Py.text_eqb key _) eqn:C;
      [|reflexivity].
    rewrite Hkey in *.
    destruct (negb (Postprocess.nonempty (LabAnalyte.analyte_key a))
              || Py.text_eqb (LabAnalyte.analyte_key a) (LabAnalyte.raw_name a)) eqn:C0;
      [reflexivity|].
    rewrite C in C0. discriminate C0. }
  clear Hkey2. subst key2.
  assert (D : dn2 = dn).
  { rewrite Hdn2. destruct (negb (Postprocess.nonempty dn)) eqn:C; [|reflexivity].
    rewrite Hdn in *.
    destruct (negb (Postprocess.nonempty (LabAnalyte.display_name a))) eqn:C0;
      [reflexivity|].
    rewrite C in C0. discriminate C0. }
  clear Hdn2. subst dn2.
  assert (N : uc2 = uc).
  { rewrite Huc2.
    destruct (Postprocess.nonempty (LabAnalyte.unit a) && negb (Postprocess.nonempty uc))
      eqn:C; [|reflexivity].
    rewrite Huc in *.
    destruct (Postprocess.nonempty (LabAnalyte.unit a)
              && negb (Postprocess.nonempty (LabAnalyte.unit_canonical a))) eqn:C0;
      [reflexivity|].
    rewrite C in C0. discriminate C0. }
  clear Huc2. subst uc2.
  assert (R : rr2 = rr).
  { destruct (Postprocess.nonempty (LabAnalyte.raw_range_text a)
              && negb (ReferenceRange.is_bounded rr)) eqn:C.
    - destruct (Postprocess.nonempty (LabAnalyte.raw_range_text a)
                && negb (ReferenceRange.is_bounded (LabAnalyte.ref_range a))) eqn:C0.
      + congruence.
      + injection Hrr as <-. rewrite C in C0. discriminate C0.
    - congruence. }
  subst rr2. eexists. split; [exact E2|].
  intros l.
  destruct (recompute_flags_at rr key (LabAnalyte.observations a)
              (fold_left (Postprocess.recompute_flag rr key)
                 (LabAnalyte.observations a) h) l) as [Hin Hout].
  destruct (in_dec Nat.eq_dec l (LabAnalyte.observations a)) as [Hl | Hl].
  - rewrite (Hin Hl).
    rewrite (proj1 (recompute_flags_at rr key (LabAnalyte.observations a) h l) Hl).
    reflexivity.
  - apply Hout, Hl.
Qed.

Lemma X22_normalize_analyte_idempotent_witness :
  exists h2,
    Postprocess._normalize_analyte (U := Py.ascii_only)
      (Postprocess.recompute_flag (ReferenceRange.mk (Some 136) (Some 145) [])
         (Py.str "sodium") (store_of_list [plain_obs 1 148]) 0%nat)
      (LabAnalyte.mk [] [] [] (Py.str "sodium") (Py.str "Sodium") []
         (Py.str "mmol/L") (ReferenceRange.mk (Some 136) (Some 145) []) [0%nat])
    = Py.Ok
        (h2,
         LabAnalyte.mk [] [] [] (Py.str "sodium") (Py.str "Sodium") []
           (Py.str "mmol/L") (ReferenceRange.mk (Some 136) (Some 145) []) [0%nat]) /\
    forall l,
      h2 l
      = Postprocess.recompute_flag (ReferenceRange.mk (Some 136) (Some 145) [])
          (Py.str "sodium") (store_of_list [plain_obs 1 148]) 0%nat l.
Proof.
  apply (X22_normalize_analyte_idempotent Py.ascii_only
           (store_of_list [plain_obs 1 148])
           (Postprocess.recompute_flag (ReferenceRange.mk (Some 136) (Some 145) [])
              (Py.str "sodium") (store_of_list [plain_obs 1 148]) 0%nat)
           (sodium [0%nat])).
  reflexivity.
Defined.

(** ** Image ingestion: detection, batches *)

Section ImageLoading.
Context {host : ImageIO.Host}.
Import Py ImageIO Loaded.

Lemma sniff_sound (magics : list (list N * text)) (data : list N) (m : text) :
  sniff magics data = Some m ->
  exists magic,
    In (magic, m) magics /\
    firstn (List.length magic) data = magic /\
    (m = str "image/webp" -> firstn 4 (skipn 8 data) = str "WEBP").
Proof.
  induction magics as [|[magic mime] rest IH]; cbn [sniff]; [discriminate|].
  destruct (starts_with magic data) eqn:S.
  - destruct (text_eqb mime (str "image/webp")
              && negb (text_eqb (firstn 4 (skipn 8 data)) (str "WEBP"))) eqn:W.
    + intros H. destruct (IH H) as (mg & Hin & Hrest). exists mg.
      split; [right; exact Hin | exact Hrest].
    + intros H. injection H as ->. exists magic. split; [left; reflexivity|].
      split; [apply text_eqb_eq, S|].
      intros ->. rewrite text_eqb_refl in W. cbn [andb] in W.
      apply negb_false_iff in W. apply text_eqb_eq, W.
  - intros H. destruct (IH H) as (mg & Hin & Hrest). exists mg.
    split; [right; exact Hin | exact Hrest].
Qed.

Lemma magic_types_supported :
  Forall (fun e => supported (Some (snd e)) = true) _MAGIC.
Proof. repeat constructor. Qed.

Lemma map_result_ok (E A B : Type) (f : A -> result E B) (l : list A) (l' : list B) :
  map_result f l = Ok l' -> Forall2 (fun x y => f x = Ok y) l l'.
Proof.
  revert l'. induction l as [|x l IH]; intros l'; cbn [map_result].
  - intros H. injection H as <-. constructor.
  - destruct (f x) as [y|e] eqn:Ex; cbn [bind]; [|discriminate].
    destruct (map_result f l) as [ys|e] eqn:El; cbn [bind]; [|discriminate].
    intros H. injection H as <-. constructor; [exact Ex | apply IH; reflexivity].
Qed.

Lemma map_result_first_failure (E A B : Type) (f : A -> result E B)
  (l1 l2 : list A) (x : A) (e : E) :
  Forall (fun q => exists y, f q = Ok y) l1 -> f x = Raise e ->
  map_result f (l1 ++ x :: l2) = Raise e.
Proof.
  intros H Hx. induction H as [|q l1 [y Hq] _ IH]; cbn [app map_result].
  - rewrite Hx. reflexivity.
  - rewrite Hq. cbn [bind]. rewrite IH. reflexivity.
Qed.

Lemma load_image_ok (path : text) (max_mb : float) (img : PreparedImage) :
  load_image path max_mb = Ok img -> prepared_from max_mb path img.
Proof.
  unfold load_image, prepared_from, detected_mime, size_mb.
  destruct (is_file path); cbn [negb]; [|discriminate].
  destruct (fgt _ max_mb) eqn:S; [discriminate|].
  apply flt_false_iff in S.
  destruct (match _sniff_mime (read_bytes path) with
            | Some m => Some m
            | None => guess_type path
            end) as [m|]; [|discriminate].
  destruct (supported (Some m)) eqn:P; [|discriminate].
  intros H. injection H as <-. cbn [media_type]. repeat split; assumption.
Qed.
End ImageLoading.

(** X23: when [_sniff_mime] names a type, the data start with one of the
    magic signatures of that type, the type is one of the supported types,
    and a RIFF container is taken for WebP only if bytes 8 to 11 spell
    WEBP. *)
Theorem X23_sniff_mime_sound (data : list N) (m : Py.text) :
  ImageIO._sniff_mime data = Some m ->
  ImageIO.supported (Some m) = true /\
  exists magic,
    In (magic, m) ImageIO._MAGIC /\
    firstn (List.length magic) data = magic /\
    (m = Py.str "image/webp" -> firstn 4 (skipn 8 data) = Py.str "WEBP").
Proof.
  intros H. destruct (sniff_sound _ _ _ H) as (magic & Hin & Hrest).
  split; [|exists magic; split; assumption].
  pose proof magic_types_supported as F. rewrite Forall_forall in F.
  apply (F _ Hin).
Qed.

Lemma X23_sniff_mime_sound_witness :
  ImageIO.supported (Some (Py.str "image/webp")) = true /\
  exists magic,
    In (magic, Py.str "image/webp") ImageIO._MAGIC /\
    firstn (List.length magic) (Py.str "RIFF....WEBPVP8 ") = magic /\
    (Py.str "image/webp" = Py.str "image/webp" ->
     firstn 4 (skipn 8 (Py.str "RIFF....WEBPVP8 ")) = Py.str "WEBP").
Proof.
  apply (X23_sniff_mime_sound (Py.str "RIFF....WEBPVP8 ") (Py.str "image/webp")).
  reflexivity.
Defined.

(** X24: when [load_images] returns, it returns one image per path, in the
    order of the paths, for at least one and at most [max_images] paths;
    each path is a file within the size limit (the limit included) whose
    detected type, magic bytes before extension, is supported, and the image
    carries that type with the digest, the encoding and the name of the
    file. *)
Theorem X24_load_images_success (host : ImageIO.Host) (paths : list Py.text)
  (max_images : Z) (max_mb : Py.float) (imgs : list ImageIO.PreparedImage) :
  ImageIO.load_images paths max_images max_mb = Py.Ok imgs ->
  (1 <= List.length paths)%nat /\
  (Z.of_nat (List.length paths) <= max_images)%Z /\
  Forall2 (Loaded.prepared_from max_mb) paths imgs.
Proof.
  unfold ImageIO.load_images.
  destruct (Z.gtb (Z.of_nat (List.length paths)) max_images) eqn:G; [discriminate|].
  rewrite Z.gtb_ltb in G. apply Z.ltb_ge in G.
  destruct paths as [|p ps] eqn:E; [discriminate|]. rewrite <- E in *.
  intros H. split; [rewrite E; cbn; lia|]. split; [exact G|].
  apply map_result_ok in H.
  eapply Forall2_impl; [|exact H]. intros x y. apply load_image_ok.
Qed.

Lemma X24_load_images_success_witness :
  (1 <= List.length [Py.str "scan.txt"])%nat /\
  (Z.of_nat (List.length [Py.str "scan.txt"]) <= 10)%Z /\
  Forall2 (Loaded.prepared_from (host := Loaded.one_jpeg) 12) [Py.str "scan.txt"]
    [ImageIO.mkPreparedImage (Py.str "digest") (Py.str "image/jpeg")
       (Py.str "/9j/4AAQ") (Py.str "scan.txt")].
Proof.
  apply (X24_load_images_success Loaded.one_jpeg [Py.str "scan.txt"] 10 12).
  reflexivity.
Defined.

(** X25: [load_images] stops at the first path that [load_image] rejects
    and raises that path's error, whatever the later paths are; the count
    check comes before any file is looked at. *)
Theorem X25_load_images_first_failure (host : ImageIO.Host)
  (ps1 ps2 : list Py.text) (p : Py.text) (max_images : Z) (max_mb : Py.float)
  (e : ImageIO.ImageValidationError) :
  (Z.of_nat (List.length (ps1 ++ p :: ps2)) <= max_images)%Z ->
  Forall (fun q => exists img, ImageIO.load_image q max_mb = Py.Ok img) ps1 ->
  ImageIO.load_image p max_mb = Py.Raise e ->
  ImageIO.load_images (ps1 ++ p :: ps2) max_images max_mb = Py.Raise e.
Proof.
  intros Hn H1 Hp. unfold ImageIO.load_images.
  assert (G : Z.gtb (Z.of_nat (List.length (ps1 ++ p :: ps2))) max_images = false).
  { rewrite Z.gtb_ltb. apply Z.ltb_ge. exact Hn. }
  rewrite G. destruct (ps1 ++ p :: ps2) as [|q qs] eqn:E.
  - destruct ps1; discriminate E.
  - rewrite <- E. apply map_result_first_failure; assumption.
Qed.

Lemma X25_load_images_first_failure_witness :
  ImageIO.load_images (host := Loaded.one_jpeg)
    ([Py.str "scan.txt"] ++ Py.str "missing.png" :: [Py.str "scan.txt"]) 10 12
  = Py.Raise (ImageIO.File_not_found (Py.str "missing.png")).
Proof.
  apply (X25_load_images_first_failure Loaded.one_jpeg
           [Py.str "scan.txt"] [Py.str "scan.txt"] (Py.str "missing.png") 10 12).
  - cbn. lia.
  - constructor; [eexists; reflexivity | constructor].
  - reflexivity.
Defined.

(** ** Orchestrator: what a run returns *)

Section PipelineFacts.
Context {U : Py.UnicodeDB} {host : ImageIO.Host} {providers : Orchestrator.Providers}.
Import Py Objects Orchestrator.

Lemma extract_all_length (images : list ImageIO.PreparedImage) :
  forall h h' reps,
    _extract_all h images = Ok (h', reps) -> List.length reps = List.length images.
Proof.
  induction images as [|img images IH]; intros h h' reps; cbn [_extract_all].
  - intros H. injection H as <- <-. reflexivity.
  - destruct (extract h img) as [[h1 r]|e]; cbn [bind fst snd]; [|discriminate].
    destruct (_extract_all h1 images) as [[h2 rs]|e] eqn:E; cbn [bind fst snd];
      [|discriminate].
    intros H. injection H as <- <-. cbn. f_equal. eapply IH, E.
Qed.

Lemma load_images_length (paths : list text) (max_images : Z) (max_mb : float)
  (imgs : list ImageIO.PreparedImage) :
  ImageIO.load_images paths max_images max_mb = Ok imgs ->
  List.length imgs = List.length paths.
Proof.
  unfold ImageIO.load_images. destruct (Z.gtb _ max_images); [discriminate|].
  destruct paths as [|p ps] eqn:E; [discriminate|]. rewrite <- E.
  intros H. apply map_result_ok in H. symmetry. eapply Forall2_length, H.
Qed.

Lemma postprocess_reports_length (h h' : store) (rs rs' : list (LabReport.t ref)) :
  Postprocess.postprocess_reports h rs = Ok (h', rs') ->
  List.length rs' = List.length rs.
Proof.
  destruct (postprocess_reports_kept h rs) as (h2 & rs2 & -> & Hk & _).
  intros H. injection H as <- <-. symmetry. eapply Forall2_length, Hk.
Qed.

(** The analysis that the pure stages build from post-processed reports. *)
Lemma run_full_pipeline_eq (h : store) (image_paths : list text) (s : Settings)
  (es : option bool) :
  run_full_pipeline h image_paths s es
  = bind (run_extract_only h image_paths s) (fun hr =>
    if match es with Some b => b | None => enable_summary s end
    then
      bind (summarize (fst (Merge.merge_reports (fst hr) (snd hr)))
              (mkAnalysisReport (snd hr)
                 (snd (Merge.merge_reports (fst hr) (snd hr)))
                 (Severity.sort_trends_by_severity
                    (List.map
                       (fun a =>
                          Trends.compute_trend
                            (deref_analyte (fst (Merge.merge_reports (fst hr) (snd hr))) a))
                       (snd (Merge.merge_reports (fst hr) (snd hr)))))
                 (filter is_critical
                    (Severity.sort_trends_by_severity
                       (List.map
                          (fun a =>
                             Trends.compute_trend
                               (deref_analyte
                                  (fst (Merge.merge_reports (fst hr) (snd hr))) a))
                          (snd (Merge.merge_reports (fst hr) (snd hr))))))
                 []))
        (fun text =>
           Ok (fst (Merge.merge_reports (fst hr) (snd hr)),
               mkAnalysisReport (snd hr)
                 (snd (Merge.merge_reports (fst hr) (snd hr)))
                 (Severity.sort_trends_by_severity
                    (List.map
                       (fun a =>
                          Trends.compute_trend
                            (deref_analyte (fst (Merge.merge_reports (fst hr) (snd hr))) a))
                       (snd (Merge.merge_reports (fst hr) (snd hr)))))
                 (filter is_critical
                    (Severity.sort_trends_by_severity
                       (List.map
                          (fun a =>
                             Trends.compute_trend
                               (deref_analyte
                                  (fst (Merge.merge_reports (fst hr) (snd hr))) a))
                          (snd (Merge.merge_reports (fst hr) (snd hr))))))
                 text))
    else
      Ok (fst (Merge.merge_reports (fst hr) (snd hr)),
          mkAnalysisReport (snd hr)
            (snd (Merge.merge_reports (fst hr) (snd hr)))
            (Severity.sort_trends_by_severity
               (List.map
                  (fun a =>
                     Trends.compute_trend
                       (deref_analyte (fst (Merge.merge_reports (fst hr) (snd hr))) a))
                  (snd (Merge.merge_reports (fst hr) (snd hr)))))
            (filter is_critical
               (Severity.sort_trends_by_severity
                  (List.map
                     (fun a =>
                        Trends.compute_trend
                          (deref_analyte (fst (Merge.merge_reports (fst hr) (snd hr))) a))
                     (snd (Merge.merge_reports (fst hr) (snd hr))))))
            [])).
Proof.
  unfold run_full_pipeline, run_extract_only.
  destruct (lift_validation _) as [imgs|e]; cbn [bind]; [|reflexivity].
  destruct (_extract_all h imgs) as [[h1 reps]|e]; cbn [bind fst snd]; [|reflexivity].
  destruct (lift_analysis _) as [[h2 reps2]|e]; cbn [bind fst snd]; [|reflexivity].
  destruct (Merge.merge_reports h2 reps2) as [h3 merged]. cbn [fst snd].
  reflexivity.
Qed.

Lemma run_extract_only_length (h h1 : store) (image_paths : list text)
  (s : Settings) (reps : list (LabReport.t ref)) :
  run_extract_only h image_paths s = Ok (h1, reps) ->
  List.length reps = List.length image_paths.
Proof.
  unfold run_extract_only.
  destruct (ImageIO.load_images image_paths (max_images s) (max_image_mb s))
    as [imgs|e] eqn:L; cbn [lift_validation bind]; [|discriminate].
  destruct (_extract_all h imgs) as [[h0 reps0]|e] eqn:X; cbn [bind fst snd];
    [|discriminate].
  destruct (Postprocess.postprocess_reports h0 reps0) as [[h2 reps2]|e] eqn:P;
    cbn [lift_analysis]; [|discriminate].
  intros H. injection H as <- <-.
  rewrite (postprocess_reports_length _ _ _ _ P), (extract_all_length _ _ _ _ X).
  apply (load_images_length _ _ _ _ L).
Qed.

Lemma sort_trends_sorted (ts : list LabTrend.t) :
  StronglySorted (fun a b => by_score a b = true) (Severity.sort_trends_by_severity ts).
Proof.
  unfold Severity.sort_trends_by_severity.
  apply (sorted_sorted _ by_score by_score_total by_score_trans).
Qed.

Lemma sort_trends_perm (ts : list LabTrend.t) :
  Permutation (Severity.sort_trends_by_severity ts) (List.map rescored ts).
Proof. unfold Severity.sort_trends_by_severity. apply sorted_perm. Qed.
End PipelineFacts.

(** X26: when [run_full_pipeline] returns an analysis, it holds one report
    per image path; its trends are the trends of the merged analytes as the
    final store shows them, each scored by [compute_severity], in descending
    order of score; its critical flags are exactly the trends with a critical
    latest flag, in the same order; and the summary is empty when the summary
    is disabled. *)
Theorem X26_pipeline_result_shape (U : Py.UnicodeDB) (host : ImageIO.Host)
  (providers : Orchestrator.Providers) (h h' : Objects.store)
  (image_paths : list Py.text) (s : Orchestrator.Settings) (es : option bool)
  (r : Orchestrator.AnalysisReport) :
  Orchestrator.run_full_pipeline h image_paths s es = Py.Ok (h', r) ->
  List.length (Orchestrator.reports r) = List.length image_paths /\
  Permutation (Orchestrator.trends r)
    (List.map
       (fun a => rescored (Trends.compute_trend (Objects.deref_analyte h' a)))
       (Orchestrator.merged_timeline r)) /\
  StronglySorted (fun a b => by_score a b = true) (Orchestrator.trends r) /\
  Orchestrator.critical_flags r
  = filter Orchestrator.is_critical (Orchestrator.trends r) /\
  ((match es with Some b => b | None => Orchestrator.enable_summary s end) = false ->
   Orchestrator.summary r = []).
Proof.
  rewrite run_full_pipeline_eq.
  destruct (Orchestrator.run_extract_only h image_paths s) as [[h1 reps]|e] eqn:X;
    cbn [Py.bind fst snd]; [|discriminate].
  pose proof (run_extract_only_length _ _ _ _ _ X) as Hlen.
  destruct (match es with Some b => b | None => Orchestrator.enable_summary s end).
  - destruct (Orchestrator.summarize _ _) as [text|e]; cbn [Py.bind]; [|discriminate].
    intros H. injection H as <- <-.
    cbn [Orchestrator.reports Orchestrator.trends Orchestrator.merged_timeline
         Orchestrator.critical_flags Orchestrator.summary].
    split; [exact Hlen|]. split.
    { eapply perm_trans; [apply sort_trends_perm|]. rewrite map_map. apply Permutation_refl. }
    split; [apply sort_trends_sorted|]. split; [reflexivity | discriminate].
  - intros H. injection H as <- <-.
    cbn [Orchestrator.reports Orchestrator.trends Orchestrator.merged_timeline
         Orchestrator.critical_flags Orchestrator.summary].
    split; [exact Hlen|]. split.
    { eapply perm_trans; [apply sort_trends_perm|]. rewrite map_map. apply Permutation_refl. }
    split; [apply sort_trends_sorted|]. split; reflexivity.
Qed.

Lemma X26_pipeline_result_shape_witness :
  exists h' r,
    Orchestrator.run_full_pipeline (U := Py.ascii_only) (host := Loaded.one_jpeg)
      (providers := Mock.canned) smoke_store [Py.str "scan.txt"] Mock.settings
      (Some false)
    = Py.Ok (h', r) /\
    (List.length (Orchestrator.reports r) = List.length [Py.str "scan.txt"] /\
     Permutation (Orchestrator.trends r)
       (List.map
          (fun a => rescored (Trends.compute_trend (Objects.deref_analyte h' a)))
          (Orchestrator.merged_timeline r)) /\
     StronglySorted (fun a b => by_score a b = true) (Orchestrator.trends r) /\
     Orchestrator.critical_flags r
     = filter Orchestrator.is_critical (Orchestrator.trends r) /\
     (false = false -> Orchestrator.summary r = [])).
Proof.
  do 2 eexists. split; [reflexivity|].
  apply (X26_pipeline_result_shape Py.ascii_only Loaded.one_jpeg Mock.canned
           smoke_store _ [Py.str "scan.txt"] Mock.settings (Some false) _).
  reflexivity.
Defined.

(** X27: [run_extract_only] is the first half of [run_full_pipeline]: the
    pipeline fails wherever extraction fails, with the same failure; when
    extraction returns and the summary is disabled the pipeline returns,
    with the extracted reports and their merge; and with the summary enabled
    its only further way to fail is the summarizer. *)
Theorem X27_extract_only_is_pipeline_prefix (U : Py.UnicodeDB) (host : ImageIO.Host)
  (providers : Orchestrator.Providers) (h : Objects.store)
  (image_paths : list Py.text) (s : Orchestrator.Settings) (es : option bool) :
  (forall e,
     Orchestrator.run_extract_only h image_paths s = Py.Raise e ->
     Orchestrator.run_full_pipeline h image_paths s es = Py.Raise e) /\
  (forall h1 reps,
     Orchestrator.run_extract_only h image_paths s = Py.Ok (h1, reps) ->
     ((match es with Some b => b | None => Orchestrator.enable_summary s end) = false ->
      exists r,
        Orchestrator.run_full_pipeline h image_paths s es
        = Py.Ok (fst (Merge.merge_reports h1 reps), r) /\
        Orchestrator.reports r = reps /\
        Orchestrator.merged_timeline r = snd (Merge.merge_reports h1 reps)) /\
     (forall e,
        Orchestrator.run_full_pipeline h image_paths s es = Py.Raise e ->
        (match es with Some b => b | None => Orchestrator.enable_summary s end) = true /\
        exists a,
          Orchestrator.summarize (fst (Merge.merge_reports h1 reps)) a = Py.Raise e)).
Proof.
  rewrite run_full_pipeline_eq. split.
  - intros e ->. reflexivity.
  - intros h1 reps ->. cbn [Py.bind fst snd].
    destruct (match es with Some b => b | None => Orchestrator.enable_summary s end).
    + split; [discriminate|]. intros e.
      destruct (Orchestrator.summarize _ _) as [text|e'] eqn:E; cbn [Py.bind];
        [discriminate|].
      intros H. injection H as <-. split; [reflexivity|]. eexists. exact E.
    + split; [|discriminate]. intros _. eexists. split; [reflexivity|].
      split; reflexivity.
Qed.

Lemma X27_extract_only_is_pipeline_prefix_witness :
  Orchestrator.run_full_pipeline (U := Py.ascii_only) (host := Loaded.one_jpeg)
    (providers := no_providers) smoke_store [Py.str "scan.txt"] Mock.settings None
  = Py.Raise (Orchestrator.Provider (Py.str "offline")).
Proof.
  apply (X27_extract_only_is_pipeline_prefix Py.ascii_only Loaded.one_jpeg no_providers
           smoke_store [Py.str "scan.txt"] Mock.settings None).
  reflexivity.
Defined.

(** ** Bounded concurrency: order and first failure *)

Section ConcurrencyFacts.
Import Py Concurrency.
Variables E T : Type.

Lemma set_item_app (A : Type) (pre post : list A) (x v : A) :
  set_item (pre ++ x :: post) (List.length pre) v = Some (pre ++ v :: post).
Proof.
  induction pre as [|p pre IH]; cbn; [reflexivity|]. rewrite IH. reflexivity.
Qed.

(** The loop fills the slots of the tasks one after the other. *)
Lemma collect_enumerated (tasks : list (result E T)) :
  forall (pre post : list (option T)),
    List.length post = List.length tasks ->
    collect (pre ++ post)
      (List.map (fun it => _guarded (fst it) (snd it))
         (enumerate_from (List.length pre) tasks))
    = match map_result (fun t => t) tasks with
      | Ok vs => Ok (pre ++ List.map Some vs)
      | Raise e => Raise (Task e)
      end.
Proof.
  induction tasks as [|t tasks IH]; intros pre post Hlen.
  - destruct post; [|discriminate Hlen]. reflexivity.
  - destruct post as [|p post]; [discriminate Hlen|].
    cbn [enumerate_from List.map fst snd map_result].
    destruct t as [v|e]; cbn [_guarded collect bind]; [|reflexivity].
    rewrite set_item_app.
    change (pre ++ Some v :: post) with (pre ++ [Some v] ++ post).
    rewrite app_assoc.
    replace (S (List.length pre)) with (List.length (pre ++ [Some v]))
      by (rewrite length_app; cbn; lia).
    rewrite IH by (cbn in Hlen; lia).
    destruct (map_result (fun t => t) tasks) as [vs|e]; cbn [bind]; [|reflexivity].
    rewrite <- app_assoc. reflexivity.
Qed.
End ConcurrencyFacts.

(** X28: with at least one slot, [run_concurrently] returns the values of
    the tasks in the order of the tasks, one per task, when every task
    returns; otherwise it raises the exception of the first failing task in
    task order, whichever task failed first in time.  The number of slots
    does not change the result, and no list assignment is out of range. *)
Theorem X28_run_concurrently_in_order (E T : Type) (tasks : list (Py.result E T))
  (max_concurrent : Z) :
  (1 <= max_concurrent)%Z ->
  Concurrency.run_concurrently tasks max_concurrent
  = match Py.map_result (fun t => t) tasks with
    | Py.Ok vs => Concurrency.Returns (List.map Some vs)
    | Py.Raise e => Concurrency.Raises (Concurrency.Task e)
    end.
Proof.
  intros Hmc. unfold Concurrency.run_concurrently.
  assert (L : Z.ltb max_concurrent 0 = false) by (apply Z.ltb_ge; lia).
  assert (Z0 : Z.eqb max_concurrent 0 = false) by (apply Z.eqb_neq; lia).
  rewrite L. cbv zeta.
  pose proof (collect_enumerated E T tasks [] (repeat None (List.length tasks))
                (repeat_length _ _)) as H.
  cbn [app List.length] in H.
  destruct tasks as [|t tasks]; [reflexivity|].
  destruct (List.map _ (Concurrency.enumerate_from 0 (t :: tasks))) eqn:C;
    [discriminate C|].
  rewrite Z0, H.
  destruct (Py.map_result (fun t => t) (t :: tasks)); reflexivity.
Qed.

Lemma X28_run_concurrently_in_order_witness :
  Concurrency.run_concurrently
    [Py.Ok 1%nat; Py.Raise (Py.str "second"); Py.Ok 3%nat; Py.Raise (Py.str "fourth")] 2
  = Concurrency.Raises (Concurrency.Task (Py.str "second")) /\
  Concurrency.run_concurrently (E := Py.text) [Py.Ok 1%nat; Py.Ok 2%nat; Py.Ok 3%nat] 1
  = Concurrency.Returns [Some 1%nat; Some 2%nat; Some 3%nat].
Proof.
  split.
  - apply (X28_run_concurrently_in_order Py.text nat
             [Py.Ok 1%nat; Py.Raise (Py.str "second"); Py.Ok 3%nat;
              Py.Raise (Py.str "fourth")] 2).
    lia.
  - apply (X28_run_concurrently_in_order Py.text nat
             [Py.Ok 1%nat; Py.Ok 2%nat; Py.Ok 3%nat] 1).
    lia.
Defined.

(** ** Reference-range parser: what a plain range parses to *)

Section MatcherForward.
Context {U : Py.UnicodeDB}.
Import Py Re Reference.
Local Open Scope nat_scope.

(** A greedy repetition takes every character of its class when what
    follows lets the match go on. *)
Lemma star_match_greedy {A} (p : N -> bool) (ds : text) :
  forall (rest : text) (pos : nat) (c : caps) (k : cont A) (r : A),
    Forall (fun x => p x = true) ds ->
    (rest = [] \/ exists y rest', rest = y :: rest' /\ p y = false) ->
    k (pos + List.length ds) rest c = Some r ->
    star_match p pos (ds ++ rest) c k = Some r.
Proof.
  induction ds as [|x ds IH]; intros rest pos c k r Hds Hrest Hk.
  - cbn [app List.length] in *. rewrite Nat.add_0_r in Hk.
    destruct Hrest as [-> | (y & rest' & -> & Hy)]; cbn [star_match].
    + exact Hk.
    + rewrite Hy. exact Hk.
  - inversion Hds as [|? ? Hx Hds']; subst. cbn [app star_match]. rewrite Hx.
    rewrite (IH rest (S pos) c k r); [reflexivity | exact Hds' | exact Hrest |].
    cbn [List.length] in Hk. rewrite Nat.add_succ_r in Hk. exact Hk.
Qed.

Lemma mtch_star_forward {A} (p : N -> bool) (ds rest : text) (pos : nat) (c : caps)
  (k : cont A) (r : A) :
  Forall (fun x => p x = true) ds ->
  (rest = [] \/ exists y rest', rest = y :: rest' /\ p y = false) ->
  k (pos + List.length ds) rest c = Some r ->
  mtch (Star p) pos (ds ++ rest) c k = Some r.
Proof. apply star_match_greedy. Qed.

Lemma mtch_opt_chr_hit {A} (p : N -> bool) (x : N) (s : text) (pos : nat)
  (c : caps) (k : cont A) (r : A) :
  p x = true -> k (S pos) s c = Some r ->
  mtch (Opt (Chr p)) pos (x :: s) c k = Some r.
Proof. intros Hp Hk. cbn [mtch]. rewrite Hp, Hk. reflexivity. Qed.

Lemma mtch_opt_chr_miss {A} (p : N -> bool) (x : N) (s : text) (pos : nat)
  (c : caps) (k : cont A) (r : A) :
  p x = false -> k pos (x :: s) c = Some r ->
  mtch (Opt (Chr p)) pos (x :: s) c k = Some r.
Proof. intros Hp Hk. cbn [mtch]. rewrite Hp. exact Hk. Qed.

Lemma mtch_digits_forward {A} (d : N) (ds rest : text) (pos : nat) (c : caps)
  (k : cont A) (r : A) :
  isdigit d = true -> all_digits ds ->
  (rest = [] \/ exists y rest', rest = y :: rest' /\ isdigit y = false) ->
  k (pos + List.length (d :: ds)) rest c = Some r ->
  mtch (Plus isdigit) pos ((d :: ds) ++ rest) c k = Some r.
Proof.
  intros Hd Hds Hrest Hk. unfold Plus. cbn [mtch app]. rewrite Hd.
  apply star_match_greedy; [exact Hds | exact Hrest |].
  cbn [List.length] in Hk. rewrite Nat.add_succ_r in Hk. exact Hk.
Qed.

Lemma lang_NUM_inv (n : text) :
  lang _NUM n ->
  exists sg d ds fr,
    n = sg ++ (d :: ds) ++ fr /\
    (sg = [] \/ sg = [43%N] \/ sg = [45%N]) /\
    isdigit d = true /\ all_digits ds /\
    (fr = [] \/
     exists e es, fr = 46%N :: e :: es /\ isdigit e = true /\ all_digits es).
Proof.
  unfold _NUM, seq_of. intro H.
  inversion H as [| |r1 r2 sg body Hsg Hbody| | | | | | | |]; subst; clear H.
  inversion Hbody as [| |r1 r2 ip frac Hip Hfrac| | | | | | | |]; subst; clear Hbody.
  apply lang_Plus_inv in Hip. destruct Hip as (d & ds & -> & Hd & Hds).
  exists sg, d, ds, frac. split; [reflexivity|]. split; [|split; [exact Hd|split; [exact Hds|]]].
  - inversion Hsg as [| | | | |r t' Hin|r| | | |]; subst; [|auto].
    inversion Hin as [|p x Hx| | | | | | | | |]; subst.
    apply one_of_in in Hx. destruct Hx as [<- | [<- | []]]; auto.
  - inversion Hfrac as [| | | | |r t' Hin|r| | | |]; subst; [|auto].
    inversion Hin as [| |r1 r2 dot fp Hdot Hfp| | | | | | | |]; subst.
    inversion Hdot as [|p x Hx| | | | | | | | |]; subst.
    apply one_of_in in Hx. destruct Hx as [<- | []].
    apply lang_Plus_inv in Hfp. destruct Hfp as (e & es & -> & He & Hes).
    right. exists e, es. auto.
Qed.

(** The number pattern takes the whole of a number that is followed by
    neither a digit nor a point. *)
Lemma mtch_NUM_forward {A} (n rest : text) (pos : nat) (c : caps) (k : cont A) (r : A) :
  lang _NUM n ->
  (rest = [] \/
   exists y rest', rest = y :: rest' /\ isdigit y = false /\ y <> 46%N) ->
  k (pos + List.length n) rest c = Some r ->
  mtch _NUM pos (n ++ rest) c k = Some r.
Proof.
  intros Hn Hrest Hk.
  destruct (lang_NUM_inv n Hn) as (sg & d & ds & fr & -> & Hsg & Hd & Hds & Hfr).
  assert (Hdigit_stop : rest = [] \/ exists y rest', rest = y :: rest' /\ isdigit y = false).
  { destruct Hrest as [-> | (y & rest' & -> & Hy & _)]; [auto|]. right. eauto. }
  (* the fraction, or none *)
  assert (Hfrac : forall pos',
             pos' + List.length fr = pos + List.length (sg ++ (d :: ds) ++ fr) ->
             mtch (Opt (Seq (Chr (one_of [46%N])) (Plus isdigit))) pos' (fr ++ rest) c k
             = Some r).
  { intros pos' Hpos. rewrite <- Hpos in Hk. cbn [mtch].
    destruct Hfr as [-> | (e & es & -> & He & Hes)].
    - cbn [app List.length] in *. rewrite Nat.add_0_r in Hk.
      destruct Hrest as [-> | (y & rest' & -> & _ & Hy)].
      + exact Hk.
      + assert (E : one_of [46%N] y = false).
        { unfold one_of. cbn [existsb]. apply N.eqb_neq in Hy. rewrite Hy. reflexivity. }
        rewrite E. exact Hk.
    - change ((46%N :: e :: es) ++ rest) with (46%N :: ((e :: es) ++ rest)).
      change (one_of [46%N] 46%N) with true. cbv iota.
      rewrite (mtch_digits_forward e es rest (S pos') c k r He Hes Hdigit_stop);
        [reflexivity|].
      cbn [List.length] in *. rewrite <- Hk. f_equal. lia. }
  (* the digits *)
  assert (Hint : forall pos',
             pos' + List.length ((d :: ds) ++ fr) = pos + List.length (sg ++ (d :: ds) ++ fr) ->
             mtch (Seq (Plus isdigit) (Opt (Seq (Chr (one_of [46%N])) (Plus isdigit))))
               pos' (((d :: ds) ++ fr) ++ rest) c k
             = Some r).
  { intros pos' Hpos. cbn [mtch]. rewrite <- app_assoc.
    apply mtch_digits_forward; [exact Hd | exact Hds | |].
    - destruct Hfr as [-> | (e & es & -> & _)]; [exact Hdigit_stop|].
      right. exists 46%N, ((e :: es) ++ rest). split; [reflexivity | apply isdigit_dot].
    - apply Hfrac. rewrite length_app in Hpos. lia. }
  unfold _NUM, seq_of. rewrite <- app_assoc.
  change (mtch (Opt (Chr (one_of [43%N; 45%N]))) pos (sg ++ ((d :: ds) ++ fr) ++ rest) c
            (fun pos' s' c' =>
               mtch (Seq (Plus isdigit) (Opt (Seq (Chr (one_of [46%N])) (Plus isdigit))))
                 pos' s' c' k)
          = Some r).
  destruct Hsg as [-> | [-> | ->]].
  - cbn [app]. destruct (digit_not_sign d Hd) as [E45 E43].
    apply mtch_opt_chr_miss.
    + unfold one_of. cbn [existsb]. rewrite E43, E45. reflexivity.
    + apply (Hint pos). reflexivity.
  - apply mtch_opt_chr_hit; [reflexivity|].
    apply (Hint (S pos)). cbn [app List.length]. lia.
  - apply mtch_opt_chr_hit; [reflexivity|].
    apply (Hint (S pos)). cbn [app List.length]. lia.
Qed.

Lemma mtch_group_NUM_forward {A} (name : string) (n rest : text) (pos : nat)
  (c : caps) (k : cont A) (r : A) :
  lang _NUM n ->
  (rest = [] \/
   exists y rest', rest = y :: rest' /\ isdigit y = false /\ y <> 46%N) ->
  k (pos + List.length n) rest ((name, n) :: c) = Some r ->
  mtch (Group name _NUM) pos (n ++ rest) c k = Some r.
Proof.
  intros Hn Hrest Hk. cbn [mtch].
  apply mtch_NUM_forward; [exact Hn | exact Hrest |].
  rewrite firstn_add_sub. exact Hk.
Qed.

Lemma search_from_hit (r : regex) (pos : nat) (s : text) (m : match_obj) :
  match_at r pos s = Some m -> search_from r pos s = Some m.
Proof. intros H. destruct s; cbn [search_from]; rewrite H; reflexivity. Qed.
End MatcherForward.

Section RangeParse.
Context {U : Py.UnicodeDB}.
Import Py Re Reference.

Ltac by_members H :=
  repeat (destruct H as [<- | H]; [try reflexivity; try discriminate|]);
  try contradiction.

Lemma ascii_digit_members (x : N) :
  is_ascii x = true -> isdigit x = true ->
  In x [48; 49; 50; 51; 52; 53; 54; 55; 56; 57]%N.
Proof.
  unfold isdigit, decimal. intros -> H.
  destruct (ascii_isdigit x) eqn:E; [|discriminate H].
  unfold ascii_isdigit in E. apply andb_true_iff in E. destruct E as [E1 E2].
  apply N.leb_le in E1, E2.
  assert (C : (x = 48 \/ x = 49 \/ x = 50 \/ x = 51 \/ x = 52 \/ x = 53 \/ x = 54
               \/ x = 55 \/ x = 56 \/ x = 57)%N) by lia.
  cbn [In]. intuition.
Qed.

Lemma ascii_space_members (x : N) :
  ascii_isspace x = true -> In x [9; 10; 11; 12; 13; 28; 29; 30; 31; 32]%N.
Proof.
  unfold ascii_isspace. intros H. apply orb_true_iff in H.
  assert (C : (x = 9 \/ x = 10 \/ x = 11 \/ x = 12 \/ x = 13 \/ x = 28 \/ x = 29
               \/ x = 30 \/ x = 31 \/ x = 32)%N).
  { destruct H as [H | H]; apply andb_true_iff in H; destruct H as [H1 H2];
      apply N.leb_le in H1, H2; lia. }
  cbn [In]. intuition.
Qed.

(** What the parser needs to know of a blank. *)
Lemma blank_facts (x : N) :
  ascii_isspace x = true ->
  isspace x = true /\ isdigit x = false /\ x <> 46%N /\ N.eqb 59 x = false.
Proof.
  intros H. apply ascii_space_members in H.
  by_members H; repeat split; discriminate.
Qed.

(** The first character of a separator is no blank, no digit, no point. *)
Lemma separator_facts (sep : text) :
  In sep [[45%N]; [8211%N]; [8212%N]; str "to"] ->
  exists y sep',
    sep = y :: sep' /\ isspace y = false /\ isdigit y = false /\ y <> 46%N /\
    Forall (fun x => N.eqb 59 x = false) sep.
Proof.
  intros H. cbn [In] in H.
  destruct H as [<- | [<- | [<- | [<- | []]]]]; eexists _, _;
    (split; [reflexivity|]).
  - repeat split; try discriminate. repeat constructor.
  - split; [|split; [|split; [discriminate | repeat constructor]]].
    + unfold isspace. cbn. apply uni_isspace_signs. cbn. tauto.
    + unfold isdigit, decimal. cbn. rewrite uni_decimal_signs; [reflexivity|].
      cbn. tauto.
  - split; [|split; [|split; [discriminate | repeat constructor]]].
    + unfold isspace. cbn. apply uni_isspace_signs. cbn. tauto.
    + unfold isdigit, decimal. cbn. rewrite uni_decimal_signs; [reflexivity|].
      cbn. tauto.
  - repeat split; try discriminate. repeat constructor.
Qed.

Lemma mtch_separator_forward {A} (sep rest : text) (pos : nat) (c : caps)
  (k : cont A) (r : A) :
  In sep [[45%N]; [8211%N]; [8212%N]; str "to"] ->
  k (pos + List.length sep)%nat rest c = Some r ->
  mtch (Alt (Chr (one_of [45; 8211; 8212]%N))
            (Seq (Chr (one_of [116]%N)) (Chr (one_of [111]%N))))
    pos (sep ++ rest) c k = Some r.
Proof.
  intros H Hk. cbn [In] in H.
  destruct H as [<- | [<- | [<- | [<- | []]]]]; cbn [List.length] in Hk;
    rewrite ?Nat.add_1_r in Hk.
  - cbn. rewrite Hk. reflexivity.
  - cbn. rewrite Hk. reflexivity.
  - cbn. rewrite Hk. reflexivity.
  - change (List.length (str "to")) with 2%nat in Hk.
    replace (pos + 2)%nat with (S (S pos)) in Hk by lia. cbn. exact Hk.
Qed.

Lemma last_with (A : Type) (P : A -> Prop) (l : list A) :
  l <> [] -> Forall P l -> exists s y, l = s ++ [y] /\ P y.
Proof.
  intros Hne Hall. destruct (exists_last Hne) as (s & y & ->).
  exists s, y. split; [reflexivity|].
  apply Forall_app in Hall. destruct Hall as [_ Hy]. inversion Hy; assumption.
Qed.

(** An ASCII number starts with a sign or a digit and ends with a digit. *)
Lemma number_ends (n : text) :
  lang _NUM n -> forallb is_ascii n = true ->
  (exists x s,
     n = x :: s /\ In x [43; 45; 48; 49; 50; 51; 52; 53; 54; 55; 56; 57]%N) /\
  (exists s y,
     n = s ++ [y] /\ In y [48; 49; 50; 51; 52; 53; 54; 55; 56; 57]%N).
Proof.
  intros Hn Hascii.
  destruct (lang_NUM_inv n Hn) as (sg & d & ds & fr & -> & Hsg & Hd & Hds & Hfr).
  rewrite !forallb_app in Hascii.
  apply andb_true_iff in Hascii. destruct Hascii as [_ Hascii].
  apply andb_true_iff in Hascii. destruct Hascii as [Hint Hfrac].
  assert (Hdd : Forall (fun x => In x [48; 49; 50; 51; 52; 53; 54; 55; 56; 57]%N)
                  (d :: ds)).
  { apply Forall_forall. intros x Hx. apply ascii_digit_members.
    - rewrite forallb_forall in Hint. apply Hint, Hx.
    - assert (Hall : all_digits (d :: ds)) by (constructor; assumption).
      unfold all_digits in Hall. rewrite Forall_forall in Hall. apply Hall, Hx. }
  split.
  - destruct Hsg as [-> | [-> | ->]].
    + exists d, (ds ++ fr). split; [reflexivity|].
      inversion Hdd as [|? ? H0 _]; subst. cbn [In] in *. intuition.
    + eexists _, _. split; [reflexivity|]. cbn. tauto.
    + eexists _, _. split; [reflexivity|]. cbn. tauto.
  - destruct Hfr as [-> | (e & es & -> & He & Hes)].
    + destruct (last_with _ _ (d :: ds) ltac:(discriminate) Hdd) as (s & y & E & Hy).
      exists (sg ++ s), y. split; [|exact Hy].
      rewrite app_nil_r, E, app_assoc. reflexivity.
    + assert (Hee : Forall (fun x => In x [48; 49; 50; 51; 52; 53; 54; 55; 56; 57]%N)
                      (e :: es)).
      { apply Forall_forall. intros x Hx. apply ascii_digit_members.
        - change (is_ascii 46 && forallb is_ascii (e :: es) = true) in Hfrac.
          apply andb_true_iff in Hfrac.
          destruct Hfrac as [_ Hfrac]. rewrite forallb_forall in Hfrac.
          apply Hfrac, Hx.
        - assert (Hall : all_digits (e :: es)) by (constructor; assumption).
          unfold all_digits in Hall. rewrite Forall_forall in Hall. apply Hall, Hx. }
      destruct (last_with _ _ (e :: es) ltac:(discriminate) Hee) as (s & y & E & Hy).
      exists (sg ++ (d :: ds) ++ 46%N :: s), y. split; [|exact Hy].
      rewrite E. rewrite <- !app_assoc. reflexivity.
Qed.

Lemma number_no_semicolon (n : text) :
  lang _NUM n -> Forall (fun x => N.eqb 59 x = false) n.
Proof.
  intros Hn.
  destruct (lang_NUM_inv n Hn) as (sg & d & ds & fr & -> & Hsg & Hd & Hds & Hfr).
  assert (Hdig : forall x, isdigit x = true -> N.eqb 59 x = false).
  { intros x Hx. destruct (N.eqb 59 x) eqn:E; [|reflexivity].
    apply N.eqb_eq in E. subst x. discriminate Hx. }
  assert (Hall : forall l, all_digits l -> Forall (fun x => N.eqb 59 x = false) l).
  { intros l Hl. eapply Forall_impl; [|exact Hl]. exact Hdig. }
  apply Forall_app. split.
  - destruct Hsg as [-> | [-> | ->]]; repeat constructor.
  - apply Forall_app. split.
    + constructor; [apply Hdig, Hd | apply Hall, Hds].
    + destruct Hfr as [-> | (e & es & -> & He & Hes)]; [constructor|].
      constructor; [reflexivity|]. constructor; [apply Hdig, He | apply Hall, Hes].
Qed.

Lemma contains_false (c : N) (t : text) :
  Forall (fun x => N.eqb c x = false) t -> contains c t = false.
Proof.
  unfold contains. induction 1 as [|x t Hx _ IH]; [reflexivity|].
  cbn. rewrite Hx, IH. reflexivity.
Qed.

Lemma strip_fixed (t s1 s2 : text) (x y : N) :
  t = x :: s1 -> t = s2 ++ [y] -> isspace x = false -> isspace y = false ->
  strip t = t.
Proof.
  intros E1 E2 Hx Hy. unfold strip, lstrip_chars, rstrip_chars.
  assert (D : dropwhile isspace t = t) by (rewrite E1; cbn; rewrite Hx; reflexivity).
  rewrite D, E2, rev_unit. cbn [dropwhile]. rewrite Hy.
  cbn [rev]. rewrite rev_involutive. reflexivity.
Qed.

Lemma no_qualitative (x : N) (s : text) :
  In x [43; 45; 48; 49; 50; 51; 52; 53; 54; 55; 56; 57]%N ->
  match_ _QUALITATIVE_RE (x :: s) = None.
Proof. intros H. cbn [In] in H. by_members H. Qed.

Lemma not_blank (x : N) :
  In x [43; 45; 48; 49; 50; 51; 52; 53; 54; 55; 56; 57]%N -> isspace x = false.
Proof. intros H. cbn [In] in H. by_members H. Qed.

(** The range pattern on a number, blanks, a separator, blanks, a number. *)
Lemma search_range_forward (a b w1 w2 sep : text) :
  lang _NUM a -> lang _NUM b -> forallb is_ascii b = true ->
  Forall (fun x => ascii_isspace x = true) w1 ->
  Forall (fun x => ascii_isspace x = true) w2 ->
  In sep [[45%N]; [8211%N]; [8212%N]; str "to"] ->
  search _RANGE_RE (a ++ w1 ++ sep ++ w2 ++ b)
  = Some [("hi"%string, b); ("lo"%string, a)].
Proof.
  intros Ha Hb Hbascii Hw1 Hw2 Hsep. unfold search. apply search_from_hit.
  unfold match_at, _RANGE_RE, seq_of.
  destruct (separator_facts sep Hsep) as (y & sep' & Esep & Hyspace & Hydigit & Hydot & _).
  destruct (proj1 (number_ends b Hb Hbascii)) as (xb & sb & Eb & Hxb).
  assert (Hspaces : forall w, Forall (fun x => ascii_isspace x = true) w ->
                              Forall (fun x => isspace x = true) w).
  { intros w Hw. eapply Forall_impl; [|exact Hw]. intros x Hx. apply blank_facts, Hx. }
  change (mtch (Group "lo" _NUM) 0 (a ++ w1 ++ sep ++ w2 ++ b) []
            (fun pos1 s1 c1 =>
               mtch (Star isspace) pos1 s1 c1
                 (fun pos2 s2 c2 =>
                    mtch (Alt (Chr (one_of [45; 8211; 8212]%N))
                              (Seq (Chr (one_of [116]%N)) (Chr (one_of [111]%N))))
                      pos2 s2 c2
                      (fun pos3 s3 c3 =>
                         mtch (Star isspace) pos3 s3 c3
                           (fun pos4 s4 c4 =>
                              mtch (Group "hi" _NUM) pos4 s4 c4
                                (fun _ _ c => Some c)))))
          = Some [("hi"%string, b); ("lo"%string, a)]).
  apply mtch_group_NUM_forward; [exact Ha | |].
  { right. destruct w1 as [|z w1'].
    - exists y, (sep' ++ w2 ++ b). rewrite Esep. split; [reflexivity|]. auto.
    - exists z, (w1' ++ sep ++ w2 ++ b). split; [reflexivity|].
      inversion Hw1 as [|? ? Hz _]; subst. apply blank_facts in Hz. tauto. }
  cbv beta. apply mtch_star_forward; [apply Hspaces, Hw1 | |].
  { right. exists y, (sep' ++ w2 ++ b). rewrite Esep. split; [reflexivity | exact Hyspace]. }
  cbv beta. apply mtch_separator_forward; [exact Hsep|].
  cbv beta. apply mtch_star_forward; [apply Hspaces, Hw2 | |].
  { right. exists xb, sb. split; [exact Eb | apply not_blank, Hxb]. }
  cbv beta. rewrite <- (app_nil_r b) at 1.
  apply mtch_group_NUM_forward; [exact Hb | left; reflexivity | reflexivity].
Qed.
End RangeParse.

(** X29: a range written as a number, optional blanks, one of the
    separators hyphen, en dash, em dash or [to], optional blanks and a
    number parses to the range from the first number to the second, each
    read by [float], with the input as raw text; the numbers may carry a
    sign and a fraction, and the same holds for every separator. *)
Theorem X29_plain_range_parses (U : Py.UnicodeDB) (a b w1 w2 sep : Py.text) :
  Re.lang Reference._NUM a -> Re.lang Reference._NUM b ->
  forallb Py.is_ascii a = true -> forallb Py.is_ascii b = true ->
  Forall (fun x => Py.ascii_isspace x = true) w1 ->
  Forall (fun x => Py.ascii_isspace x = true) w2 ->
  In sep [[45%N]; [8211%N]; [8212%N]; Py.str "to"] ->
  exists lo hi,
    Py.float_of_text a = Py.Ok lo /\
    Py.float_of_text b = Py.Ok hi /\
    Reference.parse_reference_range (a ++ w1 ++ sep ++ w2 ++ b)
    = Py.Ok (ReferenceRange.mk (Some lo) (Some hi) (a ++ w1 ++ sep ++ w2 ++ b)).
Proof.
  intros Ha Hb Haascii Hbascii Hw1 Hw2 Hsep.
  destruct (float_of_number a Ha) as [lo Hlo].
  destruct (float_of_number b Hb) as [hi Hhi].
  exists lo, hi. split; [exact Hlo|]. split; [exact Hhi|].
  pose proof (search_range_forward a b w1 w2 sep Ha Hb Hbascii Hw1 Hw2 Hsep) as Hsearch.
  destruct (proj1 (number_ends a Ha Haascii)) as (xa & sa & Ea & Hxa).
  destruct (proj2 (number_ends b Hb Hbascii)) as (sb & yb & Eb & Hyb).
  assert (Hsemi : Py.contains 59 (a ++ w1 ++ sep ++ w2 ++ b) = false).
  { apply contains_false.
    destruct (separator_facts sep Hsep) as (y & sep' & _ & _ & _ & _ & Hs).
    assert (Hblank : forall w, Forall (fun x => Py.ascii_isspace x = true) w ->
                               Forall (fun x => N.eqb 59 x = false) w).
    { intros w Hw. eapply Forall_impl; [|exact Hw]. intros x Hx.
      apply blank_facts, Hx. }
    apply Forall_app; split; [apply number_no_semicolon, Ha|].
    apply Forall_app; split; [apply Hblank, Hw1|].
    apply Forall_app; split; [exact Hs|].
    apply Forall_app; split; [apply Hblank, Hw2 | apply number_no_semicolon, Hb]. }
  assert (Hstrip : Py.strip (a ++ w1 ++ sep ++ w2 ++ b) = a ++ w1 ++ sep ++ w2 ++ b).
  { apply (strip_fixed _ (sa ++ w1 ++ sep ++ w2 ++ b) (a ++ w1 ++ sep ++ w2 ++ sb) xa yb).
    - rewrite Ea. reflexivity.
    - rewrite Eb. rewrite <- !app_assoc. reflexivity.
    - apply not_blank, Hxa.
    - apply not_blank. cbn [In] in *. intuition. }
  unfold Reference.parse_reference_range. rewrite Hstrip.
  remember (a ++ w1 ++ sep ++ w2 ++ b) as raw eqn:Eraw.
  assert (Hq : Re.match_ Reference._QUALITATIVE_RE raw = None).
  { rewrite Eraw, Ea. apply no_qualitative, Hxa. }
  destruct raw as [|x0 raw']; [rewrite Ea in Eraw; discriminate Eraw|].
  rewrite Hq, Hsemi. cbn [Py.bind]. rewrite Hsearch.
  unfold Reference.float_group. cbn [Re.group String.eqb Ascii.eqb Bool.eqb].
  rewrite Hlo, Hhi. reflexivity.
Qed.

Lemma X29_plain_range_parses_witness :
  exists lo hi,
    Py.float_of_text (U := Py.ascii_only) (Py.str "-3.5") = Py.Ok lo /\
    Py.float_of_text (U := Py.ascii_only) (Py.str "5.1") = Py.Ok hi /\
    Reference.parse_reference_range (U := Py.ascii_only)
      (Py.str "-3.5" ++ Py.str " " ++ [8211%N] ++ Py.str "  " ++ Py.str "5.1")
    = Py.Ok
        (ReferenceRange.mk (Some lo) (Some hi)
           (Py.str "-3.5" ++ Py.str " " ++ [8211%N] ++ Py.str "  " ++ Py.str "5.1")).
Proof.
  apply (X29_plain_range_parses Py.ascii_only (Py.str "-3.5") (Py.str "5.1")
           (Py.str " ") (Py.str "  ") [8211%N]).
  - apply (@Re.lang_Seq _ _ [45%N] (Py.str "3.5")).
    + apply Re.lang_Opt_some. constructor. reflexivity.
    + apply (@Re.lang_Seq _ _ [51%N] (Py.str ".5")).
      * apply (@Re.lang_Seq _ _ [51%N] []); constructor; [reflexivity | constructor].
      * apply Re.lang_Opt_some.
        apply (@Re.lang_Seq _ _ [46%N] [53%N]); [constructor; reflexivity|].
        apply (@Re.lang_Seq _ _ [53%N] []); constructor; [reflexivity | constructor].
  - apply (@Re.lang_Seq _ _ [] (Py.str "5.1")).
    + apply Re.lang_Opt_none.
    + apply (@Re.lang_Seq _ _ [53%N] (Py.str ".1")).
      * apply (@Re.lang_Seq _ _ [53%N] []); constructor; [reflexivity | constructor].
      * apply Re.lang_Opt_some.
        apply (@Re.lang_Seq _ _ [46%N] [49%N]); [constructor; reflexivity|].
        apply (@Re.lang_Seq _ _ [49%N] []); constructor; [reflexivity | constructor].
  - reflexivity.
  - reflexivity.
  - repeat constructor.
  - repeat constructor.
  - cbn. tauto.
Defined.

Section OneSidedParse.
Context {U : Py.UnicodeDB}.
Import Py Re Reference.

Ltac by_members H :=
  repeat (destruct H as [<- | H]; [try reflexivity; try discriminate|]);
  try contradiction.

Lemma mtch_chr_hit {A} (p : N -> bool) (x : N) (s : text) (pos : nat)
  (c : caps) (k : cont A) (r : A) :
  p x = true -> k (S pos) s c = Some r -> mtch (Chr p) pos (x :: s) c k = Some r.
Proof. intros Hp Hk. cbn [mtch]. rewrite Hp. exact Hk. Qed.

(** A pattern that needs a character of some kind is found in no text
    without such a character. *)
Lemma search_none_of_absent (r : regex) (P : N -> Prop) (s : text) :
  groups_sat (fun _ => True) r ->
  (forall t, lang r t -> Exists P t) ->
  Forall (fun x => ~ P x) s ->
  search r s = None.
Proof.
  intros Hg Hneeds Habsent. destruct (search r s) as [m|] eqn:E; [|reflexivity].
  destruct (search_from_sound (fun _ => True) r Hg s 0 m E)
    as ((pre & t & post & -> & Hl) & _).
  apply Hneeds in Hl. apply Exists_exists in Hl. destruct Hl as (x & Hin & Hx).
  rewrite Forall_forall in Habsent. exfalso. apply (Habsent x); [|exact Hx].
  apply in_or_app. right. apply in_or_app. left. exact Hin.
Qed.

Lemma lang_RANGE_has_separator (t : text) :
  lang _RANGE_RE t -> Exists (fun x => In x [45; 8211; 8212; 116]%N) t.
Proof.
  unfold _RANGE_RE, seq_of. intro H.
  inversion H as [| |? ? lo t1 _ H1| | | | | | | |]; subst; clear H.
  inversion H1 as [| |? ? ws1 t2 _ H2| | | | | | | |]; subst; clear H1.
  inversion H2 as [| |? ? sp t3 Hsp _| | | | | | | |]; subst; clear H2.
  apply Exists_app. right. apply Exists_app. right. apply Exists_app. left.
  inversion Hsp as [| | |? ? ? Hl|? ? ? Hr| | | | | |]; subst.
  - inversion Hl as [|p x Hx| | | | | | | | |]; subst.
    apply one_of_in in Hx. constructor. cbn [In] in *. intuition.
  - inversion Hr as [| |? ? c1 c2 Hc1 _| | | | | | | |]; subst.
    inversion Hc1 as [|p x Hx| | | | | | | | |]; subst.
    apply one_of_in in Hx. constructor. cbn [In] in *. intuition.
Qed.

Lemma lang_UPPER_has_sign (t : text) :
  lang _UPPER_ONLY_RE t -> Exists (fun x => In x [60; 8804]%N) t.
Proof.
  unfold _UPPER_ONLY_RE, seq_of. intro H.
  inversion H as [| |? ? op t1 Hop _| | | | | | | |]; subst; clear H.
  inversion Hop as [|p x Hx| | | | | | | | |]; subst.
  apply one_of_in in Hx. constructor. exact Hx.
Qed.

(** The characters of a number. *)
Lemma number_chars (n : text) :
  lang _NUM n -> Forall (fun x => In x [43; 45; 46]%N \/ isdigit x = true) n.
Proof.
  intros Hn.
  destruct (lang_NUM_inv n Hn) as (sg & d & ds & fr & -> & Hsg & Hd & Hds & Hfr).
  assert (Hall : forall l, all_digits l ->
                           Forall (fun x => In x [43; 45; 46]%N \/ isdigit x = true) l).
  { intros l Hl. eapply Forall_impl; [|exact Hl]. intros x Hx. right. exact Hx. }
  apply Forall_app. split.
  - destruct Hsg as [-> | [-> | ->]]; repeat constructor; cbn; tauto.
  - apply Forall_app. split.
    + constructor; [right; exact Hd | apply Hall, Hds].
    + destruct Hfr as [-> | (e & es & -> & He & Hes)]; [constructor|].
      constructor; [left; cbn; tauto|].
      constructor; [right; exact He | apply Hall, Hes].
Qed.

(** No digit is a separator of ranges or a comparison sign. *)
Lemma digit_is_plain (x : N) :
  isdigit x = true -> ~ In x [45; 8211; 8212; 116; 60; 8804]%N.
Proof.
  intros Hx H. cbn [In] in H.
  assert (E1 : isdigit 8211 = false).
  { unfold isdigit, decimal. cbn. rewrite uni_decimal_signs; [reflexivity | cbn; tauto]. }
  assert (E2 : isdigit 8212 = false).
  { unfold isdigit, decimal. cbn. rewrite uni_decimal_signs; [reflexivity | cbn; tauto]. }
  assert (E3 : isdigit 8804 = false).
  { unfold isdigit, decimal. cbn. rewrite uni_decimal_signs; [reflexivity | cbn; tauto]. }
  destruct H as [<- | [<- | [<- | [<- | [<- | [<- | []]]]]]]; congruence || discriminate Hx.
Qed.

(** The text of a one-sided range has no separator of ranges, and with [>]
    in front no [<] either. *)
Lemma one_sided_plain (o : N) (w1 eq w2 b : text) :
  In o [60; 62]%N -> lang _NUM b -> ~ In 45%N b ->
  Forall (fun x => ascii_isspace x = true) w1 ->
  Forall (fun x => ascii_isspace x = true) w2 ->
  eq = [] \/ eq = [61%N] ->
  Forall (fun x => ~ In x [45; 8211; 8212; 116]%N) ([o] ++ w1 ++ eq ++ w2 ++ b) /\
  (o = 62%N ->
   Forall (fun x => ~ In x [60; 8804]%N) ([o] ++ w1 ++ eq ++ w2 ++ b)) /\
  Forall (fun x => N.eqb 59 x = false) ([o] ++ w1 ++ eq ++ w2 ++ b).
Proof.
  intros Ho Hb Hminus Hw1 Hw2 Heq.
  assert (Hblank : forall w, Forall (fun x => ascii_isspace x = true) w ->
            Forall (fun x => ~ In x [45; 8211; 8212; 116; 60; 8804]%N
                             /\ N.eqb 59 x = false) w).
  { intros w Hw. eapply Forall_impl; [|exact Hw]. intros x Hx.
    apply ascii_space_members in Hx. cbn [In] in Hx.
    by_members Hx; (split; [cbn; intuition discriminate | reflexivity]). }
  assert (Hnum : Forall (fun x => ~ In x [45; 8211; 8212; 116; 60; 8804]%N
                                  /\ N.eqb 59 x = false) b).
  { pose proof (number_chars b Hb) as Hc. pose proof (number_no_semicolon b Hb) as Hs.
    rewrite Forall_forall in *. intros x Hx. split; [|apply Hs, Hx].
    destruct (Hc x Hx) as [Hsign | Hdig]; [|apply digit_is_plain, Hdig].
    cbn [In] in Hsign. destruct Hsign as [<- | [<- | [<- | []]]].
    - cbn. intuition discriminate.
    - contradiction.
    - cbn. intuition discriminate. }
  assert (Hall : Forall (fun x => (o = 62%N -> ~ In x [60; 8804]%N) /\
                                  ~ In x [45; 8211; 8212; 116]%N /\
                                  N.eqb 59 x = false)
                   ([o] ++ w1 ++ eq ++ w2 ++ b)).
  { assert (Hw : forall w,
               Forall (fun x => ~ In x [45; 8211; 8212; 116; 60; 8804]%N
                                /\ N.eqb 59 x = false) w ->
               Forall (fun x => (o = 62%N -> ~ In x [60; 8804]%N) /\
                                ~ In x [45; 8211; 8212; 116]%N /\
                                N.eqb 59 x = false) w).
    { intros w. apply Forall_impl. intros x [Hx Hs]. cbn [In] in *. intuition. }
    apply Forall_app. split.
    - constructor; [|constructor]. cbn [In] in Ho.
      destruct Ho as [<- | [<- | []]]; cbn; intuition discriminate.
    - apply Forall_app. split; [apply Hw, Hblank, Hw1|].
      apply Forall_app. split.
      + destruct Heq as [-> | ->]; [constructor|]. constructor; [|constructor].
        cbn. intuition discriminate.
      + apply Forall_app. split; [apply Hw, Hblank, Hw2 | apply Hw, Hnum]. }
  split; [|split].
  - eapply Forall_impl; [|exact Hall]. intros x H. apply H.
  - intros E. eapply Forall_impl; [|exact Hall]. intros x H. apply H, E.
  - eapply Forall_impl; [|exact Hall]. intros x H. apply H.
Qed.

(** A comparison pattern on its sign, blanks, an optional [=], blanks and a
    number. *)
Lemma search_one_sided_forward (opc : N -> bool) (name : string) (o : N)
  (w1 eq w2 b : text) :
  opc o = true -> lang _NUM b -> forallb is_ascii b = true ->
  Forall (fun x => ascii_isspace x = true) w1 ->
  Forall (fun x => ascii_isspace x = true) w2 ->
  eq = [] \/ eq = [61%N] ->
  search (seq_of [Chr opc; Star isspace; Opt (Chr (one_of [61%N])); Star isspace;
                  Group name _NUM])
    ([o] ++ w1 ++ eq ++ w2 ++ b)
  = Some [(name, b)].
Proof.
  intros Ho Hb Hbascii Hw1 Hw2 Heq. unfold search. apply search_from_hit.
  unfold match_at, seq_of.
  destruct (proj1 (number_ends b Hb Hbascii)) as (xb & sb & Eb & Hxb).
  assert (Hspaces : forall w, Forall (fun x => ascii_isspace x = true) w ->
                              Forall (fun x => isspace x = true) w).
  { intros w Hw. eapply Forall_impl; [|exact Hw]. intros x Hx. apply blank_facts, Hx. }
  assert (Hxb61 : one_of [61%N] xb = false).
  { clear - Hxb. cbn [In] in Hxb. by_members Hxb. }
  assert (Hlast : forall pos c,
             mtch (Group name _NUM) pos b c (fun _ _ c' => Some c')
             = Some ((name, b) :: c)).
  { intros pos c. rewrite <- (app_nil_r b) at 1.
    apply mtch_group_NUM_forward; [exact Hb | left; reflexivity | reflexivity]. }
  change (mtch (Chr opc) 0 (o :: (w1 ++ eq ++ w2 ++ b)) []
            (fun pos1 s1 c1 =>
               mtch (Star isspace) pos1 s1 c1
                 (fun pos2 s2 c2 =>
                    mtch (Opt (Chr (one_of [61%N]))) pos2 s2 c2
                      (fun pos3 s3 c3 =>
                         mtch (Star isspace) pos3 s3 c3
                           (fun pos4 s4 c4 =>
                              mtch (Group name _NUM) pos4 s4 c4
                                (fun _ _ c => Some c)))))
          = Some [(name, b)]).
  apply mtch_chr_hit; [exact Ho|]. cbv beta.
  destruct Heq as [-> | ->].
  - cbn [app]. rewrite app_assoc.
    apply mtch_star_forward.
    + apply Forall_app. split; apply Hspaces; assumption.
    + right. exists xb, sb. split; [exact Eb | apply not_blank, Hxb].
    + cbv beta. rewrite Eb at 1.
      apply mtch_opt_chr_miss; [exact Hxb61|]. cbv beta.
      apply (mtch_star_forward isspace [] (xb :: sb)); [constructor | |].
      * right. exists xb, sb. split; [reflexivity | apply not_blank, Hxb].
      * cbv beta. rewrite <- Eb. apply Hlast.
  - apply mtch_star_forward; [apply Hspaces, Hw1 | |].
    + right. exists 61%N, (w2 ++ b). split; reflexivity.
    + cbv beta. apply mtch_opt_chr_hit; [reflexivity|]. cbv beta.
      apply mtch_star_forward; [apply Hspaces, Hw2 | |].
      * right. exists xb, sb. split; [exact Eb | apply not_blank, Hxb].
      * cbv beta. apply Hlast.
Qed.

Lemma no_qualitative_sign (x : N) (s : text) :
  In x [60; 62]%N -> match_ _QUALITATIVE_RE (x :: s) = None.
Proof. intros H. cbn [In] in H. by_members H. Qed.

(** The path of [parse_reference_range] on a text that is stripped, not
    qualitative and without semicolon. *)
Lemma parse_plain_text (x : N) (s : text) :
  strip (x :: s) = x :: s ->
  match_ _QUALITATIVE_RE (x :: s) = None ->
  contains 59 (x :: s) = false ->
  parse_reference_range (x :: s)
  = match search _RANGE_RE (x :: s) with
    | Some m =>
        bind (float_group m "lo") (fun lo =>
        bind (float_group m "hi") (fun hi =>
        Ok (ReferenceRange.mk (Some lo) (Some hi) (x :: s))))
    | None =>
        match search _UPPER_ONLY_RE (x :: s) with
        | Some m =>
            bind (float_group m "hi") (fun hi =>
            Ok (ReferenceRange.mk None (Some hi) (x :: s)))
        | None =>
            match search _LOWER_ONLY_RE (x :: s) with
            | Some m =>
                bind (float_group m "lo") (fun lo =>
                Ok (ReferenceRange.mk (Some lo) None (x :: s)))
            | None => Ok (ReferenceRange.mk None None (x :: s))
            end
        end
    end.
Proof.
  intros Hstrip Hq Hsemi. unfold parse_reference_range.
  rewrite Hstrip, Hq, Hsemi. reflexivity.
Qed.
End OneSidedParse.

(** X30: a bound written as [<] or [>], optional blanks, an optional [=],
    optional blanks and a number without minus sign parses to a one-sided
    range: [<] gives the number as upper bound and no lower bound, [>] the
    number as lower bound and no upper bound, the input kept as raw text. *)
Theorem X30_one_sided_range_parses (U : Py.UnicodeDB) (w1 eq w2 b : Py.text) :
  Re.lang Reference._NUM b -> forallb Py.is_ascii b = true -> ~ In 45%N b ->
  Forall (fun x => Py.ascii_isspace x = true) w1 ->
  Forall (fun x => Py.ascii_isspace x = true) w2 ->
  eq = [] \/ eq = [61%N] ->
  exists q,
    Py.float_of_text b = Py.Ok q /\
    Reference.parse_reference_range ([60%N] ++ w1 ++ eq ++ w2 ++ b)
    = Py.Ok (ReferenceRange.mk None (Some q) ([60%N] ++ w1 ++ eq ++ w2 ++ b)) /\
    Reference.parse_reference_range ([62%N] ++ w1 ++ eq ++ w2 ++ b)
    = Py.Ok (ReferenceRange.mk (Some q) None ([62%N] ++ w1 ++ eq ++ w2 ++ b)).
Proof.
  intros Hb Hbascii Hminus Hw1 Hw2 Heq.
  destruct (float_of_number b Hb) as [q Hq]. exists q. split; [exact Hq|].
  destruct (proj2 (number_ends b Hb Hbascii)) as (sb & yb & Eb & Hyb).
  assert (Hy : Py.isspace yb = false).
  { apply not_blank. cbn [In] in *. intuition. }
  assert (Hparse : forall o, In o [60; 62]%N ->
            Reference.parse_reference_range ([o] ++ w1 ++ eq ++ w2 ++ b)
            = match Re.search Reference._UPPER_ONLY_RE ([o] ++ w1 ++ eq ++ w2 ++ b) with
              | Some m =>
                  Py.bind (Reference.float_group m "hi") (fun hi =>
                  Py.Ok (ReferenceRange.mk None (Some hi) ([o] ++ w1 ++ eq ++ w2 ++ b)))
              | None =>
                  match Re.search Reference._LOWER_ONLY_RE
                          ([o] ++ w1 ++ eq ++ w2 ++ b) with
                  | Some m =>
                      Py.bind (Reference.float_group m "lo") (fun lo =>
                      Py.Ok (ReferenceRange.mk (Some lo) None
                               ([o] ++ w1 ++ eq ++ w2 ++ b)))
                  | None =>
                      Py.Ok (ReferenceRange.mk None None ([o] ++ w1 ++ eq ++ w2 ++ b))
                  end
              end).
  { intros o Ho.
    destruct (one_sided_plain o w1 eq w2 b Ho Hb Hminus Hw1 Hw2 Heq)
      as (Hnosep & _ & Hnosemi).
    change ([o] ++ w1 ++ eq ++ w2 ++ b) with (o :: (w1 ++ eq ++ w2 ++ b)) in *.
    rewrite parse_plain_text.
    - rewrite (search_none_of_absent Reference._RANGE_RE
                 (fun x => In x [45; 8211; 8212; 116]%N));
        [reflexivity | | apply lang_RANGE_has_separator | exact Hnosep].
      apply (groups_sat_weaken _ _ groups_sat_RANGE).
    - apply (strip_fixed _ (w1 ++ eq ++ w2 ++ b) (o :: (w1 ++ eq ++ w2 ++ sb)) o yb).
      + reflexivity.
      + rewrite Eb. cbn [app]. rewrite <- !app_assoc. reflexivity.
      + cbn [In] in Ho. destruct Ho as [<- | [<- | []]]; reflexivity.
      + exact Hy.
    - apply no_qualitative_sign, Ho.
    - apply contains_false, Hnosemi. }
  split.
  - rewrite (Hparse 60%N) by (cbn; tauto).
    change Reference._UPPER_ONLY_RE
      with (Re.seq_of [Re.Chr (Re.one_of [60; 8804]%N); Re.Star Py.isspace;
                       Re.Opt (Re.Chr (Re.one_of [61%N])); Re.Star Py.isspace;
                       Re.Group "hi" Reference._NUM]).
    rewrite (search_one_sided_forward _ "hi" 60%N w1 eq w2 b eq_refl Hb Hbascii Hw1 Hw2 Heq).
    unfold Reference.float_group. cbn [Re.group String.eqb Ascii.eqb Bool.eqb].
    rewrite Hq. reflexivity.
  - rewrite (Hparse 62%N) by (cbn; tauto).
    destruct (one_sided_plain 62%N w1 eq w2 b ltac:(cbn; tauto) Hb Hminus Hw1 Hw2 Heq)
      as (_ & Hnolt & _).
    rewrite (search_none_of_absent Reference._UPPER_ONLY_RE
               (fun x => In x [60; 8804]%N));
      [ | apply (groups_sat_weaken _ _ groups_sat_UPPER)
        | apply lang_UPPER_has_sign | apply Hnolt; reflexivity].
    change Reference._LOWER_ONLY_RE
      with (Re.seq_of [Re.Chr (Re.one_of [62; 8805]%N); Re.Star Py.isspace;
                       Re.Opt (Re.Chr (Re.one_of [61%N])); Re.Star Py.isspace;
                       Re.Group "lo" Reference._NUM]).
    rewrite (search_one_sided_forward _ "lo" 62%N w1 eq w2 b eq_refl Hb Hbascii Hw1 Hw2 Heq).
    unfold Reference.float_group. cbn [Re.group String.eqb Ascii.eqb Bool.eqb].
    rewrite Hq. reflexivity.
Qed.

Lemma X30_one_sided_range_parses_witness :
  exists q,
    Py.float_of_text (U := Py.ascii_only) (Py.str "5.0") = Py.Ok q /\
    Reference.parse_reference_range (U := Py.ascii_only)
      ([60%N] ++ [] ++ [61%N] ++ Py.str " " ++ Py.str "5.0")
    = Py.Ok (ReferenceRange.mk None (Some q)
               ([60%N] ++ [] ++ [61%N] ++ Py.str " " ++ Py.str "5.0")) /\
    Reference.parse_reference_range (U := Py.ascii_only)
      ([62%N] ++ [] ++ [61%N] ++ Py.str " " ++ Py.str "5.0")
    = Py.Ok (ReferenceRange.mk (Some q) None
               ([62%N] ++ [] ++ [61%N] ++ Py.str " " ++ Py.str "5.0")).
Proof.
  apply (X30_one_sided_range_parses Py.ascii_only [] [61%N] (Py.str " ") (Py.str "5.0")).
  - apply (@Re.lang_Seq _ _ [] (Py.str "5.0")).
    + apply Re.lang_Opt_none.
    + apply (@Re.lang_Seq _ _ [53%N] (Py.str ".0")).
      * apply (@Re.lang_Seq _ _ [53%N] []); constructor; [reflexivity | constructor].
      * apply Re.lang_Opt_some.
        apply (@Re.lang_Seq _ _ [46%N] [48%N]); [constructor; reflexivity|].
        apply (@Re.lang_Seq _ _ [48%N] []); constructor; [reflexivity | constructor].
  - reflexivity.
  - cbn. intuition discriminate.
  - constructor.
  - repeat constructor.
  - right. reflexivity.
Defined.
